(** * re-dashboard: time-windowed production metrics

    A shallow embedding of the aggregation code of [backend/database.py] and
    [backend/main.py], with the properties of its specification.

    Conventions of the embedding.
    - A [datetime] is an instant of the Europe/Istanbul wall clock, counted
      in microseconds (the resolution of Python's [datetime]) from local
      midnight of day 0.  The zone is taken at its fixed +03:00 offset, so
      [astimezone(TIMEZONE)] and [TIMEZONE.localize] keep the instant and
      are not written out.
    - A [timedelta] is a signed number of microseconds;
      [total_seconds] turns it into a number of seconds.
    - Python's [float] arithmetic is idealised as exact arithmetic on the
      rationals [Q]; results are compared with [==].
    - Counts are Python [int]s, hence [Z].
    - The times that reach the endpoints carry an offset (ISO strings ending
      in [Z] or [+hh:mm]), so every [datetime] is aware and the branches
      for naive values are not written out.
    - [asyncio.wait_for(get_production_data(...), timeout=30.0)] is one
      step with three outcomes: the records, a timeout, or an exception.
    - A [while] loop whose number of turns is not known beforehand takes a
      [fuel] argument; the lemmas [*_total] show that the fuel given by the
      callers always suffices. *)

From Stdlib Require Import ZArith QArith Qminmax Qabs List String Bool Lia Lqa.
Import ListNotations.

Open Scope Z_scope.

(** ** Instants and durations *)

Module Time.

Definition datetime := Z.
Definition timedelta := Z.

Definition minutes (n : Z) : timedelta := n * 60000000.
Definition hours (n : Z) : timedelta := n * 3600000000.
Definition days (n : Z) : timedelta := n * 86400000000.

(** [timedelta.total_seconds()] *)
Definition total_seconds (d : timedelta) : Q := d # 1000000.
Arguments total_seconds d%_Z.

(** [datetime.date()], as a day number *)
Definition date (t : datetime) : Z := t / days 1.

(** A time of day, as [datetime.strptime(s, '%H:%M').time()] builds it. *)
Record time := mk_time { hour : Z; minute : Z }.

Definition time_offset (t : time) : timedelta := hours (hour t) + minutes (minute t).

(** Comparison of two times of day ([break_start_time > break_end_time]). *)
Definition time_gtb (t1 t2 : time) : bool := time_offset t2 <? time_offset t1.

(** [datetime.combine(d, t)] *)
Definition combine (d : Z) (t : time) : datetime := days d + time_offset t.

(** [t.replace(minute=0, second=0, microsecond=0)] *)
Definition replace_minute0 (t : datetime) : datetime := t - t mod hours 1.

(** A wall-clock instant from day number, hour and minute; used in examples. *)
Definition at_ (d h m : Z) : datetime := days d + hours h + minutes m.

End Time.

Import Time.

(** ** Shift breaks ([database.py]) *)

(** The keys ['a'] .. ['i'] of [SHIFT_BREAKS]. *)
Module Break.
Inductive id := a | b | c | d | e | f | g | h | i.
End Break.

Record break_info := mk_break { start : time; end_ : time }.

Definition SHIFT_BREAKS (k : Break.id) : break_info :=
  match k with
  | Break.a => mk_break (mk_time 10 0) (mk_time 10 15)
  | Break.b => mk_break (mk_time 12 0) (mk_time 12 30)
  | Break.c => mk_break (mk_time 16 0) (mk_time 16 15)
  | Break.d => mk_break (mk_time 18 0) (mk_time 18 30)
  | Break.e => mk_break (mk_time 20 0) (mk_time 20 30)
  | Break.f => mk_break (mk_time 22 0) (mk_time 22 15)
  | Break.g => mk_break (mk_time 0 0) (mk_time 0 30)
  | Break.h => mk_break (mk_time 3 0) (mk_time 3 15)
  | Break.i => mk_break (mk_time 5 0) (mk_time 5 30)
  end.

(** The dictionary [WORKING_MODE_BREAKS]; [None] is a missing key. *)
Definition WORKING_MODE_BREAKS (mode : string) : option (list Break.id) :=
  if String.eqb mode "mode1" then Some [Break.a; Break.b; Break.e; Break.f; Break.h; Break.i]
  else if String.eqb mode "mode2" then Some [Break.a; Break.b; Break.c; Break.f; Break.g; Break.h; Break.i]
  else if String.eqb mode "mode3" then Some [Break.a; Break.b; Break.c; Break.d; Break.f; Break.g;
                                         Break.h; Break.i]
  else None.

(** The dates visited by [while current_date <= end_date], in order. *)
Definition date_range (current_date end_date : Z) : list Z :=
  map (fun n => current_date + Z.of_nat n)
      (seq 0 (Z.to_nat (end_date - current_date + 1))).

(** One turn of the inner loop of [calculate_break_time]: the break
    [break_info] on the calendar day [current_date]. *)
Definition break_day_step (start_time end_time : datetime) (info : break_info)
    (total_break_seconds : Q) (current_date : Z) : Q :=
  let break_start_time := start info in
  let break_end_time := end_ info in
  let break_start_dt := combine current_date break_start_time in
  let break_end_dt := combine current_date break_end_time in
  let break_end_dt :=
    if time_gtb break_start_time break_end_time
    then break_end_dt + days 1 else break_end_dt in
  let overlap_start := Z.max start_time break_start_dt in
  let overlap_end := Z.min end_time break_end_dt in
  if overlap_start <? overlap_end
  then (total_break_seconds + total_seconds (overlap_end - overlap_start)%Z)%Q
  else total_break_seconds.

Definition calculate_break_time (start_time end_time : datetime)
    (working_mode : string) : Q :=
  let working_mode :=
    match WORKING_MODE_BREAKS working_mode with
    | Some _ => working_mode
    | None => "mode1"%string
    end in
  let applicable_breaks :=
    match WORKING_MODE_BREAKS working_mode with
    | Some l => l
    | None => []
    end in
  fold_left
    (fun total_break_seconds break_id =>
       fold_left (break_day_step start_time end_time (SHIFT_BREAKS break_id))
                 (date_range (date start_time) (date end_time))
                 total_break_seconds)
    applicable_breaks 0%Q.
Arguments calculate_break_time (start_time end_time)%_Z working_mode%_string.

(** ** Query results and derived model records ([database.py]) *)

(** A row of the grouped query: [(Model, SuccessQty, FailQty, Target)].
    [Target] is [None] for SQL NULL. *)
Record row := mk_row {
  row0 : string;
  row1 : Z;
  row2 : Z;
  row3 : option Q
}.

(** The dictionary [model_data]. *)
Module Model.
Record t := mk {
  model : string;
  success_qty : Z;
  fail_qty : Z;
  target : option Q;
  total_qty : Z;
  quality : Q;
  performance : option Q;
  oee : option Q;
  theoretical_qty : Q
}.
Definition set_performance (m : t) (p : option Q) : t :=
  mk (model m) (success_qty m) (fail_qty m) (target m) (total_qty m)
     (quality m) p (oee m) (theoretical_qty m).
Definition set_oee (m : t) (o : option Q) : t :=
  mk (model m) (success_qty m) (fail_qty m) (target m) (total_qty m)
     (quality m) (performance m) o (theoretical_qty m).
Definition set_theoretical_qty (m : t) (q : Q) : t :=
  mk (model m) (success_qty m) (fail_qty m) (target m) (total_qty m)
     (quality m) (performance m) (oee m) q.
End Model.

(** [x > 0] on floats *)
Definition Qpositive (x : Q) : bool := negb (Qle_bool x 0).

(** [t is not None and t > 0]; also [t and t > 0], since [None] and [0]
    are the falsy targets and neither is positive. *)
Definition target_positive (t : option Q) : bool :=
  match t with
  | Some x => Qpositive x
  | None => false
  end.

(** [not t]: the target is [None] or zero. *)
Definition target_falsy (t : option Q) : bool :=
  match t with
  | Some x => Qeq_bool x 0
  | None => true
  end.

(** The numeric value of a target that passed [target_positive]. *)
Definition target_value (t : option Q) : Q :=
  match t with
  | Some x => x
  | None => 0%Q
  end.

(** Lines 129-162 of [get_production_data]: the end of the operating time
    ([actual_end_time]) and the upper bound of the query
    ([final_query_end_time]).  [live] records which branch of
    [if time_difference <= five_minutes] was taken; it is [false] when
    [current_time] is absent. *)
Record resolved := mk_resolved {
  actual_end_time : datetime;
  final_query_end_time : datetime;
  live : bool
}.

Definition resolve_end (start_time end_time : datetime)
    (current_time : option datetime) : resolved :=
  let actual_end_time :=
    match current_time with Some now => now | None => end_time end in
  let actual_end_time :=
    if actual_end_time <? start_time then start_time else actual_end_time in
  let query_end_time := end_time in
  match current_time with
  | Some now =>
      let time_difference := now - query_end_time in
      let five_minutes := minutes 5 in
      if time_difference <=? five_minutes
      then mk_resolved actual_end_time actual_end_time true
      else mk_resolved query_end_time query_end_time false
  | None => mk_resolved actual_end_time query_end_time false
  end.

(** [operation_time_hours] of lines 188-191. *)
Definition operation_time_hours (start_time actual_end_time : datetime)
    (working_mode : string) : Q :=
  let operation_time_total := total_seconds (actual_end_time - start_time) in
  let break_time := calculate_break_time start_time actual_end_time working_mode in
  let operation_time := Qmax (operation_time_total - break_time) 0 in
  (operation_time / 3600)%Q.
Arguments operation_time_hours (start_time actual_end_time)%_Z working_mode%_string.

(** The body of [for row in all_rows] (lines 196-215). *)
Definition first_pass (operation_time_hours : Q) (row : row) : Model.t :=
  let model_data :=
    Model.mk (row0 row) (row1 row) (row2 row) (row3 row) (row1 row)
      (if 0 <? row1 row + row2 row
       then (inject_Z (row1 row) / inject_Z (row1 row + row2 row))%Q
       else 0%Q)
      None None 0%Q in
  if target_positive (row3 row)
  then Model.set_theoretical_qty model_data
         (operation_time_hours * target_value (row3 row))%Q
  else Model.set_theoretical_qty model_data 0%Q.

(** The body of the loop of lines 218-229. *)
Definition second_pass (operation_time_hours : Q) (model_data : Model.t) : Model.t :=
  if target_positive (Model.target model_data)
  then
    let individual_theoretical_qty :=
      (operation_time_hours * target_value (Model.target model_data))%Q in
    let model_data := Model.set_theoretical_qty model_data individual_theoretical_qty in
    if Qpositive individual_theoretical_qty
    then Model.set_performance model_data
           (Some (inject_Z (Model.total_qty model_data) / individual_theoretical_qty)%Q)
    else Model.set_performance model_data (Some 0%Q)
  else
    Model.set_performance (Model.set_theoretical_qty model_data 0%Q) None.

(** The body of the loop of lines 231-233. *)
Definition no_target_pass (model_data : Model.t) : Model.t :=
  if target_positive (Model.target model_data)
  then Model.set_performance model_data (Some 0%Q)
  else model_data.

(** Lines 186-235: the computation on the fetched rows. *)
Definition business_logic (all_rows : list row) (start_time actual_end_time : datetime)
    (working_mode : string) : list Model.t :=
  let operation_time_hours :=
    operation_time_hours start_time actual_end_time working_mode in
  let results := map (first_pass operation_time_hours) all_rows in
  let models_with_target :=
    filter (fun model_data => target_positive (Model.target model_data)) results in
  match models_with_target with
  | _ :: _ => map (second_pass operation_time_hours) results
  | [] => map no_target_pass results
  end.

(** What awaiting a coroutine under [asyncio.wait_for(..., timeout=30.0)]
    ends in: a value, [asyncio.TimeoutError], or another exception with its
    message. *)
Inductive awaited (A : Type) :=
| Done (x : A)
| TimeoutError
| Raised (msg : string).
Arguments Done {A} x.
Arguments TimeoutError {A}.
Arguments Raised {A} msg.

(** The store behind the pool: the outcome of executing the grouped query
    for [(unit_name, start_time, final_query_end_time)]. *)
Definition database := string -> datetime -> datetime -> awaited (list row).

Definition get_production_data (db : database) (unit_name : string)
    (start_time end_time : datetime) (current_time : option datetime)
    (working_mode : string) : awaited (list Model.t) :=
  let r := resolve_end start_time end_time current_time in
  match db unit_name start_time (final_query_end_time r) with
  | Done all_rows =>
      Done (business_logic all_rows start_time (actual_end_time r) working_mode)
  | TimeoutError => TimeoutError
  | Raised msg => Raised msg
  end.

(** ** REST endpoints ([main.py]) *)

(** Python's [sum] over integers and over floats: from [0], left to right. *)
Definition sumZ (l : list Z) : Z := fold_left Z.add l 0.
Definition sumQ (l : list Q) : Q := fold_left Qplus l 0%Q.

(** [sum(m['performance'] for m in production_data
         if m.get('performance') is not None)] *)
Definition performance_sum (production_data : list Model.t) : Q :=
  sumQ (flat_map (fun m => match Model.performance m with
                           | Some p => [p]
                           | None => []
                           end) production_data).

(** What an endpoint hands back: its JSON body, or [HTTPException]. *)
Inductive http_result (A : Type) :=
| Response (body : A)
| HTTPException (status_code : Z) (detail : string).
Arguments Response {A} body.
Arguments HTTPException {A} status_code detail.

(** A Python [dict] with string keys, in insertion order: assigning to a
    key that is present keeps its place and replaces its value. *)
Fixpoint dict_set {A : Type} (k : string) (v : A) (dict : list (string * A))
    : list (string * A) :=
  match dict with
  | [] => [(k, v)]
  | (k', v') :: rest =>
      if String.eqb k k' then (k, v) :: rest else (k', v') :: dict_set k v rest
  end.

(** An entry of [unit_data] in [get_report_data]. *)
Module Unit.
Record t := mk {
  total_success : Z;
  total_fail : Z;
  total_qty : Z;
  quality : Q;
  performance_sum : Q;
  models : list Model.t
}.
End Unit.

(** The ['summary'] of [get_report_data]. *)
Module Summary.
Record t := mk {
  total_success : Z;
  total_fail : Z;
  total_production : Z;
  weighted_quality : Q;
  weighted_performance : Q
}.
End Summary.

Module Report.
Record t := mk {
  units : list (string * Unit.t);
  summary : Summary.t
}.
End Report.

(** The variables that the loop of [get_report_data] updates. *)
Module ReportAcc.
Record t := mk {
  unit_data : list (string * Unit.t);
  total_success_all : Z;
  total_fail_all : Z;
  weighted_quality_sum : Q;
  weighted_performance_sum : Q;
  total_production_all : Z;
  total_success_weight : Z
}.
Definition init : t := mk [] 0 0 0%Q 0%Q 0 0.
End ReportAcc.

(** The unit-level figures of lines 192-208. *)
Definition unit_entry (production_data : list Model.t) : Unit.t :=
  let unit_success := sumZ (map Model.success_qty production_data) in
  let unit_fail := sumZ (map Model.fail_qty production_data) in
  let unit_total := unit_success + unit_fail in
  let unit_quality :=
    if 0 <? unit_total then (inject_Z unit_success / inject_Z unit_total)%Q else 0%Q in
  let unit_performance_sum := performance_sum production_data in
  Unit.mk unit_success unit_fail unit_total unit_quality unit_performance_sum
          production_data.

(** One turn of [for unit_name in unit_list] (lines 177-218). *)
Definition report_step (db : database) (start_dt end_dt current_time : datetime)
    (working_mode : string) (acc : ReportAcc.t) (unit_name : string) : ReportAcc.t :=
  match get_production_data db unit_name start_dt end_dt (Some current_time)
                            working_mode with
  | TimeoutError => acc
  | Raised _ => acc
  | Done production_data =>
      let u := unit_entry production_data in
      let unit_success := Unit.total_success u in
      let unit_fail := Unit.total_fail u in
      let unit_total := Unit.total_qty u in
      let unit_quality := Unit.quality u in
      let unit_performance_sum := Unit.performance_sum u in
      ReportAcc.mk
        (dict_set unit_name u (ReportAcc.unit_data acc))
        (ReportAcc.total_success_all acc + unit_success)
        (ReportAcc.total_fail_all acc + unit_fail)
        (if 0 <? unit_total
         then (ReportAcc.weighted_quality_sum acc + unit_quality * inject_Z unit_total)%Q
         else ReportAcc.weighted_quality_sum acc)
        (if 0 <? unit_success
         then (ReportAcc.weighted_performance_sum acc
               + unit_performance_sum * inject_Z unit_success)%Q
         else ReportAcc.weighted_performance_sum acc)
        (ReportAcc.total_production_all acc + unit_total)
        (if 0 <? unit_success
         then ReportAcc.total_success_weight acc + unit_success
         else ReportAcc.total_success_weight acc)
  end.

(** Lines 220-232: the report built from the final values of the loop's
    variables. *)
Definition report_of (acc : ReportAcc.t) : Report.t :=
  let overall_quality :=
    if 0 <? ReportAcc.total_production_all acc
    then (ReportAcc.weighted_quality_sum acc
          / inject_Z (ReportAcc.total_production_all acc))%Q
    else 0%Q in
  let overall_performance :=
    if 0 <? ReportAcc.total_success_weight acc
    then (ReportAcc.weighted_performance_sum acc
          / inject_Z (ReportAcc.total_success_weight acc))%Q
    else 0%Q in
  Report.mk (ReportAcc.unit_data acc)
    (Summary.mk (ReportAcc.total_success_all acc) (ReportAcc.total_fail_all acc)
                (ReportAcc.total_production_all acc)
                overall_quality overall_performance).

(** [get_report_data].  [unit_list] is the list obtained from the [units]
    parameter by splitting at commas, stripping and dropping empty names;
    [start_dt], [end_dt] are the parsed times and [current_time] is
    [datetime.now(TIMEZONE)]. *)
Definition get_report_data (db : database) (unit_list : list string)
    (start_dt end_dt current_time : datetime) (working_mode : string)
    : http_result Report.t :=
  match unit_list with
  | [] => HTTPException 400 "No units specified"
  | _ :: _ =>
      Response
        (report_of
           (fold_left (report_step db start_dt end_dt current_time working_mode)
                      unit_list ReportAcc.init))
  end.

(** The weighted-target-rate figures shared by the single-unit paths:
    [(total_actual_qty, weighted_target_rate)] over [models_with_target]. *)
Definition models_with_target (production_data : list Model.t) : list Model.t :=
  filter (fun m => target_positive (Model.target m)) production_data.

Definition weighted_target_rate (models_with_target : list Model.t)
    (total_actual_qty : Z) : Q :=
  sumQ (map (fun m => (inject_Z (Model.total_qty m) / inject_Z total_actual_qty
                       * target_value (Model.target m))%Q)
            models_with_target).

(** The body of [get_historical_data]'s response. *)
Module Historical.
Record t := mk {
  unit_name : string;
  total_success : Z;
  total_fail : Z;
  total_qty : Z;
  total_quality : Q;
  total_performance : Q;
  unit_performance_sum : Q;
  total_theoretical_qty : Q;
  models : list Model.t
}.
End Historical.

Definition get_historical_data (db : database) (unit_name : string)
    (start_dt end_dt current_time : datetime) (working_mode : string)
    : http_result Historical.t :=
  match get_production_data db unit_name start_dt end_dt (Some current_time)
                            working_mode with
  | TimeoutError =>
      HTTPException 504 "Database query timeout - try a smaller time range"
  | Raised db_error => HTTPException 500 ("Database error: " ++ db_error)
  | Done production_data =>
      let total_success := sumZ (map Model.success_qty production_data) in
      let total_fail := sumZ (map Model.fail_qty production_data) in
      let total_qty := sumZ (map Model.total_qty production_data) in
      let total_processed := total_success + total_fail in
      let total_quality :=
        if 0 <? total_processed
        then (inject_Z total_success / inject_Z total_processed)%Q else 0%Q in
      let models_with_target := models_with_target production_data in
      let '(total_performance, total_theoretical_qty) :=
        match models_with_target with
        | [] => (None, 0%Q)
        | _ :: _ =>
            let operation_time_total := total_seconds (end_dt - start_dt) in
            let break_time := calculate_break_time start_dt end_dt working_mode in
            let operation_time := Qmax (operation_time_total - break_time) 0 in
            let total_actual_qty := sumZ (map Model.total_qty models_with_target) in
            if 0 <? total_actual_qty
            then
              let weighted_target_rate :=
                weighted_target_rate models_with_target total_actual_qty in
              let total_theoretical_qty :=
                (operation_time / 3600 * weighted_target_rate)%Q in
              (Some (if Qpositive total_theoretical_qty
                     then (inject_Z total_actual_qty / total_theoretical_qty)%Q
                     else 0%Q),
               total_theoretical_qty)
            else (None, 0%Q)
        end in
      let unit_performance_sum := performance_sum production_data in
      Response
        (Historical.mk unit_name total_success total_fail total_qty total_quality
           (match total_performance with Some p => p | None => 0%Q end)
           unit_performance_sum total_theoretical_qty production_data)
  end.

(** ** Hourly breakdown ([main.py]) *)

(** An entry of [hourly_data].  [hour_start] and [hour_end] are kept as
    instants rather than as their [isoformat()] strings; [oee] is [None]
    where the entry has no such key. *)
Module Hour.
Record t := mk {
  hour_start : datetime;
  hour_end : datetime;
  success_qty : Z;
  fail_qty : Z;
  total_qty : Z;
  quality : Q;
  performance : Q;
  oee : option Q;
  theoretical_qty : Q
}.
End Hour.

(** The figures of one bucket (lines 335-371 and 617-650). *)
Definition hour_entry (current_hour hour_end : datetime) (hour_data : list Model.t)
    (working_mode : string) (oee : option Q) : Hour.t :=
  let hour_success := sumZ (map Model.success_qty hour_data) in
  let hour_fail := sumZ (map Model.fail_qty hour_data) in
  let hour_total := sumZ (map Model.total_qty hour_data) in
  let hour_quality :=
    if 0 <? hour_success + hour_fail
    then (inject_Z hour_success / inject_Z (hour_success + hour_fail))%Q else 0%Q in
  let models_with_target := models_with_target hour_data in
  let '(hour_performance, hour_theoretical_qty) :=
    match models_with_target with
    | [] => (0%Q, 0%Q)
    | _ :: _ =>
        let hour_op_time := total_seconds (hour_end - current_hour) in
        let hour_break := calculate_break_time current_hour hour_end working_mode in
        let hour_op_time := Qmax (hour_op_time - hour_break) 0 in
        let hour_actual_qty := sumZ (map Model.total_qty models_with_target) in
        if 0 <? hour_actual_qty
        then
          let weighted_rate := weighted_target_rate models_with_target hour_actual_qty in
          let hour_theoretical_qty := (hour_op_time / 3600 * weighted_rate)%Q in
          (if Qpositive hour_theoretical_qty
           then (inject_Z hour_actual_qty / hour_theoretical_qty)%Q else 0%Q,
           hour_theoretical_qty)
        else (0%Q, 0%Q)
    end in
  Hour.mk current_hour hour_end hour_success hour_fail hour_total hour_quality
          hour_performance oee hour_theoretical_qty.

(** The variables that the loop of [get_historical_hourly_data] updates. *)
Module HourlyAcc.
Record t := mk {
  hourly_data : list Hour.t;
  total_success : Z;
  total_fail : Z;
  total_qty : Z
}.
Definition init : t := mk [] 0 0 0.
End HourlyAcc.

(** [while current_hour < end_dt] of [get_historical_hourly_data]
    (lines 317-372).  [fuel] bounds the number of turns; [None] is a run
    that was cut short by it. *)
Fixpoint historical_hourly_loop (fuel : nat) (db : database) (unit_name : string)
    (end_dt current_time : datetime) (working_mode : string)
    (current_hour : datetime) (acc : HourlyAcc.t) : option HourlyAcc.t :=
  if current_hour <? end_dt then
    match fuel with
    | O => None
    | S fuel =>
        let hour_end := Z.min (current_hour + hours 1) end_dt in
        match get_production_data db unit_name current_hour hour_end
                                  (Some current_time) working_mode with
        | TimeoutError | Raised _ =>
            historical_hourly_loop fuel db unit_name end_dt current_time working_mode
                                   hour_end acc
        | Done hour_data =>
            let entry := hour_entry current_hour hour_end hour_data working_mode None in
            historical_hourly_loop fuel db unit_name end_dt current_time working_mode
              hour_end
              (HourlyAcc.mk (HourlyAcc.hourly_data acc ++ [entry])
                 (HourlyAcc.total_success acc + Hour.success_qty entry)
                 (HourlyAcc.total_fail acc + Hour.fail_qty entry)
                 (HourlyAcc.total_qty acc + Hour.total_qty entry))
        end
    end
  else Some acc.

(** Turns that suffice for a cursor at [current_hour] to reach [end_]:
    every turn but the last moves it by one hour. *)
Definition hourly_fuel (current_hour end_ : datetime) : nat :=
  Z.to_nat ((end_ - current_hour) / hours 1 + 1).

(** The body of [get_historical_hourly_data]'s response. *)
Module HistoricalHourly.
Record t := mk {
  unit_name : string;
  total_success : Z;
  total_fail : Z;
  total_qty : Z;
  total_quality : Q;
  total_performance : Q;
  total_theoretical_qty : Q;
  hourly_data : list Hour.t
}.
End HistoricalHourly.

Definition get_historical_hourly_data (db : database) (unit_name : string)
    (start_dt end_dt current_time : datetime) (working_mode : string)
    : option (http_result HistoricalHourly.t) :=
  let current_hour := replace_minute0 start_dt in
  match historical_hourly_loop (hourly_fuel current_hour end_dt) db unit_name end_dt
                               current_time working_mode current_hour HourlyAcc.init with
  | None => None
  | Some acc =>
      let hourly_data := HourlyAcc.hourly_data acc in
      let total_success := HourlyAcc.total_success acc in
      let total_fail := HourlyAcc.total_fail acc in
      let total_qty := HourlyAcc.total_qty acc in
      let total_quality :=
        if 0 <? total_success + total_fail
        then (inject_Z total_success / inject_Z (total_success + total_fail))%Q
        else 0%Q in
      let total_theoretical_qty := sumQ (map Hour.theoretical_qty hourly_data) in
      let total_performance :=
        if Qpositive total_theoretical_qty
        then (inject_Z total_qty / total_theoretical_qty)%Q else 0%Q in
      Some (Response
              (HistoricalHourly.mk unit_name total_success total_fail total_qty
                 total_quality total_performance total_theoretical_qty hourly_data))
  end.

(** Lines 588-594 of [hourly_websocket_endpoint]: [(is_live_data,
    actual_end_for_hourly)]. *)
Definition hourly_live (end_time current_time : datetime) : bool * datetime :=
  let abs_diff := Qabs (total_seconds (current_time - end_time)) in
  let is_live_data := Qle_bool abs_diff 300 in
  (is_live_data, if is_live_data then current_time else end_time).

(** [while current_hour < actual_end_for_hourly] of
    [hourly_websocket_endpoint] (lines 596-655). *)
Fixpoint ws_hourly_loop (fuel : nat) (db : database) (unit_name : string)
    (is_live_data : bool) (actual_end_for_hourly current_time : datetime)
    (working_mode : string) (current_hour : datetime) (hourly_data : list Hour.t)
    : option (list Hour.t) :=
  if current_hour <? actual_end_for_hourly then
    match fuel with
    | O => None
    | S fuel =>
        let hour_end := current_hour + hours 1 in
        let hour_end :=
          if is_live_data && (current_hour <? current_time) && (current_time <? hour_end)
          then current_time
          else Z.min hour_end actual_end_for_hourly in
        let next_hour :=
          if is_live_data && (hour_end =? current_time)
          then current_hour + hours 1
          else hour_end in
        match get_production_data db unit_name current_hour hour_end
                                  (Some current_time) working_mode with
        | TimeoutError | Raised _ =>
            ws_hourly_loop fuel db unit_name is_live_data actual_end_for_hourly
                           current_time working_mode next_hour hourly_data
        | Done hour_data =>
            let entry :=
              hour_entry current_hour hour_end hour_data working_mode (Some 0%Q) in
            ws_hourly_loop fuel db unit_name is_live_data actual_end_for_hourly
                           current_time working_mode next_hour (hourly_data ++ [entry])
        end
    end
  else Some hourly_data.

(** Lines 584-655: the hourly breakdown pushed on the hourly channel. *)
Definition ws_hourly_breakdown (db : database) (unit_name : string)
    (start_time end_time current_time : datetime) (working_mode : string)
    : option (list Hour.t) :=
  let current_hour := replace_minute0 start_time in
  let '(is_live_data, actual_end_for_hourly) := hourly_live end_time current_time in
  ws_hourly_loop (hourly_fuel current_hour actual_end_for_hourly) db unit_name
                 is_live_data actual_end_for_hourly current_time working_mode
                 current_hour [].

(** ** Streaming sessions ([main.py]) *)

(** The loop-local parameters of a session: the path parameter [unit_name]
    and the variables [start_time], [end_time], [working_mode]. *)
Module Params.
Record t := mk {
  unit_name : string;
  start_time : datetime;
  end_time : datetime;
  working_mode : string
}.
End Params.

(** A decoded client message ([json.loads]).  [heartbeat] is the truth value
    of [new_params.get('heartbeat')]; [start_time] and [end_time] are the
    instants read by [datetime.fromisoformat], [None] when the key is
    missing or its text does not parse; [working_mode] is [None] when the
    key is missing. *)
Module Msg.
Record t := mk {
  heartbeat : bool;
  start_time : option datetime;
  end_time : option datetime;
  working_mode : option string
}.
End Msg.

(** [_parse_ws_params]; [None] when it raises. *)
Definition _parse_ws_params (params : Msg.t) : option (datetime * datetime * string) :=
  match Msg.start_time params, Msg.end_time params with
  | Some start_time, Some end_time =>
      let working_mode :=
        match Msg.working_mode params with
        | Some m => m
        | None => "mode1"%string
        end in
      Some (start_time, end_time, working_mode)
  | _, _ => None
  end.

(** What [asyncio.wait_for(websocket.receive_text(), timeout=PUSH_INTERVAL)]
    followed by [json.loads] ends in. *)
Inductive received :=
| NoMessage                    (* asyncio.TimeoutError *)
| Message (new_params : Msg.t)
| Malformed                    (* json.loads raises *)
| Disconnected.                (* WebSocketDisconnect *)

(** The ['summary'] of the standard channel's snapshot. *)
Module StandardSummary.
Record t := mk {
  total_success : Z;
  total_fail : Z;
  total_qty : Z;
  total_quality : Q;
  total_performance : Q;
  unit_performance_sum : Q
}.
End StandardSummary.

Module StandardResponse.
Record t := mk {
  unit_name : string;
  models : list Model.t;
  summary : StandardSummary.t
}.
End StandardResponse.

Module HourlyResponse.
Record t := mk {
  unit_name : string;
  total_success : Z;
  total_fail : Z;
  total_qty : Z;
  total_quality : Q;
  total_performance : Q;
  total_oee : Q;
  total_theoretical_qty : Q;
  hourly_data : list Hour.t
}.
End HourlyResponse.

(** What a session sends with [websocket.send_json]. *)
Inductive sent :=
| SendError (error : string)
| SendStandard (response_data : StandardResponse.t)
| SendHourly (response_data : HourlyResponse.t)
| SendHeartbeat (timestamp : Q).

(** Lines 497-506 and 689-698, the same in both endpoints: the wait for a
    client message after a push.  The result is what is sent and the
    parameters of the next iteration, [None] when an exception ends the
    session. *)
Definition receive_phase (msg : received) (timestamp : Q) (p : Params.t)
    : list sent * option Params.t :=
  match msg with
  | NoMessage => ([], Some p)
  | Message new_params =>
      if Msg.heartbeat new_params
      then ([SendHeartbeat timestamp], Some p)
      else
        match _parse_ws_params new_params with
        | Some (start_time, end_time, working_mode) =>
            ([], Some (Params.mk (Params.unit_name p) start_time end_time working_mode))
        | None => ([], None)
        end
  | Malformed => ([], None)
  | Disconnected => ([], None)
  end.

(** Lines 459-462 and 565-568: the end of the operating time used for the
    totals of a snapshot. *)
Definition ws_actual_end (end_time current_time : datetime) : datetime :=
  if current_time - end_time <=? minutes 5 then current_time else end_time.

(** [op_time] of lines 464-466 and 570-572. *)
Definition ws_op_time (start_time actual_end : datetime) (working_mode : string) : Q :=
  let op_total := Qmax (total_seconds (actual_end - start_time)) 0 in
  let brk := calculate_break_time start_time actual_end working_mode in
  Qmax (op_total - brk) 0.

(** Lines 435-486 of [websocket_endpoint]. *)
Definition standard_response (p : Params.t) (current_time : datetime)
    (production_data : list Model.t) : StandardResponse.t :=
  let production_data :=
    map (fun model =>
           if target_falsy (Model.target model)
           then Model.set_oee (Model.set_performance model None) None
           else model) production_data in
  let total_success := sumZ (map Model.success_qty production_data) in
  let total_fail := sumZ (map Model.fail_qty production_data) in
  let total_qty := sumZ (map Model.total_qty production_data) in
  let total_processed := total_success + total_fail in
  let total_quality :=
    if 0 <? total_processed
    then (inject_Z total_success / inject_Z total_processed)%Q else 0%Q in
  let models_with_target := models_with_target production_data in
  let total_performance :=
    match models_with_target with
    | [] => 0%Q
    | _ :: _ =>
        let total_actual_qty := sumZ (map Model.total_qty models_with_target) in
        let total_theoretical_qty :=
          if 0 <? total_actual_qty
          then
            let weighted_target_rate :=
              weighted_target_rate models_with_target total_actual_qty in
            let actual_end := ws_actual_end (Params.end_time p) current_time in
            let op_time :=
              ws_op_time (Params.start_time p) actual_end (Params.working_mode p) in
            (op_time / 3600 * weighted_target_rate)%Q
          else 0%Q in
        if Qpositive total_theoretical_qty
        then (inject_Z total_actual_qty / total_theoretical_qty)%Q else 0%Q
    end in
  let unit_performance_sum := performance_sum production_data in
  StandardResponse.mk (Params.unit_name p) production_data
    (StandardSummary.mk total_success total_fail total_qty total_quality
                        total_performance unit_performance_sum).

(** Lines 551-582 and 657-678 of [hourly_websocket_endpoint]. *)
Definition hourly_response (p : Params.t) (current_time : datetime)
    (raw_data : list Model.t) (hourly_data : list Hour.t) : HourlyResponse.t :=
  let total_success := sumZ (map Model.success_qty raw_data) in
  let total_fail := sumZ (map Model.fail_qty raw_data) in
  let total_qty := sumZ (map Model.total_qty raw_data) in
  let total_processed := total_success + total_fail in
  let total_quality :=
    if 0 <? total_processed
    then (inject_Z total_success / inject_Z total_processed)%Q else 0%Q in
  let models_with_target := models_with_target raw_data in
  let total_performance : option Q :=
    match models_with_target with
    | [] => None
    | _ :: _ =>
        let actual_end := ws_actual_end (Params.end_time p) current_time in
        let op_time :=
          ws_op_time (Params.start_time p) actual_end (Params.working_mode p) in
        let total_actual_qty := sumZ (map Model.total_qty models_with_target) in
        let total_theoretical_qty :=
          if 0 <? total_actual_qty
          then (op_time / 3600
                * weighted_target_rate models_with_target total_actual_qty)%Q
          else 0%Q in
        Some (if Qpositive total_theoretical_qty
              then (inject_Z total_actual_qty / total_theoretical_qty)%Q else 0%Q)
    end in
  let total_oee : option Q := None in
  let total_theoretical_qty := sumQ (map Hour.theoretical_qty hourly_data) in
  HourlyResponse.mk (Params.unit_name p) total_success total_fail total_qty
    total_quality
    (match total_performance with Some x => x | None => 0%Q end)
    (match total_oee with Some x => x | None => 0%Q end)
    total_theoretical_qty hourly_data.

(** What one turn of [while True] meets: the clock, the store, whether
    [websocket.client_state] is [CONNECTED], the client message of the wait
    and the reading of [time.time()]. *)
Module Env.
Record t := mk {
  current_time : datetime;
  db : database;
  connected : bool;
  msg : received;
  timestamp : Q
}.
End Env.

(** The answer to a query that timed out or failed (lines 421-432 and
    538-549): an error message if the client is connected, then the next
    turn with the same parameters. *)
Definition query_failed (env : Env.t) (error : string) (p : Params.t)
    : list sent * option Params.t :=
  ((if Env.connected env then [SendError error] else []), Some p).

(** One turn of the loop of [websocket_endpoint] (lines 412-506). *)
Definition standard_iteration (env : Env.t) (p : Params.t)
    : list sent * option Params.t :=
  let current_time := Env.current_time env in
  match get_production_data (Env.db env) (Params.unit_name p) (Params.start_time p)
          (Params.end_time p) (Some current_time) (Params.working_mode p) with
  | TimeoutError =>
      query_failed env "Database query timeout - try a smaller time range" p
  | Raised db_error => query_failed env ("Database error: " ++ db_error) p
  | Done production_data =>
      let response_data := standard_response p current_time production_data in
      if negb (Env.connected env) then ([], None)
      else
        let '(out, next) := receive_phase (Env.msg env) (Env.timestamp env) p in
        (SendStandard response_data :: out, next)
  end.

(** One turn of the loop of [hourly_websocket_endpoint] (lines 529-698);
    [None] only if the hourly loop was cut short by its fuel. *)
Definition hourly_iteration (env : Env.t) (p : Params.t)
    : option (list sent * option Params.t) :=
  let current_time := Env.current_time env in
  match get_production_data (Env.db env) (Params.unit_name p) (Params.start_time p)
          (Params.end_time p) (Some current_time) (Params.working_mode p) with
  | TimeoutError =>
      Some (query_failed env "Database query timeout - try a smaller time range" p)
  | Raised db_error => Some (query_failed env ("Database error: " ++ db_error) p)
  | Done raw_data =>
      match ws_hourly_breakdown (Env.db env) (Params.unit_name p)
              (Params.start_time p) (Params.end_time p) current_time
              (Params.working_mode p) with
      | None => None
      | Some hourly_data =>
          let response_data := hourly_response p current_time raw_data hourly_data in
          if negb (Env.connected env) then Some ([], None)
          else
            let '(out, next) := receive_phase (Env.msg env) (Env.timestamp env) p in
            Some (SendHourly response_data :: out, next)
      end
  end.

(** A session run against the successive environments of its turns: what is
    sent in all, and the parameters left for the next turn ([None] once the
    session is closed). *)
Fixpoint standard_session (envs : list Env.t) (p : Params.t)
    : list sent * option Params.t :=
  match envs with
  | [] => ([], Some p)
  | env :: envs =>
      let '(out, next) := standard_iteration env p in
      match next with
      | None => (out, None)
      | Some p' =>
          let '(out', final) := standard_session envs p' in
          (out ++ out', final)
      end
  end.

(** ** Auxiliary definitions for the statements and proofs *)

(** The microseconds that the break [info] of day [current_date] shares
    with the window: what one turn of the inner loop adds. *)
Definition overlap (start_time end_time : datetime) (info : break_info)
    (current_date : Z) : timedelta :=
  let break_start_dt := combine current_date (start info) in
  let break_end_dt :=
    if time_gtb (start info) (end_ info)
    then combine current_date (end_ info) + days 1
    else combine current_date (end_ info) in
  Z.max 0 (Z.min end_time break_end_dt - Z.max start_time break_start_dt).

(** [sum_over f l] is the sum of [f x] for [x] in [l]. *)
Definition sum_over {A : Type} (f : A -> Z) (l : list A) : Z :=
  fold_right (fun x acc => f x + acc) 0 l.

(** The break codes that [calculate_break_time] goes through for a mode. *)
Definition applicable_breaks (working_mode : string) : list Break.id :=
  match WORKING_MODE_BREAKS working_mode with
  | Some l => l
  | None => [Break.a; Break.b; Break.e; Break.f; Break.h; Break.i]
  end.

(** Total break time in microseconds. *)
Definition break_microseconds (start_time end_time : datetime)
    (working_mode : string) : timedelta :=
  sum_over
    (fun break_id =>
       sum_over (overlap start_time end_time (SHIFT_BREAKS break_id))
                (date_range (date start_time) (date end_time)))
    (applicable_breaks working_mode).

(** A row has a positive target rate. *)
Definition has_positive_target (r : row) : Prop :=
  exists t, row3 r = Some t /\ (0 < t)%Q.

(** What the two passes of [business_logic] make of one row: after the
    first pass the record goes through [second_pass] or through
    [no_target_pass]. *)
Definition model_of_row (with_target : bool) (operation_time_hours : Q) (r : row)
    : Model.t :=
  if with_target
  then second_pass operation_time_hours (first_pass operation_time_hours r)
  else no_target_pass (first_pass operation_time_hours r).

(** A store that answers every query with the same rows. *)
Definition const_db (all_rows : list row) : database :=
  fun _ _ _ => Done all_rows.

(** [sumQ_over f l] is the sum of [f x] for [x] in [l]. *)
Definition sumQ_over {A : Type} (f : A -> Q) (l : list A) : Q :=
  fold_right (fun x acc => (f x + acc)%Q) 0%Q l.

(** The units of [unit_list] whose query succeeded, in the order of the
    list and as often as they are listed, each with its entry. *)
Definition successful_units (db : database) (start_dt end_dt current_time : datetime)
    (working_mode : string) (unit_list : list string) : list (string * Unit.t) :=
  flat_map
    (fun unit_name =>
       match get_production_data db unit_name start_dt end_dt (Some current_time)
                                 working_mode with
       | Done production_data => [(unit_name, unit_entry production_data)]
       | TimeoutError => []
       | Raised _ => []
       end)
    unit_list.

(** The store only gives rows with non-negative counts, as the sums of 0/1
    indicators of the query are. *)
Definition counts_nonneg (db : database) : Prop :=
  forall unit_name s e' all_rows,
    db unit_name s e' = Done all_rows ->
    Forall (fun r => 0 <= row1 r /\ 0 <= row2 r) all_rows.

(** A store with two units, [A] with 10 successes and no failure and [B]
    with 5 successes and 5 failures; the query of unit [T] times out and
    that of any other unit fails. *)
Definition example_db : database :=
  fun unit_name _ _ =>
    if String.eqb unit_name "A" then Done [mk_row "M1" 10 0 None]
    else if String.eqb unit_name "B" then Done [mk_row "M2" 5 5 None]
    else if String.eqb unit_name "T" then TimeoutError
    else Raised "unknown unit".

(** The query of the unit succeeds. *)
Definition query_succeeds (db : database) (start_dt end_dt current_time : datetime)
    (working_mode : string) (unit_name : string) : bool :=
  match get_production_data db unit_name start_dt end_dt (Some current_time)
                            working_mode with
  | Done _ => true
  | TimeoutError => false
  | Raised _ => false
  end.

(** The bounds [(hour_start, hour_end)] of the buckets of a breakdown. *)
Definition bounds (hourly_data : list Hour.t) : list (datetime * datetime) :=
  map (fun entry => (Hour.hour_start entry, Hour.hour_end entry)) hourly_data.

(** [partitions lo hi buckets]: the buckets follow one another from [lo] to
    [hi] without gap or overlap, none is empty, and each lasts one hour
    except that the last may be shorter. *)
Fixpoint partitions (lo hi : datetime) (buckets : list (datetime * datetime)) : Prop :=
  match buckets with
  | [] => lo = hi
  | (hour_start, hour_end) :: rest =>
      hour_start = lo
      /\ hour_start < hour_end
      /\ (hour_end - hour_start = hours 1
          \/ (hour_end - hour_start < hours 1 /\ rest = []))
      /\ partitions hour_end hi rest
  end.

(** The buckets of a breakdown from [lo] to [hi]: a partition if [lo] is
    before [hi], none otherwise. *)
Definition buckets_of (lo hi : datetime) (hourly_data : list Hour.t) : Prop :=
  if lo <? hi then partitions lo hi (bounds hourly_data) else hourly_data = [].

(** Every query of the unit succeeds. *)
Definition always_answers (db : database) (unit_name : string) : Prop :=
  forall s e', exists all_rows, db unit_name s e' = Done all_rows.

(** A store in which the queries of every unit succeed, except those that
    start at 11:00 of day 0, which time out. *)
Definition gap_db : database :=
  fun _ s _ => if s =? at_ 0 11 0 then TimeoutError else Done [].

(** The wait ended with a client message that is not a heartbeat. *)
Definition is_param_message (msg : received) : bool :=
  match msg with
  | Message new_params => negb (Msg.heartbeat new_params)
  | NoMessage => false
  | Malformed => false
  | Disconnected => false
  end.

(** A heartbeat message, and a message with new parameters. *)
Definition heartbeat_message : Msg.t := Msg.mk true None None None.
Definition update_message : Msg.t :=
  Msg.mk false (Some (at_ 1 8 0)) (Some (at_ 1 16 0)) (Some "mode2"%string).

(** The parameters of a session on unit [U1] over a shift of day 0, and a
    turn of its loop: the query succeeds, the client is connected, and the
    wait ends with [msg]. *)
Definition example_params : Params.t :=
  Params.mk "U1" (at_ 0 8 0) (at_ 0 16 0) "mode1".
Definition example_env (msg : received) : Env.t :=
  Env.mk (at_ 0 12 0) (const_db [mk_row "M1" 80 20 (Some 100%Q)]) true msg 1234%Q.

(** The microseconds that the interval from [lo] to [hi] shares with the
    window from [start_time] to [end_time]. *)
Definition interval_overlap (start_time end_time lo hi : datetime) : timedelta :=
  Z.max 0 (Z.min end_time hi - Z.max start_time lo).

(** [chain lo hi intervals]: the intervals lie between [lo] and [hi], in
    order, none beginning before the one before it ends. *)
Fixpoint chain (lo hi : datetime) (intervals : list (datetime * datetime)) : Prop :=
  match intervals with
  | [] => lo <= hi
  | (x, y) :: rest => lo <= x /\ x <= y /\ chain y hi rest
  end.

(** The instants between which the break [info] of day [current_date]
    lies. *)
Definition break_interval (info : break_info) (current_date : Z)
    : datetime * datetime :=
  (combine current_date (start info),
   if time_gtb (start info) (end_ info)
   then combine current_date (end_ info) + days 1
   else combine current_date (end_ info)).

(** The calendar day [current_date], from midnight to midnight. *)
Definition day_interval (current_date : Z) : datetime * datetime :=
  (days current_date, days (current_date + 1)).

(** [dict.get(k)] on a dictionary in insertion order. *)
Fixpoint dict_get {A : Type} (k : string) (dict : list (string * A)) : option A :=
  match dict with
  | [] => None
  | (k', v) :: rest => if String.eqb k k' then Some v else dict_get k rest
  end.

(** An entry of [hourly_data] with its [oee] key set. *)
Definition hour_with_oee (oee : option Q) (entry : Hour.t) : Hour.t :=
  Hour.mk (Hour.hour_start entry) (Hour.hour_end entry) (Hour.success_qty entry)
          (Hour.fail_qty entry) (Hour.total_qty entry) (Hour.quality entry)
          (Hour.performance entry) oee (Hour.theoretical_qty entry).

(** A bucket that begins on the hour, is not empty, lasts an hour at most
    and ends by [end_]. *)
Definition hour_bucket (end_ : datetime) (bucket : datetime * datetime) : Prop :=
  fst bucket mod hours 1 = 0
  /\ fst bucket < snd bucket
  /\ snd bucket - fst bucket <= hours 1
  /\ snd bucket <= end_.

(** A store whose every query fails. *)
Definition failing_db : database := fun _ _ _ => Raised "connection lost".

(** ** The connection registry ([ConnectionManager] of [main.py]) *)

(** A websocket, as the object it is: two are equal when they are the same
    connection. *)
Definition WebSocket := nat.

(** [self.active_connections], a dictionary from the connection type to
    the list of its websockets. *)
Definition ConnectionManager := list (string * list WebSocket).

(** [ConnectionManager.__init__] *)
Definition manager_init : ConnectionManager :=
  [("standard"%string, []); ("hourly"%string, [])].

(** [conns.remove(websocket)] for a websocket that [conns] holds: the first
    occurrence goes. *)
Fixpoint list_remove (websocket : WebSocket) (conns : list WebSocket)
    : list WebSocket :=
  match conns with
  | [] => []
  | c :: rest =>
      if Nat.eqb websocket c then rest else c :: list_remove websocket rest
  end.

(** [ConnectionManager.connect], after [websocket.accept()]. *)
Definition connect (self : ConnectionManager) (websocket : WebSocket)
    (connection_type : string) : ConnectionManager :=
  let self :=
    match dict_get connection_type self with
    | None => dict_set connection_type [] self
    | Some _ => self
    end in
  match dict_get connection_type self with
  | Some conns => dict_set connection_type (conns ++ [websocket]) self
  | None => self
  end.

(** [ConnectionManager.disconnect] *)
Definition disconnect (self : ConnectionManager) (websocket : WebSocket)
    (connection_type : string) : ConnectionManager :=
  match dict_get connection_type self with
  | Some conns =>
      if existsb (Nat.eqb websocket) conns
      then dict_set connection_type (list_remove websocket conns) self
      else self
  | None => self
  end.

(** [ConnectionManager.broadcast]: the texts sent, each with the websocket
    it is sent to. *)
Definition broadcast (self : ConnectionManager) (message : string)
    (connection_type : string) : list (WebSocket * string) :=
  match dict_get connection_type self with
  | Some conns => map (fun connection => (connection, message)) conns
  | None => []
  end.

(** The websockets registered under a connection type, none if the type is
    no key of the dictionary. *)
Definition connections (self : ConnectionManager) (connection_type : string)
    : list WebSocket :=
  match dict_get connection_type self with
  | Some conns => conns
  | None => []
  end.

(** The hour buckets from the cursor [current_hour] to [end_]: the spans
    that the cursor of an hourly loop goes through, one hour each, the last
    cut at [end_]. *)
Fixpoint hour_spans_from (fuel : nat) (current_hour end_ : datetime)
    : list (datetime * datetime) :=
  if current_hour <? end_ then
    match fuel with
    | O => []
    | S fuel =>
        let hour_end := Z.min (current_hour + hours 1) end_ in
        (current_hour, hour_end) :: hour_spans_from fuel hour_end end_
    end
  else [].

Definition hour_spans (lo hi : datetime) : list (datetime * datetime) :=
  hour_spans_from (hourly_fuel lo hi) lo hi.

(** The query of the bucket succeeds. *)
Definition bucket_answered (db : database) (unit_name : string)
    (current_time : datetime) (working_mode : string)
    (bucket : datetime * datetime) : bool :=
  query_succeeds db (fst bucket) (snd bucket) current_time working_mode unit_name.

(** ** Break calendar *)

Lemma total_seconds_add (x y : timedelta) :
  (total_seconds x + total_seconds y == total_seconds (x + y))%Q.
Proof.
  unfold total_seconds, Qeq, Qplus; simpl. ring.
Qed.

Lemma total_seconds_le (x y : timedelta) :
  x <= y -> (total_seconds x <= total_seconds y)%Q.
Proof.
  unfold total_seconds, Qle; simpl. lia.
Qed.

Lemma total_seconds_0 : (total_seconds 0 == 0)%Q.
Proof. reflexivity. Qed.

Lemma overlap_nonneg s e' info day : 0 <= overlap s e' info day.
Proof. unfold overlap. lia. Qed.

Lemma overlap_mono s1 e1 s2 e2 info day :
  s2 <= s1 -> e1 <= e2 -> overlap s1 e1 info day <= overlap s2 e2 info day.
Proof.
  intros Hs He. unfold overlap.
  destruct (time_gtb (start info) (end_ info)); lia.
Qed.

Lemma break_day_step_overlap s e' info total day :
  (break_day_step s e' info total day
   == total + total_seconds (overlap s e' info day))%Q.
Proof.
  unfold break_day_step, overlap.
  destruct (time_gtb (start info) (end_ info)).
  - destruct (Z.ltb_spec (Z.max s (combine day (start info)))
                         (Z.min e' (combine day (end_ info) + days 1))) as [Hlt|Hge].
    + rewrite (Z.max_r 0) by lia. reflexivity.
    + rewrite (Z.max_l 0) by lia. rewrite total_seconds_0. ring.
  - destruct (Z.ltb_spec (Z.max s (combine day (start info)))
                         (Z.min e' (combine day (end_ info)))) as [Hlt|Hge].
    + rewrite (Z.max_r 0) by lia. reflexivity.
    + rewrite (Z.max_l 0) by lia. rewrite total_seconds_0. ring.
Qed.

Lemma fold_break_day_step s e' info dates :
  forall total z,
    (total == total_seconds z)%Q ->
    (fold_left (break_day_step s e' info) dates total
     == total_seconds (z + sum_over (overlap s e' info) dates))%Q.
Proof.
  induction dates as [|day dates IH]; intros total z Hz; simpl.
  - rewrite Z.add_0_r. exact Hz.
  - rewrite (IH _ (z + overlap s e' info day)).
    + replace (z + overlap s e' info day + sum_over (overlap s e' info) dates)
        with (z + (overlap s e' info day + sum_over (overlap s e' info) dates)) by ring.
      reflexivity.
    + rewrite break_day_step_overlap, Hz. apply total_seconds_add.
Qed.

Lemma fold_breaks s e' dates breaks :
  forall total z,
    (total == total_seconds z)%Q ->
    (fold_left
       (fun total_break_seconds break_id =>
          fold_left (break_day_step s e' (SHIFT_BREAKS break_id)) dates
                    total_break_seconds)
       breaks total
     == total_seconds
          (z + sum_over (fun break_id =>
                           sum_over (overlap s e' (SHIFT_BREAKS break_id)) dates)
                        breaks))%Q.
Proof.
  induction breaks as [|k breaks IH]; intros total z Hz; simpl.
  - rewrite Z.add_0_r. exact Hz.
  - rewrite (IH _ (z + sum_over (overlap s e' (SHIFT_BREAKS k)) dates)).
    + rewrite Z.add_assoc. reflexivity.
    + apply fold_break_day_step. exact Hz.
Qed.

(** The float that [calculate_break_time] returns is the number of seconds
    of [break_microseconds]. *)
Lemma calculate_break_time_microseconds s e' mode :
  (calculate_break_time s e' mode == total_seconds (break_microseconds s e' mode))%Q.
Proof.
  unfold calculate_break_time, break_microseconds, applicable_breaks.
  destruct (WORKING_MODE_BREAKS mode) as [l|] eqn:Hmode.
  - rewrite Hmode.
    exact (fold_breaks s e' _ l 0%Q 0 (Qeq_refl 0)).
  - change (WORKING_MODE_BREAKS "mode1")
      with (Some [Break.a; Break.b; Break.e; Break.f; Break.h; Break.i]).
    exact (fold_breaks s e' _ _ 0%Q 0 (Qeq_refl 0)).
Qed.

Lemma sum_over_app {A : Type} (f : A -> Z) (l1 l2 : list A) :
  sum_over f (l1 ++ l2) = sum_over f l1 + sum_over f l2.
Proof.
  induction l1 as [|x l1 IH]; simpl; [reflexivity | rewrite IH; ring].
Qed.

Lemma sum_over_nonneg {A : Type} (f : A -> Z) (l : list A) :
  (forall x, 0 <= f x) -> 0 <= sum_over f l.
Proof.
  intros Hf. induction l as [|x l IH]; simpl; [lia | specialize (Hf x); lia].
Qed.

Lemma sum_over_le {A : Type} (f1 f2 : A -> Z) (l : list A) :
  (forall x, f1 x <= f2 x) -> sum_over f1 l <= sum_over f2 l.
Proof.
  intros Hf. induction l as [|x l IH]; simpl; [lia | specialize (Hf x); lia].
Qed.

Lemma date_range_empty lo hi : hi < lo -> date_range lo hi = [].
Proof.
  intros H. unfold date_range.
  replace (Z.to_nat (hi - lo + 1)) with 0%nat by lia. reflexivity.
Qed.

Lemma map_seq_shift (a1 a2 : Z) (n : nat) :
  forall k1 k2 : nat,
    a1 + Z.of_nat k1 = a2 + Z.of_nat k2 ->
    map (fun j => a1 + Z.of_nat j) (seq k1 n)
    = map (fun j => a2 + Z.of_nat j) (seq k2 n).
Proof.
  induction n as [|n IH]; intros k1 k2 Hk; simpl.
  - reflexivity.
  - rewrite Hk. f_equal. apply IH. lia.
Qed.

(** The days from [lo] to [hi] are those up to [mid - 1] followed by those
    from [mid]. *)
Lemma date_range_split lo mid hi :
  lo <= mid -> mid <= hi + 1 ->
  date_range lo hi = date_range lo (mid - 1) ++ date_range mid hi.
Proof.
  intros H1 H2. unfold date_range.
  replace (Z.to_nat (hi - lo + 1))
    with (Z.to_nat (mid - 1 - lo + 1) + Z.to_nat (hi - mid + 1))%nat by lia.
  rewrite seq_app, map_app. f_equal.
  apply map_seq_shift. lia.
Qed.

(** Widening the range of days and enlarging the summand cannot lower a sum
    of non-negative terms. *)
Lemma sum_over_date_range_mono (f1 f2 : Z -> Z) lo1 hi1 lo2 hi2 :
  lo2 <= lo1 -> hi1 <= hi2 ->
  (forall x, f1 x <= f2 x) -> (forall x, 0 <= f2 x) ->
  sum_over f1 (date_range lo1 hi1) <= sum_over f2 (date_range lo2 hi2).
Proof.
  intros Hlo Hhi Hle Hpos.
  destruct (Z_lt_le_dec hi1 lo1) as [Hempty|Hne].
  - rewrite (date_range_empty lo1 hi1) by exact Hempty. simpl.
    apply sum_over_nonneg. exact Hpos.
  - rewrite (date_range_split lo2 lo1 hi2) by lia.
    rewrite (date_range_split lo1 (hi1 + 1) hi2) by lia.
    rewrite !sum_over_app.
    replace (hi1 + 1 - 1) with hi1 by ring.
    pose proof (sum_over_nonneg f2 (date_range lo2 (lo1 - 1)) Hpos).
    pose proof (sum_over_nonneg f2 (date_range (hi1 + 1) hi2) Hpos).
    pose proof (sum_over_le f1 f2 (date_range lo1 hi1) Hle).
    lia.
Qed.

Lemma date_mono t1 t2 : t1 <= t2 -> date t1 <= date t2.
Proof.
  intros H. unfold date, days. apply Z.div_le_mono; lia.
Qed.

Lemma break_microseconds_nonneg s e' mode : 0 <= break_microseconds s e' mode.
Proof.
  unfold break_microseconds. apply sum_over_nonneg. intros k.
  apply sum_over_nonneg. intros day. apply overlap_nonneg.
Qed.

Lemma break_microseconds_mono s1 e1 s2 e2 mode :
  s2 <= s1 -> e1 <= e2 ->
  break_microseconds s1 e1 mode <= break_microseconds s2 e2 mode.
Proof.
  intros Hs He. unfold break_microseconds.
  apply sum_over_le. intros k.
  apply sum_over_date_range_mono.
  - apply date_mono. exact Hs.
  - apply date_mono. exact He.
  - intros day. apply overlap_mono; assumption.
  - intros day. apply overlap_nonneg.
Qed.

(** C7: for every window and working mode the break time is non-negative,
    and widening the window (an earlier or equal start, a later or equal
    end) never lowers it. *)
Theorem calculate_break_time_nonneg_monotone
    (start_time end_time start_time' end_time' : datetime) (working_mode : string) :
  start_time' <= start_time -> end_time <= end_time' ->
  (0 <= calculate_break_time start_time end_time working_mode
   /\ calculate_break_time start_time end_time working_mode
      <= calculate_break_time start_time' end_time' working_mode)%Q.
Proof.
  intros Hs He. rewrite !calculate_break_time_microseconds. split.
  - rewrite <- total_seconds_0. apply total_seconds_le.
    apply break_microseconds_nonneg.
  - apply total_seconds_le. apply break_microseconds_mono; assumption.
Qed.

Lemma calculate_break_time_nonneg_monotone_witness :
  at_ 0 9 0 <= at_ 0 10 5 /\ at_ 0 10 10 <= at_ 1 13 0
  /\ (0 <= calculate_break_time (at_ 0 10 5) (at_ 0 10 10) "mode1"
      /\ calculate_break_time (at_ 0 10 5) (at_ 0 10 10) "mode1"
         <= calculate_break_time (at_ 0 9 0) (at_ 1 13 0) "mode1")%Q.
Proof.
  assert (H1 : at_ 0 9 0 <= at_ 0 10 5) by (vm_compute; discriminate).
  assert (H2 : at_ 0 10 10 <= at_ 1 13 0) by (vm_compute; discriminate).
  split; [exact H1 | split; [exact H2 |]].
  apply (calculate_break_time_nonneg_monotone _ _ _ _ "mode1" H1 H2).
Defined.

(** ** Model metrics *)

Lemma Qpositive_true (x : Q) : Qpositive x = true <-> (0 < x)%Q.
Proof.
  unfold Qpositive. destruct (Qle_bool x 0) eqn:Hle; simpl.
  - apply Qle_bool_iff in Hle. split; [discriminate |].
    intros Hlt. exfalso. exact (Qlt_not_le _ _ Hlt Hle).
  - split; [intros _ | reflexivity].
    apply Qnot_le_lt. intros Hle'. apply Qle_bool_iff in Hle'. congruence.
Qed.

Lemma target_positive_false (r : row) :
  ~ has_positive_target r -> target_positive (row3 r) = false.
Proof.
  intros H. unfold target_positive. destruct (row3 r) as [t|] eqn:Ht; [|reflexivity].
  destruct (Qpositive t) eqn:Hp; [|reflexivity].
  exfalso. apply H. exists t. split; [exact Ht | apply Qpositive_true; exact Hp].
Qed.

Lemma business_logic_map all_rows s e' mode :
  exists with_target,
    business_logic all_rows s e' mode
    = map (model_of_row with_target (operation_time_hours s e' mode)) all_rows.
Proof.
  unfold business_logic.
  destruct (filter _ _) as [|m ms].
  - exists false. rewrite map_map. reflexivity.
  - exists true. rewrite map_map. reflexivity.
Qed.

Lemma model_of_row_counts wt oth r :
  Model.model (model_of_row wt oth r) = row0 r
  /\ Model.success_qty (model_of_row wt oth r) = row1 r
  /\ Model.fail_qty (model_of_row wt oth r) = row2 r
  /\ Model.target (model_of_row wt oth r) = row3 r
  /\ Model.total_qty (model_of_row wt oth r) = row1 r.
Proof.
  unfold model_of_row, second_pass, no_target_pass, first_pass.
  destruct wt; destruct (target_positive (row3 r)) eqn:Ht; simpl; rewrite ?Ht; simpl.
  - destruct (Qpositive _); simpl; repeat split.
  - repeat split.
  - repeat split.
  - repeat split.
Qed.

Lemma model_of_row_quality wt oth r :
  Model.quality (model_of_row wt oth r)
  = if 0 <? row1 r + row2 r
    then (inject_Z (row1 r) / inject_Z (row1 r + row2 r))%Q else 0%Q.
Proof.
  unfold model_of_row, second_pass, no_target_pass, first_pass.
  destruct wt; destruct (target_positive (row3 r)) eqn:Ht; simpl; rewrite ?Ht; simpl;
    try reflexivity.
  destruct (Qpositive _); reflexivity.
Qed.

Lemma model_of_row_no_target wt oth r :
  target_positive (row3 r) = false ->
  Model.performance (model_of_row wt oth r) = None.
Proof.
  intros Ht. unfold model_of_row, second_pass, no_target_pass, first_pass.
  destruct wt; rewrite Ht; simpl; rewrite Ht; reflexivity.
Qed.

Lemma Forall2_map_right {A B : Type} (R : A -> B -> Prop) (f : A -> B) (l : list A) :
  (forall x, In x l -> R x (f x)) -> Forall2 R l (map f l).
Proof.
  induction l as [|x l IH]; intros H; simpl; constructor.
  - apply H. left. reflexivity.
  - apply IH. intros y Hy. apply H. right. exact Hy.
Qed.

(** A successful [get_production_data] returns [business_logic] of the rows
    that the store gave for the resolved query window. *)
Lemma get_production_data_done db unit_name s e' now mode ms :
  get_production_data db unit_name s e' now mode = Done ms ->
  exists all_rows,
    db unit_name s (final_query_end_time (resolve_end s e' now)) = Done all_rows
    /\ ms = business_logic all_rows s (actual_end_time (resolve_end s e' now)) mode.
Proof.
  unfold get_production_data. intros H.
  destruct (db unit_name s _) as [all_rows| |msg]; try discriminate.
  exists all_rows. split; [reflexivity | congruence].
Qed.

(** C1, as the code has it: every record returned by [get_production_data]
    copies the success and fail counts of its row, and its [total_qty] is
    the success count alone. *)
Theorem total_qty_is_success_qty db unit_name s e' now mode ms :
  get_production_data db unit_name s e' now mode = Done ms ->
  exists all_rows,
    db unit_name s (final_query_end_time (resolve_end s e' now)) = Done all_rows
    /\ Forall2 (fun r m => Model.success_qty m = row1 r
                           /\ Model.fail_qty m = row2 r
                           /\ Model.total_qty m = Model.success_qty m)
               all_rows ms.
Proof.
  intros H. apply get_production_data_done in H as (all_rows & Hdb & ->).
  exists all_rows. split; [exact Hdb |].
  destruct (business_logic_map all_rows s
              (actual_end_time (resolve_end s e' now)) mode) as [wt ->].
  apply Forall2_map_right. intros r _.
  destruct (model_of_row_counts wt
              (operation_time_hours s (actual_end_time (resolve_end s e' now)) mode) r)
    as (_ & Hs & Hf & _ & Ht).
  rewrite Hs, Hf, Ht. repeat split.
Qed.

Lemma total_qty_is_success_qty_witness :
  exists all_rows,
    const_db [mk_row "M1"%string 80 20 (Some 100%Q)] "U1"%string (at_ 0 13 0)
      (final_query_end_time (resolve_end (at_ 0 13 0) (at_ 0 14 0) None))
    = Done all_rows
    /\ Forall2 (fun r m => Model.success_qty m = row1 r
                           /\ Model.fail_qty m = row2 r
                           /\ Model.total_qty m = Model.success_qty m)
               all_rows
               (business_logic [mk_row "M1"%string 80 20 (Some 100%Q)] (at_ 0 13 0)
                               (at_ 0 14 0) "mode1"%string).
Proof.
  apply (total_qty_is_success_qty (const_db [mk_row "M1"%string 80 20 (Some 100%Q)])
           "U1"%string (at_ 0 13 0) (at_ 0 14 0) None "mode1"%string).
  reflexivity.
Defined.

(** C1 as stated fails: for a row with 80 successes and 20 failures the
    record's [total_qty] is 80, not 100. *)
Lemma total_qty_not_success_plus_fail :
  ~ (forall ms,
       get_production_data (const_db [mk_row "M1"%string 80 20 (Some 100%Q)]) "U1"%string
                           (at_ 0 13 0) (at_ 0 14 0) None "mode1"%string = Done ms ->
       Forall (fun m => Model.total_qty m = Model.success_qty m + Model.fail_qty m)
              ms).
Proof.
  intros H. specialize (H _ eq_refl).
  apply Forall_inv in H. vm_compute in H. discriminate.
Qed.

(** C4: when no row of a batch has a positive target rate, the query
    succeeds with one record per row and the [performance] of every record
    is [None]. *)
Theorem no_target_performance_is_null db unit_name s e' now mode all_rows :
  db unit_name s (final_query_end_time (resolve_end s e' now)) = Done all_rows ->
  (forall r, In r all_rows -> ~ has_positive_target r) ->
  exists ms,
    get_production_data db unit_name s e' now mode = Done ms
    /\ List.length ms = List.length all_rows
    /\ Forall (fun m => Model.performance m = None) ms.
Proof.
  intros Hdb Hrows. unfold get_production_data. rewrite Hdb.
  eexists. split; [reflexivity |].
  destruct (business_logic_map all_rows s
              (actual_end_time (resolve_end s e' now)) mode) as [wt ->].
  split; [apply length_map |].
  apply Forall_forall. intros m Hm.
  apply in_map_iff in Hm as (r & <- & Hr).
  apply model_of_row_no_target. apply target_positive_false. apply Hrows. exact Hr.
Qed.

Lemma no_target_performance_is_null_witness :
  exists ms,
    get_production_data
      (const_db [mk_row "M1"%string 80 20 None; mk_row "M2"%string 5 1 (Some 0%Q)]) "U1"%string
      (at_ 0 13 0) (at_ 0 14 0) (Some (at_ 0 13 30)) "mode1"%string = Done ms
    /\ List.length ms = 2%nat
    /\ Forall (fun m => Model.performance m = None) ms.
Proof.
  apply (no_target_performance_is_null
           (const_db [mk_row "M1"%string 80 20 None; mk_row "M2"%string 5 1 (Some 0%Q)]) "U1"%string
           (at_ 0 13 0) (at_ 0 14 0) (Some (at_ 0 13 30)) "mode1"%string
           [mk_row "M1"%string 80 20 None; mk_row "M2"%string 5 1 (Some 0%Q)]).
  - reflexivity.
  - intros r [<- | [<- | []]] (t & Ht & Hpos); simpl in Ht.
    + discriminate.
    + injection Ht as <-. vm_compute in Hpos. discriminate.
Defined.

Lemma quality_ratio_bounds (n t : Z) :
  0 <= n -> n <= t -> 0 < t ->
  (0 <= inject_Z n / inject_Z t /\ inject_Z n / inject_Z t <= 1)%Q.
Proof.
  intros Hn Hnt Ht.
  assert (Hpos : (0 < inject_Z t)%Q) by (unfold Qlt; simpl; lia).
  split.
  - apply Qle_shift_div_l; [exact Hpos |].
    rewrite Qmult_0_l. unfold Qle; simpl; lia.
  - apply Qle_shift_div_r; [exact Hpos |].
    rewrite Qmult_1_l. unfold Qle; simpl; lia.
Qed.

(** C8: for every record returned by [get_production_data] whose counts are
    non-negative (they are sums of 0/1 indicators in the query), [quality]
    lies in [0, 1] when the total count is positive and is 0 when it is 0;
    this holds for the total read as [success_qty + fail_qty] and for the
    record's own [total_qty]. *)
Theorem quality_in_unit_interval db unit_name s e' now mode ms m :
  get_production_data db unit_name s e' now mode = Done ms ->
  In m ms ->
  0 <= Model.success_qty m -> 0 <= Model.fail_qty m ->
  (0 < Model.success_qty m + Model.fail_qty m ->
   (0 <= Model.quality m /\ Model.quality m <= 1)%Q)
  /\ (Model.success_qty m + Model.fail_qty m = 0 -> (Model.quality m == 0)%Q)
  /\ (0 < Model.total_qty m -> (0 <= Model.quality m /\ Model.quality m <= 1)%Q)
  /\ (Model.total_qty m = 0 -> (Model.quality m == 0)%Q).
Proof.
  intros H Hm. apply get_production_data_done in H as (all_rows & _ & ->).
  destruct (business_logic_map all_rows s
              (actual_end_time (resolve_end s e' now)) mode) as [wt Heq].
  rewrite Heq in Hm. apply in_map_iff in Hm as (r & <- & _).
  destruct (model_of_row_counts wt
              (operation_time_hours s (actual_end_time (resolve_end s e' now)) mode) r)
    as (_ & Hs & Hf & _ & Ht).
  rewrite model_of_row_quality, Hs, Hf, Ht. intros Hs0 Hf0.
  destruct (Z.ltb_spec 0 (row1 r + row2 r)) as [Hpos|Hzero].
  - split; [| split; [| split]]; intros Hcase.
    + apply quality_ratio_bounds; lia.
    + lia.
    + apply quality_ratio_bounds; lia.
    + rewrite Hcase. unfold Qdiv. apply Qmult_0_l.
  - split; [| split; [| split]]; intros Hcase.
    + lia.
    + reflexivity.
    + lia.
    + reflexivity.
Qed.

Lemma quality_in_unit_interval_witness :
  let m := model_of_row true
             (operation_time_hours (at_ 0 13 0) (at_ 0 14 0) "mode1"%string)
             (mk_row "M1"%string 80 20 (Some 100%Q)) in
  (0 <= Model.quality m /\ Model.quality m <= 1)%Q.
Proof.
  intros m.
  refine (proj1 (quality_in_unit_interval
                   (const_db [mk_row "M1"%string 80 20 (Some 100%Q)]) "U1"%string
                   (at_ 0 13 0) (at_ 0 14 0) None "mode1"%string
                   (business_logic [mk_row "M1"%string 80 20 (Some 100%Q)]
                                   (at_ 0 13 0) (at_ 0 14 0) "mode1"%string)
                   m eq_refl _ _ _) _).
  - left. reflexivity.
  - vm_compute. discriminate.
  - vm_compute. discriminate.
  - vm_compute. reflexivity.
Defined.

(** An hour without break time is one operating hour. *)
Lemma operation_time_hours_one s mode :
  (calculate_break_time s (s + hours 1) mode == 0)%Q ->
  (operation_time_hours s (s + hours 1) mode == 1)%Q.
Proof.
  intros Hbreak. unfold operation_time_hours.
  replace (s + hours 1 - s) with (hours 1) by (unfold datetime in *; lia).
  assert (Hx : (total_seconds (hours 1) - calculate_break_time s (s + hours 1) mode
                == 3600)%Q).
  { rewrite Hbreak. reflexivity. }
  rewrite Q.max_l.
  - rewrite Hx. reflexivity.
  - rewrite Hx. discriminate.
Qed.

Lemma business_logic_one_row name s e' mode :
  business_logic [mk_row name 80 20 (Some 100%Q)] s e' mode
  = [ if Qpositive (operation_time_hours s e' mode * 100)
      then Model.mk name 80 20 (Some 100%Q) 80
             (inject_Z 80 / inject_Z (80 + 20))%Q
             (Some (inject_Z 80 / (operation_time_hours s e' mode * 100))%Q) None
             (operation_time_hours s e' mode * 100)%Q
      else Model.mk name 80 20 (Some 100%Q) 80
             (inject_Z 80 / inject_Z (80 + 20))%Q (Some 0%Q) None
             (operation_time_hours s e' mode * 100)%Q ].
Proof.
  unfold business_logic. generalize (operation_time_hours s e' mode) as oth.
  intros oth. cbv [map filter first_pass second_pass row0 row1 row2 row3
                   Model.set_theoretical_qty Model.set_performance Model.target
                   Model.model Model.success_qty Model.fail_qty Model.total_qty
                   Model.quality Model.performance Model.oee Model.theoretical_qty
                   target_value].
  change (target_positive (Some 100%Q)) with true. cbv iota.
  destruct (Qpositive (oth * 100)); reflexivity.
Qed.

(** C2, as the code has it: one row with 80 successes, 20 failures and a
    target rate of 100 per hour, over an hour of operating time without
    break time, gives quality 0.8, theoretical quantity 100 and performance
    0.8 (the success count over the theoretical quantity). *)
Theorem one_hour_metrics db unit_name s now mode name :
  db unit_name s (final_query_end_time (resolve_end s (s + hours 1) now))
  = Done [mk_row name 80 20 (Some 100%Q)] ->
  actual_end_time (resolve_end s (s + hours 1) now) = s + hours 1 ->
  (calculate_break_time s (s + hours 1) mode == 0)%Q ->
  exists m p,
    get_production_data db unit_name s (s + hours 1) now mode = Done [m]
    /\ (Model.quality m == 8 # 10)%Q
    /\ (Model.theoretical_qty m == 100)%Q
    /\ Model.performance m = Some p
    /\ (p == 8 # 10)%Q.
Proof.
  intros Hdb Hend Hbreak. unfold get_production_data. rewrite Hdb, Hend.
  pose proof (operation_time_hours_one s mode Hbreak) as Hone.
  rewrite business_logic_one_row.
  assert (Hpos : Qpositive (operation_time_hours s (s + hours 1) mode * 100) = true).
  { apply Qpositive_true. rewrite Hone. reflexivity. }
  rewrite Hpos.
  eexists. eexists. split; [reflexivity |]. simpl.
  split; [reflexivity |].
  split; [rewrite Hone; reflexivity |].
  split; [reflexivity |].
  rewrite Hone. reflexivity.
Qed.

Lemma one_hour_metrics_witness :
  exists m p,
    get_production_data (const_db [mk_row "M1"%string 80 20 (Some 100%Q)]) "U1"%string
                        (at_ 0 13 0) (at_ 0 13 0 + hours 1) None "mode1"%string = Done [m]
    /\ (Model.quality m == 8 # 10)%Q
    /\ (Model.theoretical_qty m == 100)%Q
    /\ Model.performance m = Some p
    /\ (p == 8 # 10)%Q.
Proof.
  apply (one_hour_metrics (const_db [mk_row "M1"%string 80 20 (Some 100%Q)]) "U1"%string
                          (at_ 0 13 0) None "mode1"%string "M1"%string).
  - reflexivity.
  - vm_compute. reflexivity.
  - vm_compute. reflexivity.
Defined.

(** C2 as stated fails: on that input the performance is 0.8, not 1.0. *)
Lemma one_hour_performance_not_one :
  ~ (forall ms,
       get_production_data (const_db [mk_row "M1"%string 80 20 (Some 100%Q)]) "U1"%string
                           (at_ 0 13 0) (at_ 0 14 0) None "mode1"%string = Done ms ->
       exists m p,
         ms = [m]
         /\ (Model.quality m == 8 # 10)%Q
         /\ (Model.theoretical_qty m == 100)%Q
         /\ Model.performance m = Some p
         /\ (p == 1)%Q).
Proof.
  intros H. destruct (H _ eq_refl) as (m & p & Hms & _ & _ & Hp & Hone).
  vm_compute in Hms. injection Hms as <-.
  vm_compute in Hp. injection Hp as <-.
  vm_compute in Hone. discriminate.
Qed.

(** ** Live and historical windows *)

Lemma resolve_end_live s e' now :
  now - e' <= minutes 5 ->
  resolve_end s e' (Some now) = mk_resolved (Z.max s now) (Z.max s now) true.
Proof.
  intros H. unfold resolve_end.
  destruct (Z.leb_spec (now - e') (minutes 5)) as [_|Hgt]; [| lia].
  destruct (Z.ltb_spec now s) as [Hlt|Hge].
  - rewrite Z.max_l by lia. reflexivity.
  - rewrite Z.max_r by lia. reflexivity.
Qed.

Lemma resolve_end_historical s e' now :
  minutes 5 < now - e' ->
  resolve_end s e' (Some now) = mk_resolved e' e' false.
Proof.
  intros H. unfold resolve_end.
  destruct (Z.leb_spec (now - e') (minutes 5)) as [Hle|_]; [lia | reflexivity].
Qed.

(** The test of the hourly breakdown, on microseconds. *)
Lemma hourly_live_abs e' now :
  hourly_live e' now
  = (Z.abs (now - e') <=? minutes 5,
     if Z.abs (now - e') <=? minutes 5 then now else e').
Proof.
  unfold hourly_live.
  assert (Hb : Qle_bool (Qabs (total_seconds (now - e'))) 300
               = (Z.abs (now - e') <=? minutes 5)).
  { unfold total_seconds, Qabs, Qle_bool, minutes. simpl Qnum. simpl Qden.
    destruct (Z.leb_spec (Z.abs (now - e') * 1) (300 * 1000000));
      destruct (Z.leb_spec (Z.abs (now - e')) (5 * 60000000)); try reflexivity; lia. }
  rewrite Hb. reflexivity.
Qed.

(** C3, as the code has it.  With a reference instant [now]:
    [get_production_data] takes the window as live exactly when
    [now - end <= 5 minutes], which includes every [now] before the end of
    the window, and then the effective end is [max start now]; otherwise,
    [now] being more than 5 minutes past the end, the window is historical
    and the effective end is the end of the window.  The totals of both
    streaming endpoints use the same test, taking [now] itself as the end of
    a live window.  The hourly breakdown, for every [now], takes the window
    as live exactly when [|now - end| <= 5 minutes] and then ends at [now],
    and ends at the end of the window otherwise; this agrees with the test
    of [get_production_data] whenever [now] is not more than 5 minutes
    before the end, and differs from it for every earlier [now]. *)
Theorem live_window_resolution (start_time end_time now : datetime) :
  (now - end_time <= minutes 5 ->
   live (resolve_end start_time end_time (Some now)) = true
   /\ actual_end_time (resolve_end start_time end_time (Some now))
      = Z.max start_time now
   /\ final_query_end_time (resolve_end start_time end_time (Some now))
      = Z.max start_time now)
  /\ (minutes 5 < now - end_time ->
      live (resolve_end start_time end_time (Some now)) = false
      /\ actual_end_time (resolve_end start_time end_time (Some now)) = end_time
      /\ final_query_end_time (resolve_end start_time end_time (Some now)) = end_time)
  /\ ws_actual_end end_time now
     = (if live (resolve_end start_time end_time (Some now)) then now else end_time)
  /\ (end_time - minutes 5 <= now ->
      fst (hourly_live end_time now)
      = live (resolve_end start_time end_time (Some now))
      /\ snd (hourly_live end_time now) = ws_actual_end end_time now)
  /\ (fst (hourly_live end_time now) = true <-> Z.abs (now - end_time) <= minutes 5)
  /\ snd (hourly_live end_time now)
     = (if fst (hourly_live end_time now) then now else end_time)
  /\ (now < end_time - minutes 5 ->
      fst (hourly_live end_time now) = false
      /\ snd (hourly_live end_time now) = end_time
      /\ live (resolve_end start_time end_time (Some now)) = true).
Proof.
  split; [| split; [| split; [| split; [| split; [| split]]]]].
  - intros H. rewrite (resolve_end_live _ _ _ H). simpl. repeat split.
  - intros H. rewrite (resolve_end_historical _ _ _ H). simpl. repeat split.
  - unfold ws_actual_end.
    destruct (Z.leb_spec (now - end_time) (minutes 5)) as [Hle|Hgt].
    + rewrite (resolve_end_live _ _ _ Hle). reflexivity.
    + rewrite (resolve_end_historical _ _ _ Hgt). reflexivity.
  - intros Hnear. rewrite hourly_live_abs. unfold ws_actual_end.
    assert (Habs : (Z.abs (now - end_time) <=? minutes 5)
                   = (now - end_time <=? minutes 5)).
    { unfold minutes in *.
      destruct (Z.leb_spec (Z.abs (now - end_time)) (5 * 60000000));
        destruct (Z.leb_spec (now - end_time) (5 * 60000000)); try reflexivity; lia. }
    rewrite Habs. cbn [fst snd].
    destruct (Z.leb_spec (now - end_time) (minutes 5)) as [Hle|Hgt].
    + rewrite (resolve_end_live _ _ _ Hle). split; reflexivity.
    + rewrite (resolve_end_historical _ _ _ Hgt). split; reflexivity.
  - rewrite hourly_live_abs. cbn [fst]. apply Z.leb_le.
  - rewrite hourly_live_abs. reflexivity.
  - intros Hearly. rewrite hourly_live_abs. cbn [fst snd].
    destruct (Z.leb_spec (Z.abs (now - end_time)) (minutes 5)) as [Hle|Hgt].
    + unfold minutes in *. lia.
    + rewrite resolve_end_live by (unfold minutes in *; lia).
      repeat split.
Qed.

Lemma live_window_resolution_witness :
  (live (resolve_end (at_ 0 8 0) (at_ 0 16 0) (Some (at_ 0 16 4))) = true
   /\ actual_end_time (resolve_end (at_ 0 8 0) (at_ 0 16 0) (Some (at_ 0 16 4)))
      = at_ 0 16 4)
  /\ (live (resolve_end (at_ 0 8 0) (at_ 0 16 0) (Some (at_ 0 16 6))) = false
      /\ actual_end_time (resolve_end (at_ 0 8 0) (at_ 0 16 0) (Some (at_ 0 16 6)))
         = at_ 0 16 0)
  /\ fst (hourly_live (at_ 0 16 0) (at_ 0 15 58))
     = live (resolve_end (at_ 0 8 0) (at_ 0 16 0) (Some (at_ 0 15 58)))
  /\ fst (hourly_live (at_ 0 16 0) (at_ 0 15 58)) = true
  /\ (fst (hourly_live (at_ 0 16 0) (at_ 0 15 50)) = false
      /\ snd (hourly_live (at_ 0 16 0) (at_ 0 15 50)) = at_ 0 16 0
      /\ live (resolve_end (at_ 0 8 0) (at_ 0 16 0) (Some (at_ 0 15 50))) = true).
Proof.
  split; [| split; [| split; [| split]]].
  - destruct (proj1 (live_window_resolution (at_ 0 8 0) (at_ 0 16 0) (at_ 0 16 4)))
      as (Hl & Ha & _).
    + vm_compute. discriminate.
    + split; [exact Hl | exact Ha].
  - destruct (proj1 (proj2 (live_window_resolution (at_ 0 8 0) (at_ 0 16 0)
                                                   (at_ 0 16 6))))
      as (Hl & Ha & _).
    + vm_compute. reflexivity.
    + split; [exact Hl | exact Ha].
  - destruct (proj1 (proj2 (proj2 (proj2
                (live_window_resolution (at_ 0 8 0) (at_ 0 16 0) (at_ 0 15 58))))))
      as (Hf & _).
    + vm_compute. discriminate.
    + exact Hf.
  - apply (proj1 (proj2 (proj2 (proj2 (proj2
             (live_window_resolution (at_ 0 8 0) (at_ 0 16 0) (at_ 0 15 58))))))).
    vm_compute. discriminate.
  - apply (proj2 (proj2 (proj2 (proj2 (proj2 (proj2
             (live_window_resolution (at_ 0 8 0) (at_ 0 16 0) (at_ 0 15 50)))))))).
    vm_compute. reflexivity.
Defined.

(** C3 as stated fails.  Two hours into an eight-hour window, [now] is
    before the end of the window, yet [get_production_data] takes the window
    as live and ends the operating time at [now]; and at that instant the
    hourly breakdown, unlike [get_production_data], does not take the window
    as live. *)
Lemma now_before_end_is_live :
  at_ 0 10 0 - at_ 0 16 0 < 0
  /\ ~ (live (resolve_end (at_ 0 8 0) (at_ 0 16 0) (Some (at_ 0 10 0))) = false
        /\ actual_end_time (resolve_end (at_ 0 8 0) (at_ 0 16 0) (Some (at_ 0 10 0)))
           = at_ 0 16 0)
  /\ fst (hourly_live (at_ 0 16 0) (at_ 0 10 0))
     <> live (resolve_end (at_ 0 8 0) (at_ 0 16 0) (Some (at_ 0 10 0))).
Proof.
  split; [vm_compute; reflexivity |].
  split.
  - intros [H _]. vm_compute in H. discriminate.
  - vm_compute. discriminate.
Qed.

(** ** Multi-unit report *)

Lemma sum_over_cons {A : Type} (f : A -> Z) (x : A) (l : list A) :
  sum_over f (x :: l) = f x + sum_over f l.
Proof. reflexivity. Qed.

Lemma sumQ_over_cons {A : Type} (f : A -> Q) (x : A) (l : list A) :
  sumQ_over f (x :: l) = (f x + sumQ_over f l)%Q.
Proof. reflexivity. Qed.

Lemma fold_left_Zadd (l : list Z) :
  forall acc, fold_left Z.add l acc = acc + sum_over (fun x => x) l.
Proof.
  induction l as [|x l IH]; intros acc; simpl.
  - ring.
  - rewrite IH. ring.
Qed.

Lemma sumZ_sum_over (l : list Z) : sumZ l = sum_over (fun x => x) l.
Proof. unfold sumZ. rewrite fold_left_Zadd. ring. Qed.

Lemma sumZ_nonneg (l : list Z) : Forall (fun x => 0 <= x) l -> 0 <= sumZ l.
Proof.
  intros H. rewrite sumZ_sum_over.
  induction H as [|x l Hx _ IH]; simpl; lia.
Qed.

(** The unit-level quality is 0 unless the unit's total is positive. *)
Lemma unit_entry_quality_total (production_data : list Model.t) :
  (0 <? Unit.total_qty (unit_entry production_data)) = false ->
  (Unit.quality (unit_entry production_data)
   * inject_Z (Unit.total_qty (unit_entry production_data)) == 0)%Q.
Proof.
  unfold unit_entry. simpl. intros H. rewrite H. apply Qmult_0_l.
Qed.

Lemma successful_units_cons db s e' now mode unit_name unit_list :
  successful_units db s e' now mode (unit_name :: unit_list)
  = match get_production_data db unit_name s e' (Some now) mode with
    | Done production_data => [(unit_name, unit_entry production_data)]
    | TimeoutError => []
    | Raised _ => []
    end ++ successful_units db s e' now mode unit_list.
Proof. reflexivity. Qed.

(** A unit whose query timed out or failed leaves the loop's variables as
    they were. *)
Lemma report_step_skip db s e' now mode acc unit_name :
  (forall production_data,
      get_production_data db unit_name s e' (Some now) mode <> Done production_data) ->
  report_step db s e' now mode acc unit_name = acc.
Proof.
  intros H. unfold report_step.
  destruct (get_production_data db unit_name s e' (Some now) mode) as [pd| |msg];
    [exfalso; exact (H pd eq_refl) | reflexivity | reflexivity].
Qed.

Lemma report_step_done_quality db s e' now mode acc unit_name production_data :
  get_production_data db unit_name s e' (Some now) mode = Done production_data ->
  ReportAcc.total_production_all (report_step db s e' now mode acc unit_name)
  = ReportAcc.total_production_all acc + Unit.total_qty (unit_entry production_data)
  /\ (ReportAcc.weighted_quality_sum (report_step db s e' now mode acc unit_name)
      == ReportAcc.weighted_quality_sum acc
         + Unit.quality (unit_entry production_data)
           * inject_Z (Unit.total_qty (unit_entry production_data)))%Q.
Proof.
  intros Hq. unfold report_step. rewrite Hq.
  cbn [ReportAcc.total_production_all ReportAcc.weighted_quality_sum].
  split; [reflexivity |].
  destruct (0 <? Unit.total_qty (unit_entry production_data)) eqn:Hpos.
  - reflexivity.
  - rewrite (unit_entry_quality_total production_data Hpos). ring.
Qed.

(** What the loop of [get_report_data] leaves in the variables behind the
    weighted quality: sums over the units whose query succeeded. *)
Lemma report_fold_quality db s e' now mode unit_list :
  forall acc,
    ReportAcc.total_production_all
      (fold_left (report_step db s e' now mode) unit_list acc)
    = ReportAcc.total_production_all acc
      + sum_over Unit.total_qty
                 (map snd (successful_units db s e' now mode unit_list))
    /\ (ReportAcc.weighted_quality_sum
          (fold_left (report_step db s e' now mode) unit_list acc)
        == ReportAcc.weighted_quality_sum acc
           + sumQ_over (fun u => Unit.quality u * inject_Z (Unit.total_qty u))
                       (map snd (successful_units db s e' now mode unit_list)))%Q.
Proof.
  induction unit_list as [|unit_name unit_list IH]; intros acc.
  - simpl. split; [ring | ring].
  - cbn [fold_left]. rewrite successful_units_cons.
    destruct (IH (report_step db s e' now mode acc unit_name)) as [IHt IHq].
    rewrite IHt, IHq. clear IHt IHq.
    destruct (get_production_data db unit_name s e' (Some now) mode)
      as [production_data| |msg] eqn:Hq.
    + destruct (report_step_done_quality db s e' now mode acc unit_name
                  production_data Hq) as [Ht Hw].
      rewrite Ht, Hw. cbn [app map snd]. rewrite sum_over_cons, sumQ_over_cons.
      split; ring.
    + rewrite report_step_skip by (intros pd; rewrite Hq; discriminate).
      split; reflexivity.
    + rewrite report_step_skip by (intros pd; rewrite Hq; discriminate).
      split; reflexivity.
Qed.

Lemma production_data_counts_nonneg db unit_name s e' now mode production_data :
  counts_nonneg db ->
  get_production_data db unit_name s e' now mode = Done production_data ->
  Forall (fun m => 0 <= Model.success_qty m /\ 0 <= Model.fail_qty m) production_data.
Proof.
  intros Hdb H. apply get_production_data_done in H as (all_rows & Hrows & ->).
  apply Hdb in Hrows.
  destruct (business_logic_map all_rows s
              (actual_end_time (resolve_end s e' now)) mode) as [wt ->].
  apply Forall_forall. intros m Hm. apply in_map_iff in Hm as (r & <- & Hr).
  destruct (model_of_row_counts wt
              (operation_time_hours s (actual_end_time (resolve_end s e' now)) mode) r)
    as (_ & Hs & Hf & _).
  rewrite Hs, Hf. exact (proj1 (Forall_forall _ _) Hrows r Hr).
Qed.

Lemma unit_entry_total_nonneg (production_data : list Model.t) :
  Forall (fun m => 0 <= Model.success_qty m /\ 0 <= Model.fail_qty m) production_data ->
  0 <= Unit.total_qty (unit_entry production_data).
Proof.
  intros H. unfold unit_entry. simpl.
  assert (0 <= sumZ (map Model.success_qty production_data)).
  { apply sumZ_nonneg. apply Forall_map. eapply Forall_impl; [| exact H].
    intros m Hm. exact (proj1 Hm). }
  assert (0 <= sumZ (map Model.fail_qty production_data)).
  { apply sumZ_nonneg. apply Forall_map. eapply Forall_impl; [| exact H].
    intros m Hm. exact (proj2 Hm). }
  lia.
Qed.

Lemma successful_units_total_nonneg db s e' now mode unit_list :
  counts_nonneg db ->
  0 <= sum_over Unit.total_qty (map snd (successful_units db s e' now mode unit_list)).
Proof.
  intros Hdb. induction unit_list as [|unit_name unit_list IH].
  - simpl. lia.
  - rewrite successful_units_cons.
    destruct (get_production_data db unit_name s e' (Some now) mode)
      as [production_data| |msg] eqn:Hq; cbn [app map snd]; try exact IH.
    rewrite sum_over_cons.
    pose proof (unit_entry_total_nonneg production_data
                  (production_data_counts_nonneg _ _ _ _ _ _ _ Hdb Hq)).
    lia.
Qed.

Lemma dict_set_fresh {A : Type} (k : string) (v : A) (dict : list (string * A)) :
  ~ In k (map fst dict) -> dict_set k v dict = dict ++ [(k, v)].
Proof.
  induction dict as [|[k' v'] dict IH]; intros Hk; simpl.
  - reflexivity.
  - destruct (String.eqb_spec k k') as [->|Hne].
    + exfalso. apply Hk. left. reflexivity.
    + rewrite IH; [reflexivity |]. intros Hin. apply Hk. right. exact Hin.
Qed.

(** With every unit named once, [unit_data] ends as the entries of the
    units whose query succeeded, in the order of the request. *)
Lemma report_fold_unit_data db s e' now mode unit_list :
  NoDup unit_list ->
  forall acc,
    (forall k, In k unit_list -> ~ In k (map fst (ReportAcc.unit_data acc))) ->
    ReportAcc.unit_data (fold_left (report_step db s e' now mode) unit_list acc)
    = ReportAcc.unit_data acc ++ successful_units db s e' now mode unit_list.
Proof.
  induction 1 as [|unit_name unit_list Hfresh Hnodup IH]; intros acc Hacc.
  - simpl. rewrite app_nil_r. reflexivity.
  - cbn [fold_left]. rewrite successful_units_cons.
    destruct (get_production_data db unit_name s e' (Some now) mode)
      as [production_data| |msg] eqn:Hq.
    + rewrite IH.
      * unfold report_step at 1. rewrite Hq. cbn [ReportAcc.unit_data].
        rewrite dict_set_fresh by (apply Hacc; left; reflexivity).
        rewrite <- app_assoc. reflexivity.
      * intros k Hk. unfold report_step. rewrite Hq. cbn [ReportAcc.unit_data].
        rewrite dict_set_fresh by (apply Hacc; left; reflexivity).
        rewrite map_app, in_app_iff. intros [Hin|[Heq|[]]].
        -- exact (Hacc k (or_intror Hk) Hin).
        -- simpl in Heq. subst k. exact (Hfresh Hk).
    + rewrite report_step_skip by (intros pd; rewrite Hq; discriminate).
      apply IH. intros k Hk. apply Hacc. right. exact Hk.
    + rewrite report_step_skip by (intros pd; rewrite Hq; discriminate).
      apply IH. intros k Hk. apply Hacc. right. exact Hk.
Qed.

(** C5: the report's weighted quality is the sum of [quality * total_qty]
    over the units whose query succeeded, divided by the sum of their
    [total_qty], and 0 when that sum is 0; with every unit named once these
    units are exactly the entries of the report's [units].  (Counts are
    non-negative, as the query gives them.)  At two units with quality 1.0
    and 0.5 and 10 pieces each this is 0.75. *)
Theorem weighted_quality_formula db unit_list s e' now mode r :
  counts_nonneg db ->
  get_report_data db unit_list s e' now mode = Response r ->
  let us := map snd (successful_units db s e' now mode unit_list) in
  let denominator := sum_over Unit.total_qty us in
  let numerator :=
    sumQ_over (fun u => (Unit.quality u * inject_Z (Unit.total_qty u))%Q) us in
  (denominator = 0 -> (Summary.weighted_quality (Report.summary r) == 0)%Q)
  /\ (denominator <> 0 ->
      (Summary.weighted_quality (Report.summary r)
       == numerator / inject_Z denominator)%Q)
  /\ (NoDup unit_list -> Report.units r = successful_units db s e' now mode unit_list).
Proof.
  intros Hdb Hr. cbv zeta.
  unfold get_report_data in Hr.
  destruct unit_list as [|u0 rest] eqn:Hl; [discriminate |].
  rewrite <- Hl in *. injection Hr as <-.
  destruct (report_fold_quality db s e' now mode unit_list ReportAcc.init)
    as [Ht Hq].
  cbn [ReportAcc.init ReportAcc.total_production_all ReportAcc.weighted_quality_sum]
    in Ht, Hq.
  rewrite Z.add_0_l in Ht. rewrite Qplus_0_l in Hq.
  pose proof (successful_units_total_nonneg db s e' now mode unit_list Hdb) as Hnn.
  unfold report_of. cbn [Report.summary Report.units Summary.weighted_quality].
  rewrite Ht.
  split; [| split].
  - intros Hzero. rewrite Hzero. reflexivity.
  - intros Hne.
    destruct (Z.ltb_spec 0 (sum_over Unit.total_qty
                              (map snd (successful_units db s e' now mode unit_list))))
      as [_|Hle]; [| lia].
    rewrite Hq. reflexivity.
  - intros Hnodup.
    rewrite (report_fold_unit_data db s e' now mode unit_list Hnodup ReportAcc.init).
    + reflexivity.
    + intros k _ [].
Qed.

Lemma example_db_counts_nonneg : counts_nonneg example_db.
Proof.
  intros unit_name s e' all_rows. unfold example_db.
  destruct (String.eqb unit_name "A"%string);
    [| destruct (String.eqb unit_name "B"%string); [| destruct (String.eqb unit_name "T"%string)]];
    intros H; [injection H as <- | injection H as <- | discriminate | discriminate];
    repeat constructor; simpl; lia.
Defined.

Lemma weighted_quality_formula_witness :
  exists r,
    get_report_data example_db ["A"%string; "B"%string]
                    (at_ 0 8 0) (at_ 0 16 0) (at_ 0 17 0) "mode1"%string = Response r
    /\ map (fun u => (Qred (Unit.quality (snd u)), Unit.total_qty (snd u)))
           (Report.units r) = [(1%Q, 10); (1 # 2, 10)]
    /\ (Summary.weighted_quality (Report.summary r) == 3 # 4)%Q.
Proof.
  eexists. split; [reflexivity |]. split; [vm_compute; reflexivity |].
  destruct (weighted_quality_formula example_db ["A"%string; "B"%string]
              (at_ 0 8 0) (at_ 0 16 0) (at_ 0 17 0) "mode1"%string _
              example_db_counts_nonneg eq_refl) as (_ & Hratio & _).
  rewrite Hratio.
  - vm_compute. reflexivity.
  - vm_compute. discriminate.
Defined.

(** ** Query timeouts and failures *)

(** The loop of [get_report_data] ends in the same state as on the units
    whose query succeeds. *)
Lemma report_fold_filter db s e' now mode unit_list :
  forall acc,
    fold_left (report_step db s e' now mode) unit_list acc
    = fold_left (report_step db s e' now mode)
                (filter (query_succeeds db s e' now mode) unit_list) acc.
Proof.
  induction unit_list as [|unit_name unit_list IH]; intros acc; [reflexivity |].
  cbn [fold_left filter]. unfold query_succeeds at 1.
  destruct (get_production_data db unit_name s e' (Some now) mode)
    as [production_data| |msg] eqn:Hq.
  - cbn [fold_left]. apply IH.
  - rewrite report_step_skip by (intros pd; rewrite Hq; discriminate). apply IH.
  - rewrite report_step_skip by (intros pd; rewrite Hq; discriminate). apply IH.
Qed.

(** C9: a unit whose query times out or fails is skipped by the multi-unit
    report, which still answers, with the report of the remaining units;
    the single-unit historical endpoint answers a timeout with an error of
    status 504 and a failure with an error of status 500, not with a
    body. *)
Theorem query_failure_handling db unit_list unit_name s e' now mode :
  unit_list <> [] ->
  (exists r,
      get_report_data db unit_list s e' now mode = Response r
      /\ r = report_of
               (fold_left (report_step db s e' now mode)
                          (filter (query_succeeds db s e' now mode) unit_list)
                          ReportAcc.init)
      /\ (filter (query_succeeds db s e' now mode) unit_list <> [] ->
          get_report_data db (filter (query_succeeds db s e' now mode) unit_list)
                          s e' now mode = Response r))
  /\ (get_production_data db unit_name s e' (Some now) mode = TimeoutError ->
      get_historical_data db unit_name s e' now mode
      = HTTPException 504 "Database query timeout - try a smaller time range")
  /\ (forall db_error,
         get_production_data db unit_name s e' (Some now) mode = Raised db_error ->
         get_historical_data db unit_name s e' now mode
         = HTTPException 500 ("Database error: " ++ db_error)).
Proof.
  intros Hne. split; [| split].
  - eexists. split; [| split].
    + unfold get_report_data. destruct unit_list; [contradiction | reflexivity].
    + rewrite report_fold_filter. reflexivity.
    + intros Hrest. unfold get_report_data.
      destruct (filter (query_succeeds db s e' now mode) unit_list) eqn:Hf;
        [contradiction |].
      rewrite <- Hf. rewrite (report_fold_filter db s e' now mode unit_list).
      reflexivity.
  - intros Hq. unfold get_historical_data. rewrite Hq. reflexivity.
  - intros db_error Hq. unfold get_historical_data. rewrite Hq. reflexivity.
Qed.

Lemma query_failure_handling_witness :
  (exists r,
      get_report_data example_db ["A"%string; "T"%string; "X"%string; "B"%string]
                      (at_ 0 8 0) (at_ 0 16 0) (at_ 0 17 0) "mode1"%string = Response r
      /\ map fst (Report.units r) = ["A"%string; "B"%string]
      /\ get_report_data example_db ["A"%string; "B"%string]
                         (at_ 0 8 0) (at_ 0 16 0) (at_ 0 17 0) "mode1"%string = Response r)
  /\ get_historical_data example_db "T"%string (at_ 0 8 0) (at_ 0 16 0) (at_ 0 17 0) "mode1"%string
     = HTTPException 504 "Database query timeout - try a smaller time range"
  /\ get_historical_data example_db "X"%string (at_ 0 8 0) (at_ 0 16 0) (at_ 0 17 0) "mode1"%string
     = HTTPException 500 "Database error: unknown unit".
Proof.
  assert (Hne : ["A"%string; "T"%string; "X"%string; "B"%string] <> [])
    by discriminate.
  split; [| split].
  - destruct (proj1 (query_failure_handling example_db
                       ["A"%string; "T"%string; "X"%string; "B"%string] "T"%string
                       (at_ 0 8 0) (at_ 0 16 0) (at_ 0 17 0) "mode1"%string Hne))
      as (r & Hr & Heq & Hrest).
    exists r. split; [exact Hr |]. split.
    + rewrite Heq. vm_compute. reflexivity.
    + apply Hrest. vm_compute. discriminate.
  - apply (proj1 (proj2 (query_failure_handling example_db
                           ["A"%string; "T"%string; "X"%string; "B"%string] "T"%string
                           (at_ 0 8 0) (at_ 0 16 0) (at_ 0 17 0) "mode1"%string Hne))).
    reflexivity.
  - apply (proj2 (proj2 (query_failure_handling example_db
                           ["A"%string; "T"%string; "X"%string; "B"%string] "X"%string
                           (at_ 0 8 0) (at_ 0 16 0) (at_ 0 17 0) "mode1"%string Hne))
             "unknown unit"%string).
    reflexivity.
Defined.

(** ** Hourly breakdown *)

Lemma hour_entry_bounds current_hour hour_end hour_data mode oee :
  Hour.hour_start (hour_entry current_hour hour_end hour_data mode oee) = current_hour
  /\ Hour.hour_end (hour_entry current_hour hour_end hour_data mode oee) = hour_end.
Proof.
  unfold hour_entry.
  destruct (models_with_target hour_data); [split; reflexivity |].
  destruct (0 <? _); split; reflexivity.
Qed.

Lemma always_answers_done db unit_name s e' now mode :
  always_answers db unit_name ->
  exists production_data,
    get_production_data db unit_name s e' now mode = Done production_data.
Proof.
  intros H. unfold get_production_data.
  destruct (H s (final_query_end_time (resolve_end s e' now))) as [all_rows ->].
  eexists. reflexivity.
Qed.

(** The fuel of [hourly_fuel] covers the span. *)
Lemma hourly_fuel_enough current_hour end_ :
  end_ - current_hour <= Z.of_nat (hourly_fuel current_hour end_) * hours 1.
Proof.
  unfold hourly_fuel, hours.
  destruct (Z_lt_le_dec current_hour end_) as [Hlt|Hge].
  - pose proof (Z.div_mod (end_ - current_hour) (1 * 3600000000) ltac:(lia)).
    pose proof (Z.mod_pos_bound (end_ - current_hour) (1 * 3600000000) ltac:(lia)).
    assert (0 <= (end_ - current_hour) / (1 * 3600000000))
      by (apply Z.div_pos; lia).
    rewrite Z2Nat.id by lia. lia.
  - lia.
Qed.

(** The loop of [get_historical_hourly_data], when every query succeeds and
    the fuel covers the span: it ends, and the buckets it appends partition
    the span from the cursor to the end. *)
Lemma historical_hourly_loop_partitions db unit_name end_dt now mode :
  always_answers db unit_name ->
  forall fuel current_hour acc,
    end_dt - current_hour <= Z.of_nat fuel * hours 1 ->
    exists acc' new,
      historical_hourly_loop fuel db unit_name end_dt now mode current_hour acc
      = Some acc'
      /\ HourlyAcc.hourly_data acc' = HourlyAcc.hourly_data acc ++ new
      /\ buckets_of current_hour end_dt new.
Proof.
  intros Hdb. induction fuel as [|fuel IH]; intros current_hour acc Hfuel.
  - exists acc, []. simpl.
    destruct (Z.ltb_spec current_hour end_dt) as [Hlt|Hge]; [simpl in Hfuel; lia |].
    split; [reflexivity |]. split; [rewrite app_nil_r; reflexivity |].
    unfold buckets_of. destruct (Z.ltb_spec current_hour end_dt); [lia | reflexivity].
  - cbn [historical_hourly_loop].
    destruct (Z.ltb_spec current_hour end_dt) as [Hlt|Hge].
    + set (hour_end := Z.min (current_hour + hours 1) end_dt).
      destruct (always_answers_done db unit_name current_hour hour_end (Some now) mode Hdb)
        as [hour_data ->].
      set (entry := hour_entry current_hour hour_end hour_data mode None).
      match goal with
      | |- context [historical_hourly_loop fuel _ _ _ _ _ hour_end ?a] =>
          destruct (IH hour_end a) as (acc' & new & Hrun & Hdata & Hnew)
      end.
      { unfold hours in *. lia. }
      exists acc', (entry :: new). split; [exact Hrun |].
      split.
      { rewrite Hdata. cbn [HourlyAcc.hourly_data]. rewrite <- app_assoc. reflexivity. }
      unfold buckets_of in *.
      destruct (Z.ltb_spec current_hour end_dt) as [_|]; [| lia].
      cbn [bounds map partitions].
      destruct (hour_entry_bounds current_hour hour_end hour_data mode None)
        as [Hs He]. fold entry in Hs, He. rewrite Hs, He.
      split; [reflexivity |].
      split; [unfold hour_end, hours; lia |].
      destruct (Z.ltb_spec hour_end end_dt) as [Hmore|Hlast].
      * split; [left; unfold hour_end, hours in *; lia | exact Hnew].
      * subst new. cbn [map partitions].
        split; [| unfold hour_end, hours in *; lia].
        unfold hour_end, hours in *.
        destruct (Z_le_gt_dec (current_hour + 1 * 3600000000) end_dt);
          [left; lia | right; split; [lia | reflexivity]].
    + exists acc, []. split; [reflexivity |].
      split; [rewrite app_nil_r; reflexivity |].
      unfold buckets_of. destruct (Z.ltb_spec current_hour end_dt); [lia | reflexivity].
Qed.

(** The same for the loop of [hourly_websocket_endpoint]; for a live window
    the end of the breakdown is the current time. *)
Lemma ws_hourly_loop_partitions db unit_name is_live_data actual_end now mode :
  always_answers db unit_name ->
  (is_live_data = true -> actual_end = now) ->
  forall fuel current_hour hourly_data,
    actual_end - current_hour <= Z.of_nat fuel * hours 1 ->
    exists new,
      ws_hourly_loop fuel db unit_name is_live_data actual_end now mode
                     current_hour hourly_data
      = Some (hourly_data ++ new)
      /\ buckets_of current_hour actual_end new.
Proof.
  intros Hdb Hlive. induction fuel as [|fuel IH]; intros current_hour hourly_data Hfuel.
  - exists []. simpl.
    destruct (Z.ltb_spec current_hour actual_end) as [Hlt|Hge]; [simpl in Hfuel; lia |].
    split; [rewrite app_nil_r; reflexivity |].
    unfold buckets_of. destruct (Z.ltb_spec current_hour actual_end); [lia | reflexivity].
  - cbn [ws_hourly_loop]. cbv zeta.
    destruct (Z.ltb_spec current_hour actual_end) as [Hlt|Hge].
    + match goal with
      | |- context [get_production_data db unit_name current_hour ?x _ _] =>
          set (hour_end := x)
      end.
      assert (Hend : hour_end = Z.min (current_hour + hours 1) actual_end).
      { unfold hour_end. destruct is_live_data; [| reflexivity].
        rewrite (Hlive eq_refl) in *. cbn [andb].
        destruct (Z.ltb_spec current_hour now); [| lia].
        destruct (Z.ltb_spec now (current_hour + hours 1)); cbn [andb]; lia. }
      match goal with
      | |- context [ws_hourly_loop fuel _ _ _ _ _ _ ?x _] => set (next_hour := x)
      end.
      assert (Hnext : next_hour = hour_end \/ (hour_end = actual_end /\ actual_end <= next_hour)).
      { unfold next_hour. destruct is_live_data; [| left; reflexivity].
        rewrite (Hlive eq_refl) in *. cbn [andb].
        destruct (Z.eqb_spec hour_end now); [right; lia | left; reflexivity]. }
      match goal with
      | |- context [get_production_data ?a1 ?a2 ?a3 ?a4 ?a5 ?a6] =>
          destruct (always_answers_done a1 a2 a3 a4 a5 a6 Hdb) as [hour_data ->]
      end.
      set (entry := hour_entry current_hour hour_end hour_data mode (Some 0%Q)).
      destruct (IH next_hour (hourly_data ++ [entry])) as (new & Hrun & Hnew).
      { unfold hours in *. lia. }
      exists (entry :: new). split.
      { rewrite Hrun. rewrite <- app_assoc. reflexivity. }
      unfold buckets_of in *.
      destruct (Z.ltb_spec current_hour actual_end) as [_|]; [| lia].
      cbn [bounds map partitions].
      destruct (hour_entry_bounds current_hour hour_end hour_data mode (Some 0%Q))
        as [Hs He]. fold entry in Hs, He. rewrite Hs, He.
      split; [reflexivity |].
      split; [unfold hours in *; lia |].
      destruct (Z.ltb_spec next_hour actual_end) as [Hmore|Hlast].
      * destruct Hnext as [Hsame|[_ Hpast]]; [| lia]. rewrite Hsame in *.
        split; [left; unfold hours in *; lia | exact Hnew].
      * subst new. cbn [map partitions].
        assert (Hreach : hour_end = actual_end) by (destruct Hnext; lia).
        split; [| exact Hreach].
        unfold hours in *.
        destruct (Z_le_gt_dec (current_hour + 1 * 3600000000) actual_end);
          [left; lia | right; split; [lia | reflexivity]].
    + exists []. split; [rewrite app_nil_r; reflexivity |].
      unfold buckets_of. destruct (Z.ltb_spec current_hour actual_end); [lia | reflexivity].
Qed.

Lemma const_db_always_answers all_rows unit_name :
  always_answers (const_db all_rows) unit_name.
Proof. intros s e'. exists all_rows. reflexivity. Defined.

(** C6 as stated fails.  A window from 10:15 to 11:30 gets the buckets from
    10:00 to 11:00 and from 11:00 to 11:30, which begin before the window;
    and when the query of the bucket of 11:00 times out, a window from 10:00
    to 12:30 gets the buckets of 10:00 and of 12:00 only, with a gap. *)
Lemma hourly_buckets_not_partition :
  (exists r,
      get_historical_hourly_data (const_db []) "U1"%string (at_ 0 10 15) (at_ 0 11 30)
                                 (at_ 1 0 0) "mode1"%string = Some (Response r)
      /\ bounds (HistoricalHourly.hourly_data r)
         = [(at_ 0 10 0, at_ 0 11 0); (at_ 0 11 0, at_ 0 11 30)]
      /\ ~ partitions (at_ 0 10 15) (at_ 0 11 30)
                      (bounds (HistoricalHourly.hourly_data r)))
  /\ (exists r,
         get_historical_hourly_data gap_db "U1"%string (at_ 0 10 0) (at_ 0 12 30)
                                    (at_ 1 0 0) "mode1"%string = Some (Response r)
         /\ bounds (HistoricalHourly.hourly_data r)
            = [(at_ 0 10 0, at_ 0 11 0); (at_ 0 12 0, at_ 0 12 30)]
         /\ ~ partitions (at_ 0 10 0) (at_ 0 12 30)
                         (bounds (HistoricalHourly.hourly_data r))).
Proof.
  split.
  - eexists. split; [vm_compute; reflexivity |].
    split; [vm_compute; reflexivity |].
    intros (Hstart & _). vm_compute in Hstart. discriminate.
  - eexists. split; [vm_compute; reflexivity |].
    split; [vm_compute; reflexivity |].
    intros (_ & _ & _ & Hnext & _). vm_compute in Hnext. discriminate.
Qed.

(** Both hourly loops end, whatever the queries answer, once the fuel
    covers the span. *)
Lemma historical_hourly_loop_total db unit_name end_dt now mode :
  forall fuel current_hour acc,
    end_dt - current_hour <= Z.of_nat fuel * hours 1 ->
    exists acc',
      historical_hourly_loop fuel db unit_name end_dt now mode current_hour acc
      = Some acc'.
Proof.
  induction fuel as [|fuel IH]; intros current_hour acc Hfuel.
  - simpl. destruct (Z.ltb_spec current_hour end_dt); [simpl in Hfuel; lia |].
    exists acc. reflexivity.
  - cbn [historical_hourly_loop].
    destruct (Z.ltb_spec current_hour end_dt) as [Hlt|Hge];
      [| exists acc; reflexivity].
    destruct (get_production_data db unit_name current_hour _ (Some now) mode);
      apply IH; unfold hours in *; lia.
Qed.

Lemma ws_hourly_loop_total db unit_name is_live_data actual_end now mode :
  (is_live_data = true -> actual_end = now) ->
  forall fuel current_hour hourly_data,
    actual_end - current_hour <= Z.of_nat fuel * hours 1 ->
    exists hourly_data',
      ws_hourly_loop fuel db unit_name is_live_data actual_end now mode
                     current_hour hourly_data
      = Some hourly_data'.
Proof.
  intros Hlive. induction fuel as [|fuel IH]; intros current_hour hourly_data Hfuel.
  - simpl. destruct (Z.ltb_spec current_hour actual_end); [simpl in Hfuel; lia |].
    exists hourly_data. reflexivity.
  - cbn [ws_hourly_loop]. cbv zeta.
    destruct (Z.ltb_spec current_hour actual_end) as [Hlt|Hge];
      [| exists hourly_data; reflexivity].
    match goal with
    | |- context [get_production_data db unit_name current_hour ?x _ _] =>
        set (hour_end := x)
    end.
    match goal with
    | |- context [ws_hourly_loop fuel _ _ _ _ _ _ ?x _] => set (next_hour := x)
    end.
    assert (Hnext : Z.min (current_hour + hours 1) actual_end <= next_hour).
    { unfold next_hour, hour_end. destruct is_live_data; cbn [andb]; [| lia].
      rewrite (Hlive eq_refl) in *.
      destruct (Z.ltb_spec current_hour now); [| lia].
      destruct (Z.ltb_spec now (current_hour + hours 1)); cbn [andb].
      - rewrite Z.eqb_refl. lia.
      - destruct (Z.eqb_spec (Z.min (current_hour + hours 1) now) now); lia. }
    destruct (get_production_data _ _ _ _ _ _);
      apply IH; unfold hours in *; lia.
Qed.

Lemma ws_hourly_breakdown_total db unit_name start_time end_time now mode :
  exists hourly_data,
    ws_hourly_breakdown db unit_name start_time end_time now mode = Some hourly_data.
Proof.
  unfold ws_hourly_breakdown.
  destruct (hourly_live end_time now) as [is_live_data actual_end] eqn:Hlive.
  apply ws_hourly_loop_total; [| apply hourly_fuel_enough].
  unfold hourly_live in Hlive. injection Hlive as Hl Ha. intros Ht.
  rewrite <- Hl in Ht. rewrite Ht in Ha. symmetry. exact Ha.
Qed.

(** [get_historical_hourly_data] always answers. *)
Lemma get_historical_hourly_data_total db unit_name start_dt end_dt now mode :
  exists r,
    get_historical_hourly_data db unit_name start_dt end_dt now mode
    = Some (Response r).
Proof.
  unfold get_historical_hourly_data.
  destruct (historical_hourly_loop_total db unit_name end_dt now mode
              (hourly_fuel (replace_minute0 start_dt) end_dt)
              (replace_minute0 start_dt) HourlyAcc.init (hourly_fuel_enough _ _))
    as [acc' ->].
  eexists. reflexivity.
Qed.

(** ** Streaming sessions *)

Lemma receive_phase_next msg timestamp p out p' :
  receive_phase msg timestamp p = (out, Some p') ->
  p' = p
  \/ exists m start_time end_time working_mode,
       msg = Message m /\ Msg.heartbeat m = false
       /\ _parse_ws_params m = Some (start_time, end_time, working_mode)
       /\ p' = Params.mk (Params.unit_name p) start_time end_time working_mode.
Proof.
  unfold receive_phase. destruct msg as [|m| |]; try discriminate.
  - intros H. injection H as _ <-. left. reflexivity.
  - destruct (Msg.heartbeat m) eqn:Hb.
    + intros H. injection H as _ <-. left. reflexivity.
    + destruct (_parse_ws_params m) as [[[start_time end_time] working_mode]|] eqn:Hp;
        [| discriminate].
      intros H. injection H as _ <-. right.
      exists m, start_time, end_time, working_mode. repeat split; assumption.
Qed.

Lemma receive_phase_keeps msg timestamp p out p' :
  is_param_message msg = false ->
  receive_phase msg timestamp p = (out, Some p') -> p' = p.
Proof.
  intros Hmsg H. destruct (receive_phase_next _ _ _ _ _ H)
    as [Heq|(m & s & e' & w & -> & Hb & _)]; [exact Heq |].
  simpl in Hmsg. rewrite Hb in Hmsg. discriminate.
Qed.

(** The parameters after a turn of either loop are those of its wait, or
    unchanged when the turn never reaches the wait. *)
Lemma standard_iteration_next env p out p' :
  standard_iteration env p = (out, Some p') ->
  p' = p
  \/ exists out', receive_phase (Env.msg env) (Env.timestamp env) p = (out', Some p').
Proof.
  unfold standard_iteration, query_failed.
  destruct (get_production_data _ _ _ _ _ _) as [production_data| |db_error].
  - destruct (Env.connected env); cbn [negb]; [| discriminate].
    destruct (receive_phase (Env.msg env) (Env.timestamp env) p) as [out' next].
    intros H. injection H as _ ->. right. exists out'. reflexivity.
  - intros H. injection H as _ <-. left. reflexivity.
  - intros H. injection H as _ <-. left. reflexivity.
Qed.

Lemma hourly_iteration_next env p out p' :
  hourly_iteration env p = Some (out, Some p') ->
  p' = p
  \/ exists out', receive_phase (Env.msg env) (Env.timestamp env) p = (out', Some p').
Proof.
  unfold hourly_iteration, query_failed.
  destruct (get_production_data _ _ _ _ _ _) as [raw_data| |db_error].
  - destruct (ws_hourly_breakdown _ _ _ _ _ _) as [hourly_data|]; [| discriminate].
    destruct (Env.connected env); cbn [negb]; [| discriminate].
    destruct (receive_phase (Env.msg env) (Env.timestamp env) p) as [out' next].
    intros H. injection H as _ ->. right. exists out'. reflexivity.
  - intros H. injection H as _ <-. left. reflexivity.
  - intros H. injection H as _ <-. left. reflexivity.
Qed.

(** A session whose turns meet no message with new parameters keeps the
    parameters it started with. *)
Lemma standard_session_keeps envs :
  Forall (fun env => is_param_message (Env.msg env) = false) envs ->
  forall p out p', standard_session envs p = (out, Some p') -> p' = p.
Proof.
  induction 1 as [|env envs Hmsg _ IH]; intros p out p' Hrun.
  - simpl in Hrun. injection Hrun as _ <-. reflexivity.
  - cbn [standard_session] in Hrun.
    destruct (standard_iteration env p) as [out1 [p1|]] eqn:Hstep; [| discriminate].
    destruct (standard_session envs p1) as [out2 final] eqn:Hrest.
    injection Hrun as _ ->.
    assert (p1 = p) as ->.
    { destruct (standard_iteration_next _ _ _ _ Hstep) as [Heq|[out' Hrecv]];
        [exact Heq | exact (receive_phase_keeps _ _ _ _ _ Hmsg Hrecv)]. }
    exact (IH _ _ _ Hrest).
Qed.

(** C10: in a turn of either streaming loop whose wait ends with a heartbeat
    message, the acknowledgement is sent after the snapshot and the next
    turn has the same unit name, window and working mode; and whatever a
    turn meets, the parameters of the next turn are the same ones unless
    the wait ended with a message that is not a heartbeat and carries new
    times, which then replace the window and the working mode.  Hence a
    session that meets no such message keeps its parameters. *)
Theorem heartbeat_keeps_parameters (env : Env.t) (p : Params.t) :
  (forall m,
      Env.msg env = Message m -> Msg.heartbeat m = true ->
      receive_phase (Env.msg env) (Env.timestamp env) p
      = ([SendHeartbeat (Env.timestamp env)], Some p)
      /\ forall production_data,
          get_production_data (Env.db env) (Params.unit_name p) (Params.start_time p)
            (Params.end_time p) (Some (Env.current_time env)) (Params.working_mode p)
          = Done production_data ->
          Env.connected env = true ->
          standard_iteration env p
          = ([SendStandard (standard_response p (Env.current_time env) production_data);
              SendHeartbeat (Env.timestamp env)], Some p)
          /\ exists hourly_data,
              hourly_iteration env p
              = Some ([SendHourly (hourly_response p (Env.current_time env)
                                                   production_data hourly_data);
                       SendHeartbeat (Env.timestamp env)], Some p))
  /\ (forall out p',
         standard_iteration env p = (out, Some p')
         \/ hourly_iteration env p = Some (out, Some p') ->
         p' = p
         \/ exists m start_time end_time working_mode,
              Env.msg env = Message m /\ Msg.heartbeat m = false
              /\ _parse_ws_params m = Some (start_time, end_time, working_mode)
              /\ p' = Params.mk (Params.unit_name p) start_time end_time working_mode)
  /\ (forall envs out p',
         Forall (fun env => is_param_message (Env.msg env) = false) envs ->
         standard_session envs p = (out, Some p') -> p' = p).
Proof.
  split; [| split].
  - intros m Hmsg Hb.
    assert (Hrecv : receive_phase (Env.msg env) (Env.timestamp env) p
                    = ([SendHeartbeat (Env.timestamp env)], Some p)).
    { rewrite Hmsg. unfold receive_phase. rewrite Hb. reflexivity. }
    split; [exact Hrecv |].
    intros production_data Hq Hconn. split.
    + unfold standard_iteration. rewrite Hq, Hconn, Hrecv. reflexivity.
    + destruct (ws_hourly_breakdown_total (Env.db env) (Params.unit_name p)
                  (Params.start_time p) (Params.end_time p) (Env.current_time env)
                  (Params.working_mode p)) as [hourly_data Hh].
      exists hourly_data.
      unfold hourly_iteration. rewrite Hq, Hh, Hconn, Hrecv. reflexivity.
  - intros out p' [Hstep|Hstep].
    + destruct (standard_iteration_next _ _ _ _ Hstep) as [Heq|[out' Hrecv]];
        [left; exact Heq | exact (receive_phase_next _ _ _ _ _ Hrecv)].
    + destruct (hourly_iteration_next _ _ _ _ Hstep) as [Heq|[out' Hrecv]];
        [left; exact Heq | exact (receive_phase_next _ _ _ _ _ Hrecv)].
  - intros envs out p' Hquiet Hrun. exact (standard_session_keeps envs Hquiet _ _ _ Hrun).
Qed.

Lemma heartbeat_keeps_parameters_witness :
  snd (standard_iteration (example_env (Message heartbeat_message)) example_params)
  = Some example_params
  /\ (exists out,
         hourly_iteration (example_env (Message heartbeat_message)) example_params
         = Some (out ++ [SendHeartbeat 1234%Q], Some example_params))
  /\ snd (standard_iteration (example_env (Message update_message)) example_params)
     = Some (Params.mk "U1" (at_ 1 8 0) (at_ 1 16 0) "mode2").
Proof.
  destruct (proj1 (heartbeat_keeps_parameters
                     (example_env (Message heartbeat_message)) example_params)
                  heartbeat_message eq_refl eq_refl) as [_ Hturn].
  destruct (Hturn _ eq_refl eq_refl) as [Hstandard [hourly_data Hhourly]].
  split; [rewrite Hstandard; reflexivity |].
  split; [eexists [_]; exact Hhourly |].
  vm_compute. reflexivity.
Defined.

(** ** Further properties of the break calendar *)

Lemma overlap_interval s e' info day :
  overlap s e' info day
  = interval_overlap s e' (fst (break_interval info day)) (snd (break_interval info day)).
Proof.
  unfold overlap, interval_overlap, break_interval.
  destruct (time_gtb (start info) (end_ info)); reflexivity.
Qed.



Lemma sum_over_zero {A : Type} (f : A -> Z) (l : list A) :
  (forall x, In x l -> f x = 0) -> sum_over f l = 0.
Proof.
  induction l as [|x l IH]; intros H; simpl; [reflexivity |].
  rewrite (H x (or_introl eq_refl)), IH; [reflexivity |].
  intros y Hy. apply H. right. exact Hy.
Qed.

Lemma sum_over_ext {A : Type} (f1 f2 : A -> Z) (l : list A) :
  (forall x, In x l -> f1 x = f2 x) -> sum_over f1 l = sum_over f2 l.
Proof.
  induction l as [|x l IH]; intros H; simpl; [reflexivity |].
  rewrite (H x (or_introl eq_refl)), IH; [reflexivity |].
  intros y Hy. apply H. right. exact Hy.
Qed.

Lemma sum_over_add {A : Type} (f1 f2 : A -> Z) (l : list A) :
  sum_over (fun x => f1 x + f2 x) l = sum_over f1 l + sum_over f2 l.
Proof.
  induction l as [|x l IH]; simpl; [reflexivity | rewrite IH; ring].
Qed.

Lemma sum_over_swap {A B : Type} (f : A -> B -> Z) (la : list A) (lb : list B) :
  sum_over (fun x => sum_over (f x) lb) la
  = sum_over (fun y => sum_over (fun x => f x y) la) lb.
Proof.
  induction la as [|x la IH]; simpl.
  - symmetry. apply sum_over_zero. reflexivity.
  - rewrite IH. symmetry. apply sum_over_add.
Qed.


(** An inverted or empty window has no break time. *)
Lemma break_microseconds_empty s e' mode :
  e' <= s -> break_microseconds s e' mode = 0.
Proof.
  intros H. unfold break_microseconds.
  apply sum_over_zero. intros k _. apply sum_over_zero. intros day _.
  rewrite overlap_interval. unfold interval_overlap. lia.
Qed.

Lemma sum_over_map {A B : Type} (g : A -> B) (f : B -> Z) (l : list A) :
  sum_over f (map g l) = sum_over (fun x => f (g x)) l.
Proof.
  induction l as [|x l IH]; simpl; [reflexivity | rewrite IH; reflexivity].
Qed.

Lemma chain_le lo hi intervals : chain lo hi intervals -> lo <= hi.
Proof.
  revert lo. induction intervals as [|[x y] rest IH]; intros lo H; simpl in H.
  - exact H.
  - destruct H as (H1 & H2 & H3). specialize (IH _ H3). lia.
Qed.

(** Intervals that follow one another inside [lo, hi] share no more with a
    window than [lo, hi] itself does. *)
Lemma chain_overlap_le s e' intervals :
  forall lo hi,
    chain lo hi intervals ->
    sum_over (fun iv => interval_overlap s e' (fst iv) (snd iv)) intervals
    <= interval_overlap s e' lo hi.
Proof.
  induction intervals as [|[x y] rest IH]; intros lo hi H; simpl in *.
  - unfold interval_overlap. lia.
  - destruct H as (H1 & H2 & H3).
    specialize (IH _ _ H3). pose proof (chain_le _ _ _ H3).
    unfold interval_overlap in *. lia.
Qed.

Lemma applicable_breaks_cases mode :
  applicable_breaks mode = [Break.a; Break.b; Break.e; Break.f; Break.h; Break.i]
  \/ applicable_breaks mode
     = [Break.a; Break.b; Break.c; Break.f; Break.g; Break.h; Break.i]
  \/ applicable_breaks mode
     = [Break.a; Break.b; Break.c; Break.d; Break.f; Break.g; Break.h; Break.i].
Proof.
  unfold applicable_breaks, WORKING_MODE_BREAKS.
  destruct (String.eqb mode "mode1"%string); [left; reflexivity |].
  destruct (String.eqb mode "mode2"%string); [right; left; reflexivity |].
  destruct (String.eqb mode "mode3"%string); [right; right; reflexivity |].
  left. reflexivity.
Qed.

Lemma chain_of_breaks day (sorted : list Break.id) :
  In sorted [[Break.h; Break.i; Break.a; Break.b; Break.e; Break.f];
             [Break.g; Break.h; Break.i; Break.a; Break.b; Break.c; Break.f];
             [Break.g; Break.h; Break.i; Break.a; Break.b; Break.c; Break.d; Break.f]] ->
  chain (days day) (days (day + 1))
        (map (fun k => break_interval (SHIFT_BREAKS k) day) sorted).
Proof.
  intros [<- | [<- | [<- | []]]];
    unfold break_interval, combine, time_gtb, time_offset, days, hours, minutes;
    cbn; repeat split; lia.
Qed.

(** On one day, the breaks of a working mode share no more with a window
    than the day does. *)
Lemma breaks_of_day_le s e' mode day :
  sum_over (fun k => overlap s e' (SHIFT_BREAKS k) day) (applicable_breaks mode)
  <= interval_overlap s e' (days day) (days (day + 1)).
Proof.
  set (f := fun k => overlap s e' (SHIFT_BREAKS k) day).
  assert (Hsorted :
            forall sorted,
              In sorted
                 [[Break.h; Break.i; Break.a; Break.b; Break.e; Break.f];
                  [Break.g; Break.h; Break.i; Break.a; Break.b; Break.c; Break.f];
                  [Break.g; Break.h; Break.i; Break.a; Break.b; Break.c; Break.d;
                   Break.f]] ->
              sum_over f sorted <= interval_overlap s e' (days day) (days (day + 1))).
  { intros sorted Hin.
    pose proof (chain_overlap_le s e' _ _ _ (chain_of_breaks day sorted Hin)) as H.
    rewrite sum_over_map in H.
    erewrite sum_over_ext; [exact H |].
    intros k _. unfold f. apply overlap_interval. }
  destruct (applicable_breaks_cases mode) as [-> | [-> | ->]].
  - specialize (Hsorted _ (or_introl eq_refl)). simpl in *. lia.
  - specialize (Hsorted _ (or_intror (or_introl eq_refl))). simpl in *. lia.
  - specialize (Hsorted _ (or_intror (or_intror (or_introl eq_refl)))).
    simpl in *. lia.
Qed.

Lemma date_range_cons lo hi :
  lo <= hi -> date_range lo hi = lo :: date_range (lo + 1) hi.
Proof.
  intros H. rewrite (date_range_split lo (lo + 1) hi) by lia.
  replace (lo + 1 - 1) with lo by ring.
  unfold date_range at 1. replace (Z.to_nat (lo - lo + 1)) with 1%nat by lia.
  simpl. rewrite Z.add_0_r. reflexivity.
Qed.

Lemma chain_of_days hi :
  forall n lo,
    Z.to_nat (hi - lo + 1) = n -> lo <= hi + 1 ->
    chain (days lo) (days (hi + 1)) (map day_interval (date_range lo hi)).
Proof.
  induction n as [|n IH]; intros lo Hn Hlo.
  - rewrite date_range_empty by lia. simpl. unfold days. lia.
  - rewrite date_range_cons by lia. cbn [map chain day_interval].
    split; [lia |]. split; [unfold days; lia |].
    apply IH; lia.
Qed.

(** The break time of a window, in microseconds, is at most its length. *)
Lemma break_microseconds_le s e' mode :
  s <= e' -> break_microseconds s e' mode <= e' - s.
Proof.
  intros Hse. unfold break_microseconds. rewrite sum_over_swap.
  transitivity (sum_over (fun day => interval_overlap s e' (days day) (days (day + 1)))
                         (date_range (date s) (date e'))).
  - apply sum_over_le. intros day. apply breaks_of_day_le.
  - pose proof (date_mono _ _ Hse) as Hd.
    pose proof (chain_overlap_le s e' _ _ _
                  (chain_of_days (date e') _ (date s) eq_refl ltac:(lia))) as H.
    rewrite sum_over_map in H. cbn [day_interval fst snd] in H.
    unfold interval_overlap in *. lia.
Qed.





Lemma date_shift t n : date (t + days n) = date t + n.
Proof.
  unfold date, days. rewrite Z.mul_1_l. apply Z.div_add. lia.
Qed.

Lemma date_range_shift lo hi n :
  date_range (lo + n) (hi + n) = map (fun day => day + n) (date_range lo hi).
Proof.
  unfold date_range. replace (hi + n - (lo + n) + 1) with (hi - lo + 1) by ring.
  rewrite map_map. apply map_ext. intros i. ring.
Qed.

Lemma overlap_shift s e' info day n :
  overlap (s + days n) (e' + days n) info (day + n) = overlap s e' info day.
Proof.
  unfold overlap, combine, days.
  destruct (time_gtb (start info) (end_ info)); lia.
Qed.

(** Moving a window by whole days keeps its break time. *)
Lemma break_microseconds_shift s e' mode n :
  break_microseconds (s + days n) (e' + days n) mode = break_microseconds s e' mode.
Proof.
  unfold break_microseconds. apply sum_over_ext. intros k _.
  rewrite !date_shift, date_range_shift, sum_over_map.
  apply sum_over_ext. intros day _. apply overlap_shift.
Qed.

(** X1: a window that ends at or before its start has no break time. *)
Theorem calculate_break_time_empty_window (start_time end_time : datetime)
    (working_mode : string) :
  end_time <= start_time ->
  (calculate_break_time start_time end_time working_mode == 0)%Q.
Proof.
  intros H. rewrite calculate_break_time_microseconds.
  rewrite (break_microseconds_empty _ _ _ H). reflexivity.
Qed.

Lemma calculate_break_time_empty_window_witness :
  (calculate_break_time (at_ 0 12 20) (at_ 0 12 10) "mode1"%string == 0)%Q.
Proof.
  apply calculate_break_time_empty_window. vm_compute. discriminate.
Defined.

(** X2: the break time of a window that does not end before it starts is
    at most the length of the window, so the operating time is the length
    minus the break time, without the floor at 0 coming into play, and the
    operating hours are not negative. *)
Theorem calculate_break_time_le_duration (start_time end_time : datetime)
    (working_mode : string) :
  start_time <= end_time ->
  (calculate_break_time start_time end_time working_mode
   <= total_seconds (end_time - start_time)
   /\ operation_time_hours start_time end_time working_mode
      == (total_seconds (end_time - start_time)
          - calculate_break_time start_time end_time working_mode) / 3600
   /\ 0 <= operation_time_hours start_time end_time working_mode)%Q.
Proof.
  intros H.
  assert (Hle : (calculate_break_time start_time end_time working_mode
                 <= total_seconds (end_time - start_time))%Q).
  { rewrite calculate_break_time_microseconds. apply total_seconds_le.
    apply break_microseconds_le. exact H. }
  assert (Hpos : (0 <= total_seconds (end_time - start_time)
                       - calculate_break_time start_time end_time working_mode)%Q).
  { apply (Qplus_le_l _ _ (calculate_break_time start_time end_time working_mode)).
    ring_simplify. exact Hle. }
  assert (Hmax : (Qmax (total_seconds (end_time - start_time)
                        - calculate_break_time start_time end_time working_mode) 0
                  == total_seconds (end_time - start_time)
                     - calculate_break_time start_time end_time working_mode)%Q).
  { apply Q.max_l. exact Hpos. }
  split; [exact Hle |]. unfold operation_time_hours. rewrite Hmax.
  split; [reflexivity |].
  apply Qle_shift_div_l; [reflexivity |]. rewrite Qmult_0_l. exact Hpos.
Qed.

Lemma calculate_break_time_le_duration_witness :
  (calculate_break_time (at_ 0 9 0) (at_ 0 13 0) "mode1"%string
   <= total_seconds (at_ 0 13 0 - at_ 0 9 0))%Q.
Proof.
  apply (calculate_break_time_le_duration (at_ 0 9 0) (at_ 0 13 0) "mode1"%string).
  vm_compute. discriminate.
Defined.



(** X4: moving a window by a whole number of days, forward or backward,
    keeps its break time. *)
Theorem calculate_break_time_daily (start_time end_time : datetime)
    (working_mode : string) (n : Z) :
  (calculate_break_time (start_time + days n) (end_time + days n) working_mode
   == calculate_break_time start_time end_time working_mode)%Q.
Proof.
  rewrite !calculate_break_time_microseconds.
  rewrite break_microseconds_shift. reflexivity.
Qed.

(** X5: a working mode that is not a key of [WORKING_MODE_BREAKS] gets the
    break time of [mode1]. *)
Theorem calculate_break_time_unknown_mode (start_time end_time : datetime)
    (working_mode : string) :
  WORKING_MODE_BREAKS working_mode = None ->
  calculate_break_time start_time end_time working_mode
  = calculate_break_time start_time end_time "mode1"%string.
Proof.
  intros H. unfold calculate_break_time. rewrite H. reflexivity.
Qed.

Lemma calculate_break_time_unknown_mode_witness :
  calculate_break_time (at_ 0 9 0) (at_ 0 13 0) "night"%string
  = calculate_break_time (at_ 0 9 0) (at_ 0 13 0) "mode1"%string.
Proof.
  apply calculate_break_time_unknown_mode. reflexivity.
Defined.

(** ** Further properties of the model metrics *)

Lemma first_pass_target oth r : Model.target (first_pass oth r) = row3 r.
Proof.
  unfold first_pass. destruct (target_positive (row3 r)); reflexivity.
Qed.

(** [business_logic] runs the second pass exactly when some row has a
    positive target. *)
Lemma business_logic_passes all_rows s e' mode :
  exists with_target,
    business_logic all_rows s e' mode
    = map (model_of_row with_target (operation_time_hours s e' mode)) all_rows
    /\ (with_target = false ->
        forall r, In r all_rows -> target_positive (row3 r) = false).
Proof.
  unfold business_logic.
  destruct (filter _ _) as [|m ms] eqn:Hf.
  - exists false. split; [rewrite map_map; reflexivity |].
    intros _ r Hr.
    destruct (target_positive (row3 r)) eqn:Ht; [| reflexivity].
    exfalso.
    assert (Hin : In (first_pass (operation_time_hours s e' mode) r)
                     (filter (fun model_data =>
                                target_positive (Model.target model_data))
                             (map (first_pass (operation_time_hours s e' mode))
                                  all_rows))).
    { apply filter_In. split; [apply in_map; exact Hr |].
      rewrite first_pass_target. exact Ht. }
    rewrite Hf in Hin. exact Hin.
  - exists true. split; [rewrite map_map; reflexivity | discriminate].
Qed.

Lemma model_of_row_with_target oth r t :
  row3 r = Some t -> Qpositive t = true ->
  Model.theoretical_qty (model_of_row true oth r) = (oth * t)%Q
  /\ Model.performance (model_of_row true oth r)
     = Some (if Qpositive (oth * t)
             then (inject_Z (row1 r) / (oth * t))%Q else 0%Q).
Proof.
  intros Ht Hpos. unfold model_of_row, second_pass.
  rewrite first_pass_target. unfold first_pass. rewrite Ht. cbn [target_positive].
  rewrite Hpos. cbn. destruct (Qpositive (oth * t)); split; reflexivity.
Qed.

Lemma model_of_row_without_target wt oth r :
  target_positive (row3 r) = false ->
  Model.theoretical_qty (model_of_row wt oth r) = 0%Q.
Proof.
  intros Ht. unfold model_of_row, second_pass, no_target_pass.
  rewrite first_pass_target. unfold first_pass. rewrite Ht.
  destruct wt; reflexivity.
Qed.

Lemma target_positive_some (t : option Q) :
  target_positive t = true <-> exists x, t = Some x /\ (0 < x)%Q.
Proof.
  unfold target_positive. destruct t as [x|].
  - rewrite Qpositive_true. split.
    + intros H. exists x. split; [reflexivity | exact H].
    + intros (y & Hy & Hpos). injection Hy as ->. exact Hpos.
  - split; [discriminate | intros (x & Hx & _); discriminate].
Qed.

(** What the two passes make of a record returned by
    [get_production_data]. *)
Lemma production_data_record db unit_name s e' now mode ms m :
  get_production_data db unit_name s e' now mode = Done ms ->
  In m ms ->
  exists wt r,
    m = model_of_row wt
          (operation_time_hours s (actual_end_time (resolve_end s e' now)) mode) r
    /\ (wt = false -> target_positive (row3 r) = false).
Proof.
  intros H Hm. apply get_production_data_done in H as (all_rows & _ & ->).
  destruct (business_logic_passes all_rows s
              (actual_end_time (resolve_end s e' now)) mode) as (wt & Heq & Hwt).
  rewrite Heq in Hm. apply in_map_iff in Hm as (r & <- & Hr).
  exists wt, r. split; [reflexivity |]. intros Hf. exact (Hwt Hf r Hr).
Qed.

(** X6: in every record returned by [get_production_data], a model with a
    positive target has the theoretical quantity [operating hours * target]
    and the performance [success count / theoretical quantity], or 0 when
    the theoretical quantity is not positive; a model whose target is absent
    or not positive has theoretical quantity 0 and no performance. *)
Theorem performance_of_record db unit_name s e' now mode ms m :
  get_production_data db unit_name s e' now mode = Done ms ->
  In m ms ->
  let oth :=
    operation_time_hours s (actual_end_time (resolve_end s e' now)) mode in
  (forall t,
      Model.target m = Some t -> (0 < t)%Q ->
      Model.theoretical_qty m = (oth * t)%Q
      /\ Model.performance m
         = Some (if Qpositive (oth * t)
                 then (inject_Z (Model.success_qty m) / (oth * t))%Q else 0%Q))
  /\ (Model.target m = None \/ (exists t, Model.target m = Some t /\ (t <= 0)%Q) ->
      Model.theoretical_qty m = 0%Q /\ Model.performance m = None).
Proof.
  intros H Hm oth.
  destruct (production_data_record _ _ _ _ _ _ _ _ H Hm) as (wt & r & -> & Hwt).
  fold oth.
  destruct (model_of_row_counts wt oth r) as (_ & Hs & _ & Ht & _).
  rewrite Hs, Ht. split.
  - intros t Htarget Hpos.
    assert (Htp : target_positive (row3 r) = true).
    { apply target_positive_some. exists t. split; assumption. }
    destruct wt; [| rewrite (Hwt eq_refl) in Htp; discriminate].
    apply model_of_row_with_target; [exact Htarget |].
    apply Qpositive_true. exact Hpos.
  - intros Hno.
    assert (Htp : target_positive (row3 r) = false).
    { destruct (target_positive (row3 r)) eqn:Htp; [| reflexivity].
      apply target_positive_some in Htp as (x & Hx & Hpos).
      destruct Hno as [Hnone|(t & Hsome & Hle)]; [congruence |].
      rewrite Hx in Hsome. injection Hsome as ->.
      exfalso. exact (Qlt_not_le _ _ Hpos Hle). }
    split; [apply model_of_row_without_target | apply model_of_row_no_target];
      exact Htp.
Qed.

Lemma performance_of_record_witness :
  let m := model_of_row true
             (operation_time_hours (at_ 0 13 0) (at_ 0 14 0) "mode1"%string)
             (mk_row "M1"%string 80 20 (Some 100%Q)) in
  Model.theoretical_qty m
  = (operation_time_hours (at_ 0 13 0) (at_ 0 14 0) "mode1"%string * 100)%Q.
Proof.
  intros m.
  refine (proj1 (proj1 (performance_of_record
                          (const_db [mk_row "M1"%string 80 20 (Some 100%Q);
                                     mk_row "M2"%string 5 1 None]) "U1"%string
                          (at_ 0 13 0) (at_ 0 14 0) None "mode1"%string
                          (business_logic [mk_row "M1"%string 80 20 (Some 100%Q);
                                           mk_row "M2"%string 5 1 None]
                                          (at_ 0 13 0) (at_ 0 14 0) "mode1"%string)
                          m eq_refl _) 100%Q eq_refl _)).
  - left. reflexivity.
  - reflexivity.
Defined.

Lemma operation_time_hours_nonneg s e' mode :
  (0 <= operation_time_hours s e' mode)%Q.
Proof.
  unfold operation_time_hours.
  apply Qle_shift_div_l; [reflexivity |]. rewrite Qmult_0_l. apply Q.le_max_r.
Qed.

(** X7: in every record returned by [get_production_data] the theoretical
    quantity is not negative, and neither is the performance of a record
    whose success count is not negative. *)
Theorem metrics_nonneg db unit_name s e' now mode ms m :
  get_production_data db unit_name s e' now mode = Done ms ->
  In m ms ->
  (0 <= Model.theoretical_qty m)%Q
  /\ (0 <= Model.success_qty m ->
      forall p, Model.performance m = Some p -> (0 <= p)%Q).
Proof.
  intros H Hm.
  destruct (production_data_record _ _ _ _ _ _ _ _ H Hm) as (wt & r & -> & Hwt).
  set (oth := operation_time_hours s (actual_end_time (resolve_end s e' now)) mode).
  pose proof (operation_time_hours_nonneg s (actual_end_time (resolve_end s e' now))
                                          mode) as Hoth. fold oth in Hoth.
  destruct (model_of_row_counts wt oth r) as (_ & Hs & _).
  rewrite Hs.
  destruct (target_positive (row3 r)) eqn:Htp.
  - destruct wt; [| discriminate (Hwt eq_refl)].
    apply target_positive_some in Htp as (t & Ht & Hpos).
    destruct (model_of_row_with_target oth r t Ht (proj2 (Qpositive_true t) Hpos))
      as [-> ->].
    split.
    + apply Qmult_le_0_compat; [exact Hoth | apply Qlt_le_weak; exact Hpos].
    + intros Hsucc p Hp. injection Hp as <-.
      destruct (Qpositive (oth * t)) eqn:Hq; [| discriminate].
      apply Qpositive_true in Hq.
      apply Qle_shift_div_l; [exact Hq |]. rewrite Qmult_0_l.
      unfold Qle; simpl; lia.
  - rewrite (model_of_row_without_target wt oth r Htp),
            (model_of_row_no_target wt oth r Htp).
    split; [apply Qle_refl | intros _ p Hp; discriminate].
Qed.

Lemma metrics_nonneg_witness :
  let m := model_of_row true
             (operation_time_hours (at_ 0 13 0) (at_ 0 14 0) "mode1"%string)
             (mk_row "M1"%string 80 20 (Some 100%Q)) in
  (0 <= Model.theoretical_qty m)%Q.
Proof.
  intros m.
  refine (proj1 (metrics_nonneg
                   (const_db [mk_row "M1"%string 80 20 (Some 100%Q)]) "U1"%string
                   (at_ 0 13 0) (at_ 0 14 0) None "mode1"%string
                   (business_logic [mk_row "M1"%string 80 20 (Some 100%Q)]
                                   (at_ 0 13 0) (at_ 0 14 0) "mode1"%string)
                   m eq_refl _)).
  left. reflexivity.
Defined.

(** X8: for a window that does not end before it starts, a reference time
    more than 5 minutes past the end of the window gives what no reference
    time gives. *)
Theorem historical_reference_time_ignored db unit_name s e' now mode :
  s <= e' -> minutes 5 < now - e' ->
  get_production_data db unit_name s e' (Some now) mode
  = get_production_data db unit_name s e' None mode.
Proof.
  intros Hse Hpast. unfold get_production_data.
  rewrite (resolve_end_historical s e' now Hpast).
  unfold resolve_end. destruct (Z.ltb_spec e' s); [lia | reflexivity].
Qed.

Lemma historical_reference_time_ignored_witness :
  get_production_data example_db "A"%string (at_ 0 8 0) (at_ 0 16 0) (Some (at_ 0 17 0))
                      "mode1"%string
  = get_production_data example_db "A"%string (at_ 0 8 0) (at_ 0 16 0) None "mode1"%string.
Proof.
  apply historical_reference_time_ignored; vm_compute; [discriminate | reflexivity].
Defined.

Lemma operation_time_hours_zero s e' mode :
  e' <= s -> (operation_time_hours s e' mode == 0)%Q.
Proof.
  intros H. unfold operation_time_hours.
  assert (Hb : (calculate_break_time s e' mode == 0)%Q).
  { rewrite calculate_break_time_microseconds.
    rewrite (break_microseconds_empty _ _ _ H). reflexivity. }
  assert (Hneg : (total_seconds (e' - s) - calculate_break_time s e' mode <= 0)%Q).
  { rewrite Hb. unfold total_seconds, Qle, Qminus, Qplus, Qopp. simpl. lia. }
  rewrite (Q.max_r _ _ Hneg). reflexivity.
Qed.

(** X9: when the operating time ends at or before the start of the window,
    as for a live window that has not begun, every record with a positive
    target has the performance 0 and the theoretical quantity 0. *)
Theorem window_not_begun db unit_name s e' now mode ms m t :
  get_production_data db unit_name s e' now mode = Done ms ->
  actual_end_time (resolve_end s e' now) <= s ->
  In m ms -> Model.target m = Some t -> (0 < t)%Q ->
  Model.performance m = Some 0%Q /\ (Model.theoretical_qty m == 0)%Q.
Proof.
  intros H Hend Hm Ht Hpos.
  destruct (production_data_record _ _ _ _ _ _ _ _ H Hm) as (wt & r & -> & Hwt).
  set (oth := operation_time_hours s (actual_end_time (resolve_end s e' now)) mode)
    in *.
  pose proof (operation_time_hours_zero s _ mode Hend) as Hzero. fold oth in Hzero.
  destruct (model_of_row_counts wt oth r) as (_ & _ & _ & Htarget & _).
  rewrite Htarget in Ht.
  assert (Htp : target_positive (row3 r) = true).
  { apply target_positive_some. exists t. split; assumption. }
  destruct wt; [| rewrite (Hwt eq_refl) in Htp; discriminate].
  destruct (model_of_row_with_target oth r t Ht (proj2 (Qpositive_true t) Hpos))
    as [-> ->].
  assert (Hprod : (oth * t == 0)%Q) by (rewrite Hzero; apply Qmult_0_l).
  split; [| exact Hprod].
  destruct (Qpositive (oth * t)) eqn:Hq; [| reflexivity].
  apply Qpositive_true in Hq. rewrite Hprod in Hq. discriminate.
Qed.

Lemma window_not_begun_witness :
  let m := model_of_row true
             (operation_time_hours (at_ 0 13 0) (at_ 0 13 0) "mode1"%string)
             (mk_row "M1"%string 80 20 (Some 100%Q)) in
  Model.performance m = Some 0%Q /\ (Model.theoretical_qty m == 0)%Q.
Proof.
  intros m.
  refine (window_not_begun
            (const_db [mk_row "M1"%string 80 20 (Some 100%Q)]) "U1"%string
            (at_ 0 13 0) (at_ 0 14 0) (Some (at_ 0 12 0)) "mode1"%string
            (business_logic [mk_row "M1"%string 80 20 (Some 100%Q)]
                            (at_ 0 13 0) (at_ 0 13 0) "mode1"%string)
            m 100%Q eq_refl _ _ eq_refl _).
  - vm_compute. discriminate.
  - left. reflexivity.
  - reflexivity.
Defined.

(** ** Further properties of the multi-unit report *)

Lemma successful_units_forall db s e' now mode (P : Unit.t -> Prop) unit_list :
  (forall unit_name production_data,
      get_production_data db unit_name s e' (Some now) mode = Done production_data ->
      P (unit_entry production_data)) ->
  Forall P (map snd (successful_units db s e' now mode unit_list)).
Proof.
  intros HP. induction unit_list as [|unit_name unit_list IH]; [constructor |].
  rewrite successful_units_cons.
  destruct (get_production_data db unit_name s e' (Some now) mode)
    as [production_data| |msg] eqn:Hq; cbn [app map snd]; try exact IH.
  constructor; [exact (HP _ _ Hq) | exact IH].
Qed.

Lemma report_step_done_totals db s e' now mode acc unit_name production_data :
  get_production_data db unit_name s e' (Some now) mode = Done production_data ->
  let u := unit_entry production_data in
  ReportAcc.total_success_all (report_step db s e' now mode acc unit_name)
  = ReportAcc.total_success_all acc + Unit.total_success u
  /\ ReportAcc.total_fail_all (report_step db s e' now mode acc unit_name)
     = ReportAcc.total_fail_all acc + Unit.total_fail u
  /\ ReportAcc.total_success_weight (report_step db s e' now mode acc unit_name)
     = ReportAcc.total_success_weight acc + Z.max 0 (Unit.total_success u)
  /\ (ReportAcc.weighted_performance_sum (report_step db s e' now mode acc unit_name)
      == ReportAcc.weighted_performance_sum acc
         + Unit.performance_sum u * inject_Z (Z.max 0 (Unit.total_success u)))%Q.
Proof.
  intros Hq u. unfold report_step. rewrite Hq.
  cbn [ReportAcc.total_success_all ReportAcc.total_fail_all
       ReportAcc.total_success_weight ReportAcc.weighted_performance_sum].
  fold u. split; [reflexivity |]. split; [reflexivity |].
  destruct (Z.ltb_spec 0 (Unit.total_success u)) as [Hpos|Hle].
  - rewrite Z.max_r by lia. split; reflexivity.
  - rewrite Z.max_l by lia. split; [ring |].
    change (inject_Z 0) with 0%Q. ring.
Qed.

(** What the loop of [get_report_data] leaves in its other variables: sums
    over the units whose query succeeded, a unit weighing in the performance
    with its success count when that is positive. *)
Lemma report_fold_totals db s e' now mode unit_list :
  forall acc,
    let us := map snd (successful_units db s e' now mode unit_list) in
    let final := fold_left (report_step db s e' now mode) unit_list acc in
    ReportAcc.total_success_all final
    = ReportAcc.total_success_all acc + sum_over Unit.total_success us
    /\ ReportAcc.total_fail_all final
       = ReportAcc.total_fail_all acc + sum_over Unit.total_fail us
    /\ ReportAcc.total_success_weight final
       = ReportAcc.total_success_weight acc
         + sum_over (fun u => Z.max 0 (Unit.total_success u)) us
    /\ (ReportAcc.weighted_performance_sum final
        == ReportAcc.weighted_performance_sum acc
           + sumQ_over (fun u => (Unit.performance_sum u
                                  * inject_Z (Z.max 0 (Unit.total_success u)))%Q)
                       us)%Q.
Proof.
  induction unit_list as [|unit_name unit_list IH]; intros acc; cbv zeta.
  - simpl. repeat split; ring.
  - cbn [fold_left]. rewrite successful_units_cons.
    destruct (IH (report_step db s e' now mode acc unit_name))
      as (IH1 & IH2 & IH3 & IH4).
    rewrite IH1, IH2, IH3, IH4. clear IH1 IH2 IH3 IH4.
    destruct (get_production_data db unit_name s e' (Some now) mode)
      as [production_data| |msg] eqn:Hq.
    + destruct (report_step_done_totals db s e' now mode acc unit_name
                  production_data Hq) as (H1 & H2 & H3 & H4).
      rewrite H1, H2, H3, H4. cbn [app map snd].
      rewrite !sum_over_cons, sumQ_over_cons.
      split; [ring |]. split; [ring |]. split; ring.
    + rewrite report_step_skip by (intros pd; rewrite Hq; discriminate).
      repeat split; reflexivity.
    + rewrite report_step_skip by (intros pd; rewrite Hq; discriminate).
      repeat split; reflexivity.
Qed.

Lemma get_report_data_response db unit_list s e' now mode r :
  get_report_data db unit_list s e' now mode = Response r ->
  r = report_of (fold_left (report_step db s e' now mode) unit_list ReportAcc.init).
Proof.
  unfold get_report_data. destruct unit_list; [discriminate |].
  intros H. injection H as <-. reflexivity.
Qed.

(** The totals of the summary as sums over the units whose query succeeded. *)
Lemma report_summary_sums db unit_list s e' now mode r :
  get_report_data db unit_list s e' now mode = Response r ->
  let us := map snd (successful_units db s e' now mode unit_list) in
  Summary.total_production (Report.summary r)
  = Summary.total_success (Report.summary r) + Summary.total_fail (Report.summary r)
  /\ Summary.total_success (Report.summary r) = sum_over Unit.total_success us
  /\ Summary.total_fail (Report.summary r) = sum_over Unit.total_fail us
  /\ Summary.total_production (Report.summary r) = sum_over Unit.total_qty us.
Proof.
  intros Hr. cbv zeta. rewrite (get_report_data_response _ _ _ _ _ _ _ Hr).
  destruct (report_fold_totals db s e' now mode unit_list ReportAcc.init)
    as (H1 & H2 & _).
  destruct (report_fold_quality db s e' now mode unit_list ReportAcc.init)
    as (H3 & _).
  unfold report_of.
  cbn [Report.summary Summary.total_production Summary.total_success
       Summary.total_fail].
  rewrite H1, H2, H3. cbn [ReportAcc.init ReportAcc.total_success_all
                           ReportAcc.total_fail_all ReportAcc.total_production_all].
  rewrite !Z.add_0_l.
  split; [| repeat split].
  rewrite <- sum_over_add. apply sum_over_ext.
  intros u Hu.
  assert (Hall : Forall (fun u => Unit.total_qty u
                                  = Unit.total_success u + Unit.total_fail u)
                        (map snd (successful_units db s e' now mode unit_list))).
  { apply successful_units_forall. intros. reflexivity. }
  exact (proj1 (Forall_forall _ _) Hall u Hu).
Qed.

(** X10: in the summary of a report the total production is the sum of the
    total success and the total fail, and each of the three is the sum of
    the corresponding figure of the units whose query succeeded. *)
Theorem report_totals db unit_list s e' now mode r :
  get_report_data db unit_list s e' now mode = Response r ->
  let us := map snd (successful_units db s e' now mode unit_list) in
  Summary.total_production (Report.summary r)
  = Summary.total_success (Report.summary r) + Summary.total_fail (Report.summary r)
  /\ Summary.total_success (Report.summary r) = sum_over Unit.total_success us
  /\ Summary.total_fail (Report.summary r) = sum_over Unit.total_fail us
  /\ Summary.total_production (Report.summary r) = sum_over Unit.total_qty us.
Proof.
  exact (report_summary_sums db unit_list s e' now mode r).
Qed.

Lemma sum_over_nonneg_forall {A : Type} (f : A -> Z) (l : list A) :
  Forall (fun x => 0 <= f x) l -> 0 <= sum_over f l.
Proof.
  induction 1 as [|x l Hx _ IH]; simpl; lia.
Qed.


Lemma report_totals_witness :
  exists r,
    get_report_data example_db ["A"%string; "T"%string; "B"%string]
                    (at_ 0 8 0) (at_ 0 16 0) (at_ 0 17 0) "mode1"%string = Response r
    /\ Summary.total_production (Report.summary r)
       = Summary.total_success (Report.summary r)
         + Summary.total_fail (Report.summary r)
    /\ Summary.total_production (Report.summary r) = 20.
Proof.
  eexists. split; [reflexivity |].
  split; [| vm_compute; reflexivity].
  apply (report_totals example_db ["A"%string; "T"%string; "B"%string]
                       (at_ 0 8 0) (at_ 0 16 0) (at_ 0 17 0) "mode1"%string _ eq_refl).
Defined.

Lemma sumQ_over_ext {A : Type} (f1 f2 : A -> Q) (l : list A) :
  Forall (fun x => (f1 x == f2 x)%Q) l -> (sumQ_over f1 l == sumQ_over f2 l)%Q.
Proof.
  induction 1 as [|x l Hx _ IH]; simpl; [reflexivity | rewrite Hx, IH; reflexivity].
Qed.


(** With non-negative counts, the quality of a unit times its total is its
    success count. *)
Lemma unit_entry_quality_success (production_data : list Model.t) :
  Forall (fun m => 0 <= Model.success_qty m /\ 0 <= Model.fail_qty m) production_data ->
  0 <= Unit.total_success (unit_entry production_data)
  /\ (Unit.quality (unit_entry production_data)
      * inject_Z (Unit.total_qty (unit_entry production_data))
      == inject_Z (Unit.total_success (unit_entry production_data)))%Q.
Proof.
  intros H. unfold unit_entry. cbn [Unit.total_success Unit.quality Unit.total_qty].
  assert (Hs : 0 <= sumZ (map Model.success_qty production_data)).
  { apply sumZ_nonneg. apply Forall_map. eapply Forall_impl; [| exact H].
    intros m Hm. exact (proj1 Hm). }
  assert (Hf : 0 <= sumZ (map Model.fail_qty production_data)).
  { apply sumZ_nonneg. apply Forall_map. eapply Forall_impl; [| exact H].
    intros m Hm. exact (proj2 Hm). }
  split; [exact Hs |].
  set (sq := sumZ (map Model.success_qty production_data)) in *.
  set (fq := sumZ (map Model.fail_qty production_data)) in *.
  destruct (Z.ltb_spec 0 (sq + fq)) as [Hpos|Hle].
  - field. intros Hzero. unfold Qeq in Hzero. simpl in Hzero. lia.
  - replace sq with 0 by lia. rewrite Qmult_0_l. reflexivity.
Qed.



(** X12: with non-negative counts, the weighted performance of a report is
    the sum of [performance_sum * total_success] over the units whose query
    succeeded, divided by the sum of their [total_success], and 0 when that
    sum is 0: the weight of a unit is its success count. *)
Theorem weighted_performance_formula db unit_list s e' now mode r :
  counts_nonneg db ->
  get_report_data db unit_list s e' now mode = Response r ->
  let us := map snd (successful_units db s e' now mode unit_list) in
  let denominator := sum_over Unit.total_success us in
  let numerator :=
    sumQ_over (fun u => (Unit.performance_sum u * inject_Z (Unit.total_success u))%Q)
              us in
  (denominator = 0 -> (Summary.weighted_performance (Report.summary r) == 0)%Q)
  /\ (denominator <> 0 ->
      (Summary.weighted_performance (Report.summary r)
       == numerator / inject_Z denominator)%Q).
Proof.
  intros Hdb Hr. cbv zeta.
  assert (Hall : Forall (fun u => 0 <= Unit.total_success u)
                        (map snd (successful_units db s e' now mode unit_list))).
  { apply successful_units_forall. intros unit_name production_data Hq.
    exact (proj1 (unit_entry_quality_success production_data
                    (production_data_counts_nonneg _ _ _ _ _ _ _ Hdb Hq))). }
  rewrite (get_report_data_response _ _ _ _ _ _ _ Hr).
  destruct (report_fold_totals db s e' now mode unit_list ReportAcc.init)
    as (_ & _ & Hw & Hp).
  cbv zeta in Hw, Hp.
  cbn [ReportAcc.init ReportAcc.total_success_weight
       ReportAcc.weighted_performance_sum] in Hw, Hp.
  rewrite Z.add_0_l in Hw. rewrite Qplus_0_l in Hp.
  assert (Hden : sum_over (fun u => Z.max 0 (Unit.total_success u))
                          (map snd (successful_units db s e' now mode unit_list))
                 = sum_over Unit.total_success
                            (map snd (successful_units db s e' now mode unit_list))).
  { apply sum_over_ext. intros u Hu.
    pose proof (proj1 (Forall_forall _ _) Hall u Hu) as Hu0. cbv beta in Hu0. lia. }
  assert (Hnum : (sumQ_over
                    (fun u => Unit.performance_sum u
                              * inject_Z (Z.max 0 (Unit.total_success u)))
                    (map snd (successful_units db s e' now mode unit_list))
                  == sumQ_over
                       (fun u => Unit.performance_sum u
                                 * inject_Z (Unit.total_success u))
                       (map snd (successful_units db s e' now mode unit_list)))%Q).
  { apply sumQ_over_ext. eapply Forall_impl; [| exact Hall].
    intros u Hu. cbv beta. rewrite Z.max_r by exact Hu. reflexivity. }
  rewrite Hden in Hw. rewrite Hnum in Hp.
  pose proof (sum_over_nonneg_forall _ _ Hall) as Hnn.
  unfold report_of. cbn [Report.summary Summary.weighted_performance].
  rewrite Hw. split.
  - intros Hzero. rewrite Hzero. reflexivity.
  - intros Hne.
    destruct (Z.ltb_spec 0 (sum_over Unit.total_success
                              (map snd (successful_units db s e' now mode unit_list))))
      as [_|Hle]; [| lia].
    rewrite Hp. reflexivity.
Qed.

Lemma const_db_counts_nonneg all_rows :
  Forall (fun r => 0 <= row1 r /\ 0 <= row2 r) all_rows ->
  counts_nonneg (const_db all_rows).
Proof.
  intros H unit_name s e' rows Hq. unfold const_db in Hq.
  injection Hq as <-. exact H.
Defined.

Lemma weighted_performance_formula_witness :
  exists r,
    get_report_data (const_db [mk_row "M1"%string 80 20 (Some 100%Q)])
                    ["U1"%string; "U2"%string]
                    (at_ 0 13 0) (at_ 0 14 0) (at_ 0 15 0) "mode1"%string = Response r
    /\ (Summary.weighted_performance (Report.summary r) == 8 # 10)%Q.
Proof.
  eexists. split; [reflexivity |].
  assert (Hnn : counts_nonneg (const_db [mk_row "M1"%string 80 20 (Some 100%Q)])).
  { apply const_db_counts_nonneg. repeat constructor; simpl; lia. }
  destruct (weighted_performance_formula
              (const_db [mk_row "M1"%string 80 20 (Some 100%Q)])
              ["U1"%string; "U2"%string]
              (at_ 0 13 0) (at_ 0 14 0) (at_ 0 15 0) "mode1"%string _ Hnn eq_refl)
    as (_ & Hratio).
  rewrite Hratio.
  - vm_compute. reflexivity.
  - vm_compute. discriminate.
Defined.

Lemma dict_get_set_same {A : Type} (k : string) (v : A) (dict : list (string * A)) :
  dict_get k (dict_set k v dict) = Some v.
Proof.
  induction dict as [|[k' v'] dict IH]; simpl.
  - rewrite String.eqb_refl. reflexivity.
  - destruct (String.eqb k k') eqn:Hk; simpl.
    + rewrite String.eqb_refl. reflexivity.
    + rewrite Hk. exact IH.
Qed.

Lemma dict_get_set_other {A : Type} (k k0 : string) (v : A)
    (dict : list (string * A)) :
  k0 <> k -> dict_get k0 (dict_set k v dict) = dict_get k0 dict.
Proof.
  intros Hne. induction dict as [|[k' v'] dict IH]; simpl.
  - destruct (String.eqb_spec k0 k); [contradiction | reflexivity].
  - destruct (String.eqb_spec k k') as [->|Hk]; simpl.
    + destruct (String.eqb_spec k0 k'); [contradiction | reflexivity].
    + rewrite IH. reflexivity.
Qed.

Lemma dict_set_keys {A : Type} (k : string) (v : A) (dict : list (string * A)) :
  forall k0, In k0 (map fst (dict_set k v dict)) <-> k0 = k \/ In k0 (map fst dict).
Proof.
  induction dict as [|[k' v'] dict IH]; intros k0; simpl.
  - split; [intros [H|[]]; left; symmetry; exact H | intros [H|[]]; left; symmetry; exact H].
  - destruct (String.eqb_spec k k') as [->|Hk]; simpl.
    + split; [intros [H|H]; [left; symmetry; exact H | right; right; exact H] |].
      intros [H|[H|H]]; [left; symmetry; exact H | left; exact H | right; exact H].
    + rewrite IH. split.
      * intros [H|[H|H]]; [right; left; exact H | left; exact H | right; right; exact H].
      * intros [H|[H|H]]; [right; left; exact H | left; exact H | right; right; exact H].
Qed.

Lemma dict_set_nodup {A : Type} (k : string) (v : A) (dict : list (string * A)) :
  NoDup (map fst dict) -> NoDup (map fst (dict_set k v dict)).
Proof.
  induction dict as [|[k' v'] dict IH]; intros Hnd; simpl.
  - constructor; [intros [] | constructor].
  - inversion Hnd as [|x l Hnotin Hrest]; subst.
    destruct (String.eqb_spec k k') as [->|Hk]; simpl.
    + constructor; assumption.
    + constructor; [| apply IH; exact Hrest].
      intros Hin. apply dict_set_keys in Hin as [Heq|Hin];
        [apply Hk; symmetry; exact Heq | exact (Hnotin Hin)].
Qed.

(** The entries of [unit_data] after the loop of [get_report_data]: those
    it had, with the entry of every listed unit whose query succeeded put in
    or replaced; no name has two entries. *)
Lemma report_fold_lookup db s e' now mode unit_list :
  forall acc,
    (NoDup (map fst (ReportAcc.unit_data acc)) ->
     NoDup (map fst (ReportAcc.unit_data
                       (fold_left (report_step db s e' now mode) unit_list acc))))
    /\ forall k,
        dict_get k (ReportAcc.unit_data
                      (fold_left (report_step db s e' now mode) unit_list acc))
        = match get_production_data db k s e' (Some now) mode with
          | Done production_data =>
              if existsb (String.eqb k) unit_list
              then Some (unit_entry production_data)
              else dict_get k (ReportAcc.unit_data acc)
          | TimeoutError => dict_get k (ReportAcc.unit_data acc)
          | Raised _ => dict_get k (ReportAcc.unit_data acc)
          end.
Proof.
  induction unit_list as [|unit_name unit_list IH]; intros acc.
  - simpl. split; [exact (fun H => H) |].
    intros k. destruct (get_production_data db k s e' (Some now) mode); reflexivity.
  - cbn [fold_left existsb].
    destruct (IH (report_step db s e' now mode acc unit_name)) as [IHnd IHget].
    destruct (get_production_data db unit_name s e' (Some now) mode)
      as [production_data| |msg] eqn:Hq.
    + assert (Hdata : ReportAcc.unit_data (report_step db s e' now mode acc unit_name)
                      = dict_set unit_name (unit_entry production_data)
                                 (ReportAcc.unit_data acc)).
      { unfold report_step. rewrite Hq. reflexivity. }
      split.
      * intros Hnd. apply IHnd. rewrite Hdata. apply dict_set_nodup. exact Hnd.
      * intros k. rewrite IHget, Hdata.
        destruct (String.eqb_spec k unit_name) as [->|Hne].
        -- rewrite Hq. cbn [orb]. rewrite dict_get_set_same.
           destruct (existsb _ unit_list); reflexivity.
        -- cbn [orb]. rewrite (dict_get_set_other _ _ _ _ Hne). reflexivity.
    + rewrite report_step_skip in * by (intros pd; rewrite Hq; discriminate).
      split; [exact IHnd |]. intros k. rewrite IHget.
      destruct (String.eqb_spec k unit_name) as [->|Hne]; [rewrite Hq |]; reflexivity.
    + rewrite report_step_skip in * by (intros pd; rewrite Hq; discriminate).
      split; [exact IHnd |]. intros k. rewrite IHget.
      destruct (String.eqb_spec k unit_name) as [->|Hne]; [rewrite Hq |]; reflexivity.
Qed.

(** X13: the [units] of a report hold one entry for a name exactly when the
    name was requested and its query succeeded, and the entry is the summary
    of the records of that query; no name has two entries, however often it
    was requested. *)
Theorem report_units_lookup db unit_list s e' now mode r :
  get_report_data db unit_list s e' now mode = Response r ->
  NoDup (map fst (Report.units r))
  /\ forall k u,
      dict_get k (Report.units r) = Some u
      <-> In k unit_list
          /\ exists production_data,
               get_production_data db k s e' (Some now) mode = Done production_data
               /\ u = unit_entry production_data.
Proof.
  intros Hr. rewrite (get_report_data_response _ _ _ _ _ _ _ Hr).
  unfold report_of. cbn [Report.units].
  destruct (report_fold_lookup db s e' now mode unit_list ReportAcc.init)
    as [Hnd Hget].
  split; [apply Hnd; constructor |].
  intros k u. rewrite Hget. cbn [ReportAcc.init ReportAcc.unit_data dict_get].
  destruct (get_production_data db k s e' (Some now) mode)
    as [production_data| |msg].
  - destruct (existsb (String.eqb k) unit_list) eqn:Hex.
    + apply existsb_exists in Hex as (k' & Hin & Hk). apply String.eqb_eq in Hk.
      subst k'. split.
      * intros H. injection H as <-. split; [exact Hin |].
        exists production_data. split; reflexivity.
      * intros (_ & pd & Hpd & ->). injection Hpd as <-. reflexivity.
    + split; [discriminate |]. intros (Hin & _). exfalso.
      assert (existsb (String.eqb k) unit_list = true).
      { apply existsb_exists. exists k. split; [exact Hin | apply String.eqb_refl]. }
      congruence.
  - split; [discriminate | intros (_ & pd & Hpd & _); discriminate].
  - split; [discriminate | intros (_ & pd & Hpd & _); discriminate].
Qed.

Lemma report_units_lookup_witness :
  exists r,
    get_report_data example_db ["A"%string; "T"%string; "A"%string; "B"%string]
                    (at_ 0 8 0) (at_ 0 16 0) (at_ 0 17 0) "mode1"%string = Response r
    /\ NoDup (map fst (Report.units r))
    /\ map fst (Report.units r) = ["A"%string; "B"%string].
Proof.
  eexists. split; [reflexivity |].
  split; [| vm_compute; reflexivity].
  apply (report_units_lookup example_db
           ["A"%string; "T"%string; "A"%string; "B"%string]
           (at_ 0 8 0) (at_ 0 16 0) (at_ 0 17 0) "mode1"%string _ eq_refl).
Defined.

(** ** Further properties of the single-unit summary *)

Lemma production_data_total_qty db unit_name s e' now mode production_data :
  get_production_data db unit_name s e' now mode = Done production_data ->
  map Model.total_qty production_data = map Model.success_qty production_data.
Proof.
  intros H. apply map_ext_in. intros m Hm.
  destruct (production_data_record _ _ _ _ _ _ _ _ H Hm) as (wt & r & -> & _).
  destruct (model_of_row_counts wt
              (operation_time_hours s (actual_end_time (resolve_end s e' now)) mode) r)
    as (_ & Hs & _ & _ & Ht).
  rewrite Hs, Ht. reflexivity.
Qed.

Lemma get_historical_data_response db unit_name s e' now mode h :
  get_historical_data db unit_name s e' now mode = Response h ->
  exists production_data,
    get_production_data db unit_name s e' (Some now) mode = Done production_data
    /\ Historical.models h = production_data
    /\ Historical.total_success h = sumZ (map Model.success_qty production_data)
    /\ Historical.total_fail h = sumZ (map Model.fail_qty production_data)
    /\ Historical.total_qty h = sumZ (map Model.total_qty production_data)
    /\ Historical.total_quality h
       = (if 0 <? Historical.total_success h + Historical.total_fail h
          then (inject_Z (Historical.total_success h)
                / inject_Z (Historical.total_success h + Historical.total_fail h))%Q
          else 0%Q)
    /\ Historical.unit_performance_sum h = performance_sum production_data
    /\ (models_with_target production_data = [] ->
        Historical.total_performance h = 0%Q
        /\ Historical.total_theoretical_qty h = 0%Q).
Proof.
  unfold get_historical_data.
  destruct (get_production_data db unit_name s e' (Some now) mode)
    as [production_data| |msg]; try discriminate.
  intros H. exists production_data. split; [reflexivity |].
  destruct (models_with_target production_data) as [|m0 rest] eqn:Hmwt.
  - injection H as <-. cbn. repeat split.
  - destruct (0 <? sumZ (map Model.total_qty (m0 :: rest)));
      injection H as <-; cbn; repeat split; discriminate.
Qed.

(** X14: in the answer of [get_historical_data] the total quantity is the
    total success, and with non-negative counts the total quality lies
    between 0 and 1. *)
Theorem historical_totals db unit_name s e' now mode h :
  get_historical_data db unit_name s e' now mode = Response h ->
  Historical.total_qty h = Historical.total_success h
  /\ (counts_nonneg db ->
      (0 <= Historical.total_quality h /\ Historical.total_quality h <= 1)%Q).
Proof.
  intros H.
  destruct (get_historical_data_response _ _ _ _ _ _ _ H)
    as (production_data & Hq & _ & Hs & Hf & Ht & Hquality & _).
  split.
  - rewrite Ht, Hs, (production_data_total_qty _ _ _ _ _ _ _ Hq). reflexivity.
  - intros Hdb. rewrite Hquality.
    pose proof (production_data_counts_nonneg _ _ _ _ _ _ _ Hdb Hq) as Hnn.
    assert (0 <= Historical.total_success h).
    { rewrite Hs. apply sumZ_nonneg. apply Forall_map.
      eapply Forall_impl; [| exact Hnn]. intros m Hm. exact (proj1 Hm). }
    assert (0 <= Historical.total_fail h).
    { rewrite Hf. apply sumZ_nonneg. apply Forall_map.
      eapply Forall_impl; [| exact Hnn]. intros m Hm. exact (proj2 Hm). }
    destruct (Z.ltb_spec 0 (Historical.total_success h + Historical.total_fail h)).
    + apply quality_ratio_bounds; lia.
    + split; [apply Qle_refl | discriminate].
Qed.

Lemma historical_totals_witness :
  exists h,
    get_historical_data (const_db [mk_row "M1"%string 80 20 (Some 100%Q);
                                   mk_row "M2"%string 5 1 None]) "U1"%string
                        (at_ 0 13 0) (at_ 0 14 0) (at_ 0 15 0) "mode1"%string = Response h
    /\ Historical.total_qty h = Historical.total_success h
    /\ Historical.total_qty h = 85.
Proof.
  eexists. split; [reflexivity |]. split; [| vm_compute; reflexivity].
  apply (historical_totals (const_db [mk_row "M1"%string 80 20 (Some 100%Q);
                                      mk_row "M2"%string 5 1 None]) "U1"%string
                           (at_ 0 13 0) (at_ 0 14 0) (at_ 0 15 0) "mode1"%string _
                           eq_refl).
Defined.

Lemma sumQ_flat_map_none (production_data : list Model.t) :
  Forall (fun m => Model.performance m = None) production_data ->
  performance_sum production_data = 0%Q.
Proof.
  intros H. unfold performance_sum.
  replace (flat_map _ production_data) with (@nil Q); [reflexivity |].
  induction H as [|m l Hm _ IH]; simpl; [reflexivity |].
  rewrite Hm. exact IH.
Qed.

(** A query that succeeds gets a body from [get_historical_data]. *)
Lemma get_historical_data_done db unit_name s e' now mode production_data :
  get_production_data db unit_name s e' (Some now) mode = Done production_data ->
  exists h, get_historical_data db unit_name s e' now mode = Response h.
Proof.
  intros Hq. unfold get_historical_data. rewrite Hq.
  destruct (models_with_target production_data); [eexists; reflexivity |].
  destruct (0 <? _); eexists; reflexivity.
Qed.

Lemma filter_none {A : Type} (keep : A -> bool) (l : list A) :
  Forall (fun x => keep x = false) l -> filter keep l = [].
Proof.
  induction 1 as [|x l Hx _ IH]; simpl; [reflexivity |].
  rewrite Hx. exact IH.
Qed.

(** X15: when the store gives no row with a positive target, the answer of
    [get_historical_data] has total performance 0, total theoretical
    quantity 0 and performance sum 0. *)
Theorem historical_without_target db unit_name s e' now mode all_rows :
  db unit_name s (final_query_end_time (resolve_end s e' (Some now))) = Done all_rows ->
  (forall r, In r all_rows -> ~ has_positive_target r) ->
  exists h,
    get_historical_data db unit_name s e' now mode = Response h
    /\ Historical.total_performance h = 0%Q
    /\ Historical.total_theoretical_qty h = 0%Q
    /\ Historical.unit_performance_sum h = 0%Q.
Proof.
  intros Hdb Hrows.
  assert (Hq : get_production_data db unit_name s e' (Some now) mode
               = Done (business_logic all_rows s
                         (actual_end_time (resolve_end s e' (Some now))) mode)).
  { unfold get_production_data. rewrite Hdb. reflexivity. }
  assert (Hnone : Forall (fun m => target_positive (Model.target m) = false
                                   /\ Model.performance m = None)
                         (business_logic all_rows s
                            (actual_end_time (resolve_end s e' (Some now))) mode)).
  { destruct (business_logic_map all_rows s
                (actual_end_time (resolve_end s e' (Some now))) mode) as [wt ->].
    apply Forall_forall. intros m Hm. apply in_map_iff in Hm as (r & <- & Hr).
    pose proof (target_positive_false r (Hrows r Hr)) as Ht.
    destruct (model_of_row_counts wt
                (operation_time_hours s (actual_end_time (resolve_end s e' (Some now)))
                                      mode) r) as (_ & _ & _ & Htarget & _).
    rewrite Htarget. split; [exact Ht | apply model_of_row_no_target; exact Ht]. }
  destruct (get_historical_data db unit_name s e' now mode) as [h|code detail] eqn:Hh.
  - exists h. split; [reflexivity |].
    destruct (get_historical_data_response _ _ _ _ _ _ _ Hh)
      as (production_data & Hq' & _ & _ & _ & _ & _ & Hsum & Hmwt).
    rewrite Hq in Hq'. injection Hq' as <-.
    destruct Hmwt as [Hp Ht].
    + apply filter_none. eapply Forall_impl; [| exact Hnone].
      intros m Hm. exact (proj1 Hm).
    + split; [exact Hp |]. split; [exact Ht |].
      rewrite Hsum. apply sumQ_flat_map_none.
      eapply Forall_impl; [| exact Hnone]. intros m Hm. exact (proj2 Hm).
  - destruct (get_historical_data_done _ _ _ _ _ _ _ Hq) as [h Hh']. congruence.
Qed.

Lemma historical_without_target_witness :
  exists h,
    get_historical_data example_db "B"%string (at_ 0 8 0) (at_ 0 16 0) (at_ 0 17 0) "mode1"%string
    = Response h
    /\ Historical.total_performance h = 0%Q
    /\ Historical.total_theoretical_qty h = 0%Q
    /\ Historical.unit_performance_sum h = 0%Q.
Proof.
  apply (historical_without_target example_db "B"%string (at_ 0 8 0) (at_ 0 16 0)
           (at_ 0 17 0) "mode1"%string [mk_row "M2"%string 5 5 None]).
  - reflexivity.
  - intros r [<- | []] (t & Ht & _). discriminate.
Defined.

(** ** Further properties of the hourly breakdown *)

Lemma hour_entry_counts current_hour hour_end hour_data mode oee :
  Hour.success_qty (hour_entry current_hour hour_end hour_data mode oee)
  = sumZ (map Model.success_qty hour_data)
  /\ Hour.fail_qty (hour_entry current_hour hour_end hour_data mode oee)
     = sumZ (map Model.fail_qty hour_data)
  /\ Hour.total_qty (hour_entry current_hour hour_end hour_data mode oee)
     = sumZ (map Model.total_qty hour_data).
Proof.
  unfold hour_entry.
  destruct (models_with_target hour_data); [repeat split |].
  destruct (0 <? _); repeat split.
Qed.

Lemma hour_entry_with_oee current_hour hour_end hour_data mode oee :
  hour_entry current_hour hour_end hour_data mode oee
  = hour_with_oee oee (hour_entry current_hour hour_end hour_data mode None).
Proof.
  unfold hour_entry, hour_with_oee.
  destruct (models_with_target hour_data); [reflexivity |].
  destruct (0 <? _); reflexivity.
Qed.

(** The loop of [get_historical_hourly_data] keeps its totals equal to the
    sums over the buckets, and in every bucket the total quantity is the
    success count. *)
Lemma historical_hourly_loop_totals db unit_name end_dt now mode :
  forall fuel current_hour acc acc',
    historical_hourly_loop fuel db unit_name end_dt now mode current_hour acc
    = Some acc' ->
    (HourlyAcc.total_success acc = sum_over Hour.success_qty (HourlyAcc.hourly_data acc)
     /\ HourlyAcc.total_fail acc = sum_over Hour.fail_qty (HourlyAcc.hourly_data acc)
     /\ HourlyAcc.total_qty acc = sum_over Hour.total_qty (HourlyAcc.hourly_data acc)
     /\ Forall (fun entry => Hour.total_qty entry = Hour.success_qty entry)
               (HourlyAcc.hourly_data acc)) ->
    HourlyAcc.total_success acc' = sum_over Hour.success_qty (HourlyAcc.hourly_data acc')
    /\ HourlyAcc.total_fail acc' = sum_over Hour.fail_qty (HourlyAcc.hourly_data acc')
    /\ HourlyAcc.total_qty acc' = sum_over Hour.total_qty (HourlyAcc.hourly_data acc')
    /\ Forall (fun entry => Hour.total_qty entry = Hour.success_qty entry)
              (HourlyAcc.hourly_data acc').
Proof.
  induction fuel as [|fuel IH]; intros current_hour acc acc' Hrun Hinv.
  - simpl in Hrun. destruct (current_hour <? end_dt); [discriminate |].
    injection Hrun as <-. exact Hinv.
  - cbn [historical_hourly_loop] in Hrun.
    destruct (current_hour <? end_dt); [| injection Hrun as <-; exact Hinv].
    destruct (get_production_data db unit_name current_hour _ (Some now) mode)
      as [hour_data| |msg] eqn:Hq;
      [| exact (IH _ _ _ Hrun Hinv) | exact (IH _ _ _ Hrun Hinv)].
    apply (IH _ _ _ Hrun). cbn [HourlyAcc.hourly_data HourlyAcc.total_success
                                HourlyAcc.total_fail HourlyAcc.total_qty].
    destruct Hinv as (H1 & H2 & H3 & H4).
    rewrite !sum_over_app, H1, H2, H3. simpl.
    split; [ring |]. split; [ring |]. split; [ring |].
    apply Forall_app. split; [exact H4 |]. constructor; [| constructor].
    match goal with
    | |- Hour.total_qty (hour_entry ?c ?e ?d ?m ?o) = _ =>
        destruct (hour_entry_counts c e d m o) as (Hs & _ & Ht)
    end.
    rewrite Hs, Ht. f_equal. apply (production_data_total_qty _ _ _ _ _ _ _ Hq).
Qed.

(** X16: in the answer of [get_historical_hourly_data] the total success,
    total fail and total quantity are the sums of the buckets' figures, the
    total theoretical quantity is the sum of the buckets' theoretical
    quantities, and the total quantity is the total success. *)
Theorem hourly_totals_are_bucket_sums db unit_name start_dt end_dt now mode r :
  get_historical_hourly_data db unit_name start_dt end_dt now mode
  = Some (Response r) ->
  HistoricalHourly.total_success r
  = sum_over Hour.success_qty (HistoricalHourly.hourly_data r)
  /\ HistoricalHourly.total_fail r
     = sum_over Hour.fail_qty (HistoricalHourly.hourly_data r)
  /\ HistoricalHourly.total_qty r
     = sum_over Hour.total_qty (HistoricalHourly.hourly_data r)
  /\ HistoricalHourly.total_theoretical_qty r
     = sumQ (map Hour.theoretical_qty (HistoricalHourly.hourly_data r))
  /\ HistoricalHourly.total_qty r = HistoricalHourly.total_success r.
Proof.
  unfold get_historical_hourly_data.
  destruct (historical_hourly_loop _ _ _ _ _ _ _ _) as [acc|] eqn:Hrun;
    [| discriminate].
  intros H. injection H as <-.
  cbn [HistoricalHourly.total_success HistoricalHourly.total_fail
       HistoricalHourly.total_qty HistoricalHourly.total_theoretical_qty
       HistoricalHourly.hourly_data].
  destruct (historical_hourly_loop_totals _ _ _ _ _ _ _ _ _ Hrun)
    as (H1 & H2 & H3 & H4).
  { simpl. repeat split. constructor. }
  split; [exact H1 |]. split; [exact H2 |]. split; [exact H3 |].
  split; [reflexivity |].
  rewrite H3, H1. apply sum_over_ext. intros entry Hentry.
  exact (proj1 (Forall_forall _ _) H4 entry Hentry).
Qed.

Lemma hourly_totals_are_bucket_sums_witness :
  exists r,
    get_historical_hourly_data (const_db [mk_row "M1"%string 80 20 (Some 100%Q)]) "U1"%string
                               (at_ 0 10 0) (at_ 0 12 30) (at_ 1 0 0) "mode1"%string
    = Some (Response r)
    /\ HistoricalHourly.total_qty r = HistoricalHourly.total_success r
    /\ HistoricalHourly.total_success r = 240.
Proof.
  eexists. split; [vm_compute; reflexivity |]. split; [| vm_compute; reflexivity].
  refine (proj2 (proj2 (proj2 (proj2
            (hourly_totals_are_bucket_sums
               (const_db [mk_row "M1"%string 80 20 (Some 100%Q)]) "U1"%string
               (at_ 0 10 0) (at_ 0 12 30) (at_ 1 0 0) "mode1"%string _ _))))).
  vm_compute. reflexivity.
Defined.

(** Both loops stop at once at a cursor that is not before the end. *)
Lemma historical_hourly_loop_done fuel db unit_name end_dt now mode current_hour acc :
  end_dt <= current_hour ->
  historical_hourly_loop fuel db unit_name end_dt now mode current_hour acc = Some acc.
Proof.
  intros H. destruct fuel; simpl;
    destruct (Z.ltb_spec current_hour end_dt); try lia; reflexivity.
Qed.

Lemma ws_hourly_loop_done fuel db unit_name is_live_data actual_end now mode
    current_hour hourly_data :
  actual_end <= current_hour ->
  ws_hourly_loop fuel db unit_name is_live_data actual_end now mode current_hour
                 hourly_data = Some hourly_data.
Proof.
  intros H. destruct fuel; simpl;
    destruct (Z.ltb_spec current_hour actual_end); try lia; reflexivity.
Qed.

(** The loop of the hourly channel does what the loop of
    [get_historical_hourly_data] does up to the resolved end, its entries
    having the key [oee] in addition. *)
Lemma ws_hourly_loop_as_historical db unit_name is_live_data actual_end now mode :
  (is_live_data = true -> actual_end = now) ->
  forall fuel current_hour acc,
    ws_hourly_loop fuel db unit_name is_live_data actual_end now mode current_hour
                   (map (hour_with_oee (Some 0%Q)) (HourlyAcc.hourly_data acc))
    = option_map (fun acc' => map (hour_with_oee (Some 0%Q))
                                  (HourlyAcc.hourly_data acc'))
                 (historical_hourly_loop fuel db unit_name actual_end now mode
                                         current_hour acc).
Proof.
  intros Hlive. induction fuel as [|fuel IH]; intros current_hour acc.
  - simpl. destruct (current_hour <? actual_end); reflexivity.
  - cbn [ws_hourly_loop historical_hourly_loop]. cbv zeta.
    destruct (Z.ltb_spec current_hour actual_end) as [Hlt|Hge]; [| reflexivity].
    match goal with
    | |- context [if ?c then now else Z.min (current_hour + hours 1) actual_end] =>
        replace (if c then now else Z.min (current_hour + hours 1) actual_end)
          with (Z.min (current_hour + hours 1) actual_end)
    end.
    2:{ destruct is_live_data; [| reflexivity].
        rewrite (Hlive eq_refl) in *. cbn [andb].
        destruct (Z.ltb_spec current_hour now); [| lia].
        destruct (Z.ltb_spec now (current_hour + hours 1)); cbn [andb]; lia. }
    set (hour_end := Z.min (current_hour + hours 1) actual_end) in *.
    match goal with
    | |- context [ws_hourly_loop fuel _ _ _ _ _ _ ?x _] => set (next_hour := x)
    end.
    assert (Hnext : next_hour = hour_end
                    \/ (hour_end = actual_end /\ actual_end <= next_hour)).
    { unfold next_hour. destruct is_live_data; [| left; reflexivity].
      pose proof (Hlive eq_refl) as Hnow. cbn [andb].
      destruct (Z.eqb_spec hour_end now); [right; unfold hour_end in *; lia
                                          | left; reflexivity]. }
    clearbody next_hour.
    assert (Hsame : forall acc0,
               ws_hourly_loop fuel db unit_name is_live_data actual_end now mode
                 next_hour (map (hour_with_oee (Some 0%Q)) (HourlyAcc.hourly_data acc0))
               = option_map (fun acc' => map (hour_with_oee (Some 0%Q))
                                             (HourlyAcc.hourly_data acc'))
                            (historical_hourly_loop fuel db unit_name actual_end now
                                                    mode hour_end acc0)).
    { intros acc0. destruct Hnext as [->|[Hreach Hpast]]; [apply IH |].
      rewrite ws_hourly_loop_done by exact Hpast.
      rewrite historical_hourly_loop_done by lia. reflexivity. }
    destruct (get_production_data _ _ _ _ _ _) as [hour_data| |msg].
    + rewrite <- Hsame. cbn [HourlyAcc.hourly_data].
      rewrite map_app. cbn [map]. rewrite <- hour_entry_with_oee. reflexivity.
    + apply Hsame.
    + apply Hsame.
Qed.

Lemma hourly_live_now end_time now :
  fst (hourly_live end_time now) = true -> snd (hourly_live end_time now) = now.
Proof.
  unfold hourly_live. cbn [fst snd]. intros ->. reflexivity.
Qed.

Lemma ws_hourly_breakdown_as_historical db unit_name start_time end_time now mode :
  ws_hourly_breakdown db unit_name start_time end_time now mode
  = match get_historical_hourly_data db unit_name start_time
            (snd (hourly_live end_time now)) now mode with
    | Some (Response r) =>
        Some (map (hour_with_oee (Some 0%Q)) (HistoricalHourly.hourly_data r))
    | Some (HTTPException _ _) => None
    | None => None
    end.
Proof.
  unfold ws_hourly_breakdown, get_historical_hourly_data.
  pose proof (hourly_live_now end_time now) as Hlive.
  destruct (hourly_live end_time now) as [is_live_data actual_end].
  cbn [fst snd] in *.
  rewrite (ws_hourly_loop_as_historical db unit_name is_live_data actual_end now mode
             Hlive _ (replace_minute0 start_time) HourlyAcc.init).
  destruct (historical_hourly_loop _ _ _ _ _ _ _ _); reflexivity.
Qed.

(** X19: the breakdown of the hourly channel is the one that
    [get_historical_hourly_data] gives for the window cut at the resolved
    end (the current time when that is within 5 minutes of the end of the
    window, the end of the window otherwise), each entry with the
    additional key [oee] at 0. *)
Theorem ws_breakdown_is_historical_breakdown db unit_name start_time end_time now mode :
  exists r,
    get_historical_hourly_data db unit_name start_time
      (snd (hourly_live end_time now)) now mode = Some (Response r)
    /\ ws_hourly_breakdown db unit_name start_time end_time now mode
       = Some (map (hour_with_oee (Some 0%Q)) (HistoricalHourly.hourly_data r)).
Proof.
  rewrite ws_hourly_breakdown_as_historical.
  destruct (get_historical_hourly_data_total db unit_name start_time
              (snd (hourly_live end_time now)) now mode) as [r ->].
  exists r. split; reflexivity.
Qed.

Lemma chain_weaken lo lo' hi intervals :
  lo' <= lo -> chain lo hi intervals -> chain lo' hi intervals.
Proof.
  intros Hle. destruct intervals as [|[x y] rest]; simpl; intros H.
  - lia.
  - destruct H as (H1 & H2 & H3). repeat split; [lia | exact H2 | exact H3].
Qed.

Lemma replace_minute0_aligned t : replace_minute0 t mod hours 1 = 0.
Proof.
  unfold replace_minute0, hours.
  pose proof (Z.div_mod t (1 * 3600000000) ltac:(lia)) as H.
  replace (t - t mod (1 * 3600000000))
    with (t / (1 * 3600000000) * (1 * 3600000000)) by lia.
  apply Z.mod_mul. lia.
Qed.

Lemma aligned_next t : t mod hours 1 = 0 -> (t + hours 1) mod hours 1 = 0.
Proof.
  intros H. unfold hours in *.
  replace (t + 1 * 3600000000) with (t + 1 * (1 * 3600000000)) by lia.
  rewrite Z.mod_add by lia. exact H.
Qed.

Lemma aligned_gap t1 t2 :
  t1 mod hours 1 = 0 -> t2 mod hours 1 = 0 -> t1 < t2 -> t1 + hours 1 <= t2.
Proof.
  unfold hours. intros H1 H2 Hlt.
  pose proof (Z.div_mod t1 (1 * 3600000000) ltac:(lia)).
  pose proof (Z.div_mod t2 (1 * 3600000000) ltac:(lia)).
  lia.
Qed.

(** Whatever the queries answer, the buckets that the loop of
    [get_historical_hourly_data] appends follow one another from the cursor
    on, and each begins on the hour, is not empty, lasts an hour at most and
    ends by the end of the window. *)
Lemma historical_hourly_loop_ordered db unit_name end_dt now mode :
  forall fuel current_hour acc acc',
    (current_hour < end_dt -> current_hour mod hours 1 = 0) ->
    historical_hourly_loop fuel db unit_name end_dt now mode current_hour acc
    = Some acc' ->
    exists new,
      HourlyAcc.hourly_data acc' = HourlyAcc.hourly_data acc ++ new
      /\ chain current_hour (Z.max current_hour end_dt) (bounds new)
      /\ Forall (hour_bucket end_dt) (bounds new).
Proof.
  induction fuel as [|fuel IH]; intros current_hour acc acc' Halign Hrun.
  - simpl in Hrun. destruct (Z.ltb_spec current_hour end_dt); [discriminate |].
    injection Hrun as <-. exists []. rewrite app_nil_r.
    split; [reflexivity |]. split; [simpl; lia | constructor].
  - cbn [historical_hourly_loop] in Hrun.
    destruct (Z.ltb_spec current_hour end_dt) as [Hlt|Hge].
    2:{ injection Hrun as <-. exists []. rewrite app_nil_r.
        split; [reflexivity |]. split; [simpl; lia | constructor]. }
    set (hour_end := Z.min (current_hour + hours 1) end_dt) in *.
    assert (Hnext : hour_end < end_dt -> hour_end mod hours 1 = 0).
    { intros Hmore. replace hour_end with (current_hour + hours 1)
        by (unfold hour_end; lia).
      apply aligned_next. exact (Halign Hlt). }
    assert (Hpos : 0 < hours 1) by (unfold hours; lia).
    destruct (get_production_data db unit_name current_hour hour_end (Some now) mode)
      as [hour_data| |msg].
    + destruct (IH _ _ _ Hnext Hrun) as (new & Hdata & Hchain & Hall).
      cbn [HourlyAcc.hourly_data] in Hdata.
      exists (hour_entry current_hour hour_end hour_data mode None :: new).
      split; [rewrite Hdata, <- app_assoc; reflexivity |].
      cbn [bounds map].
      destruct (hour_entry_bounds current_hour hour_end hour_data mode None)
        as [-> ->].
      split.
      * cbn [chain]. split; [lia |]. split; [unfold hour_end; lia |].
        replace (Z.max current_hour end_dt) with (Z.max hour_end end_dt)
          by (unfold hour_end; lia).
        exact Hchain.
      * constructor; [| exact Hall].
        unfold hour_bucket. cbn [fst snd].
        split; [exact (Halign Hlt) |]. unfold hour_end. lia.
    + destruct (IH _ _ _ Hnext Hrun) as (new & Hdata & Hchain & Hall).
      exists new. split; [exact Hdata |]. split; [| exact Hall].
      replace (Z.max current_hour end_dt) with (Z.max hour_end end_dt)
        by (unfold hour_end; lia).
      apply (chain_weaken hour_end); [unfold hour_end; lia | exact Hchain].
    + destruct (IH _ _ _ Hnext Hrun) as (new & Hdata & Hchain & Hall).
      exists new. split; [exact Hdata |]. split; [| exact Hall].
      replace (Z.max current_hour end_dt) with (Z.max hour_end end_dt)
        by (unfold hour_end; lia).
      apply (chain_weaken hour_end); [unfold hour_end; lia | exact Hchain].
Qed.

Lemma bounds_with_oee oee hourly_data :
  bounds (map (hour_with_oee oee) hourly_data) = bounds hourly_data.
Proof.
  unfold bounds. rewrite map_map. reflexivity.
Qed.

Lemma historical_hourly_ordered db unit_name start_dt end_dt now mode :
  exists r,
    get_historical_hourly_data db unit_name start_dt end_dt now mode
    = Some (Response r)
    /\ chain (replace_minute0 start_dt) (Z.max (replace_minute0 start_dt) end_dt)
             (bounds (HistoricalHourly.hourly_data r))
    /\ Forall (hour_bucket end_dt) (bounds (HistoricalHourly.hourly_data r)).
Proof.
  destruct (get_historical_hourly_data_total db unit_name start_dt end_dt now mode)
    as [r Hr].
  exists r. split; [exact Hr |].
  unfold get_historical_hourly_data in Hr.
  destruct (historical_hourly_loop _ _ _ _ _ _ _ _) as [acc|] eqn:Hrun;
    [| discriminate].
  injection Hr as <-. cbn [HistoricalHourly.hourly_data].
  destruct (historical_hourly_loop_ordered _ _ _ _ _ _ _ _ _ (fun _ => replace_minute0_aligned start_dt) Hrun)
    as (new & Hdata & Hchain & Hall).
  rewrite Hdata. exact (conj Hchain Hall).
Qed.

(** X17: whatever the bucket queries answer, both hourly breakdowns end,
    and their buckets are in order of time without overlap, beginning at or
    after the start of the window floored to the hour; each bucket begins on
    the hour, is not empty, lasts one hour at most and ends by the end of
    the span (the end of the window; for the hourly channel the resolved
    end). *)
Theorem hourly_buckets_ordered db unit_name start_time end_time now mode :
  (exists r,
      get_historical_hourly_data db unit_name start_time end_time now mode
      = Some (Response r)
      /\ chain (replace_minute0 start_time)
               (Z.max (replace_minute0 start_time) end_time)
               (bounds (HistoricalHourly.hourly_data r))
      /\ Forall (hour_bucket end_time) (bounds (HistoricalHourly.hourly_data r)))
  /\ (exists hourly_data,
         ws_hourly_breakdown db unit_name start_time end_time now mode
         = Some hourly_data
         /\ chain (replace_minute0 start_time)
                  (Z.max (replace_minute0 start_time) (snd (hourly_live end_time now)))
                  (bounds hourly_data)
         /\ Forall (hour_bucket (snd (hourly_live end_time now))) (bounds hourly_data)).
Proof.
  split; [apply historical_hourly_ordered |].
  rewrite ws_hourly_breakdown_as_historical.
  destruct (historical_hourly_ordered db unit_name start_time
              (snd (hourly_live end_time now)) now mode) as (r & -> & Hchain & Hall).
  eexists. split; [reflexivity |]. rewrite bounds_with_oee. exact (conj Hchain Hall).
Qed.

(** Buckets in order that begin on the hour are an hour apart or more, so
    that before the end there is room for as many hours as there are
    buckets after the first. *)
Lemma ordered_buckets_room end_ rest :
  forall lo hi x y,
    chain lo hi ((x, y) :: rest) ->
    Forall (hour_bucket end_) ((x, y) :: rest) ->
    x + Z.of_nat (List.length rest) * hours 1 < end_.
Proof.
  induction rest as [|[x' y'] rest IH]; intros lo hi x y Hchain Hall.
  - inversion Hall as [|b l Hb _]; subst. unfold hour_bucket in Hb.
    cbn [fst snd List.length] in *. lia.
  - inversion Hall as [|b l Hb Hrest]; subst.
    cbn [chain] in Hchain. destruct Hchain as (_ & _ & Hnext).
    specialize (IH _ _ _ _ Hnext Hrest).
    inversion Hrest as [|b' l' Hb' _]; subst.
    unfold hour_bucket in Hb, Hb'. cbn [fst snd] in *.
    cbn [chain] in Hnext. destruct Hnext as (Hle & _).
    pose proof (aligned_gap x x' (proj1 Hb) (proj1 Hb') ltac:(lia)).
    cbn [List.length]. rewrite Nat2Z.inj_succ. lia.
Qed.

Lemma ordered_buckets_count lo hi end_ buckets :
  chain lo hi buckets -> Forall (hour_bucket end_) buckets ->
  Z.of_nat (List.length buckets) * hours 1 < Z.max 0 (end_ - lo) + hours 1.
Proof.
  intros Hchain Hall. destruct buckets as [|[x y] rest].
  - simpl. unfold hours. lia.
  - pose proof (ordered_buckets_room end_ rest lo hi x y Hchain Hall).
    cbn [chain] in Hchain. destruct Hchain as (Hlo & _).
    cbn [List.length]. rewrite Nat2Z.inj_succ. lia.
Qed.

Lemma bounds_length hourly_data :
  List.length (bounds hourly_data) = List.length hourly_data.
Proof. apply length_map. Qed.

(** X18: an hourly breakdown has no more buckets than the hours, begun
    ones included, between the start of the window floored to the hour and
    the end of its span. *)
Theorem hourly_bucket_count db unit_name start_time end_time now mode :
  (exists r,
      get_historical_hourly_data db unit_name start_time end_time now mode
      = Some (Response r)
      /\ Z.of_nat (List.length (HistoricalHourly.hourly_data r)) * hours 1
         < Z.max 0 (end_time - replace_minute0 start_time) + hours 1)
  /\ (exists hourly_data,
         ws_hourly_breakdown db unit_name start_time end_time now mode
         = Some hourly_data
         /\ Z.of_nat (List.length hourly_data) * hours 1
            < Z.max 0 (snd (hourly_live end_time now) - replace_minute0 start_time)
              + hours 1).
Proof.
  split.
  - destruct (historical_hourly_ordered db unit_name start_time end_time now mode)
      as (r & Hr & Hchain & Hall).
    exists r. split; [exact Hr |].
    rewrite <- bounds_length. exact (ordered_buckets_count _ _ _ _ Hchain Hall).
  - rewrite ws_hourly_breakdown_as_historical.
    destruct (historical_hourly_ordered db unit_name start_time
                (snd (hourly_live end_time now)) now mode) as (r & -> & Hchain & Hall).
    eexists. split; [reflexivity |].
    rewrite length_map, <- bounds_length.
    exact (ordered_buckets_count _ _ _ _ Hchain Hall).
Qed.

(** When every query fails, the loop of [get_historical_hourly_data] leaves
    its variables as they were. *)
Lemma historical_hourly_loop_all_fail db unit_name end_dt now mode :
  (forall s e' all_rows, db unit_name s e' <> Done all_rows) ->
  forall fuel current_hour acc acc',
    historical_hourly_loop fuel db unit_name end_dt now mode current_hour acc
    = Some acc' -> acc' = acc.
Proof.
  intros Hfail. induction fuel as [|fuel IH]; intros current_hour acc acc' Hrun.
  - simpl in Hrun. destruct (current_hour <? end_dt); [discriminate |].
    injection Hrun as <-. reflexivity.
  - cbn [historical_hourly_loop] in Hrun.
    destruct (current_hour <? end_dt); [| injection Hrun as <-; reflexivity].
    destruct (get_production_data db unit_name current_hour _ (Some now) mode)
      as [hour_data| |msg] eqn:Hq;
      [| exact (IH _ _ _ Hrun) | exact (IH _ _ _ Hrun)].
    exfalso. apply get_production_data_done in Hq as (all_rows & Hdb & _).
    exact (Hfail _ _ _ Hdb).
Qed.

(** X20: when every query of the unit times out or fails,
    [get_historical_hourly_data] still answers, with no bucket and with all
    totals at 0. *)
Theorem hourly_all_queries_fail db unit_name start_dt end_dt now mode :
  (forall s e' all_rows, db unit_name s e' <> Done all_rows) ->
  get_historical_hourly_data db unit_name start_dt end_dt now mode
  = Some (Response (HistoricalHourly.mk unit_name 0 0 0 0%Q 0%Q 0%Q [])).
Proof.
  intros Hfail.
  destruct (get_historical_hourly_data_total db unit_name start_dt end_dt now mode)
    as [r Hr].
  rewrite Hr. unfold get_historical_hourly_data in Hr.
  destruct (historical_hourly_loop _ _ _ _ _ _ _ _) as [acc|] eqn:Hrun;
    [| discriminate].
  rewrite (historical_hourly_loop_all_fail _ _ _ _ _ Hfail _ _ _ _ Hrun) in Hr.
  injection Hr as <-. reflexivity.
Qed.

Lemma hourly_all_queries_fail_witness :
  get_historical_hourly_data failing_db "U1"%string (at_ 0 10 0) (at_ 0 12 30) (at_ 1 0 0)
                             "mode1"%string
  = Some (Response (HistoricalHourly.mk "U1"%string 0 0 0 0%Q 0%Q 0%Q [])).
Proof.
  apply hourly_all_queries_fail. intros s e' all_rows. discriminate.
Defined.

(** ** Further properties of the streaming sessions *)

Lemma receive_phase_unit_name msg timestamp p out p' :
  receive_phase msg timestamp p = (out, Some p') ->
  Params.unit_name p' = Params.unit_name p.
Proof.
  intros H. destruct (receive_phase_next _ _ _ _ _ H)
    as [->|(m & s & e' & w & _ & _ & _ & ->)]; reflexivity.
Qed.

Lemma standard_iteration_unit_name env p out p' :
  standard_iteration env p = (out, Some p') ->
  Params.unit_name p' = Params.unit_name p.
Proof.
  intros H. destruct (standard_iteration_next _ _ _ _ H) as [->|[out' Hrecv]];
    [reflexivity | exact (receive_phase_unit_name _ _ _ _ _ Hrecv)].
Qed.

(** X21: a session never changes its unit: after a turn of either loop,
    and after any number of turns of the standard loop, whatever messages
    the client sent, the unit name is the one of the connection. *)
Theorem session_keeps_unit_name (p : Params.t) :
  (forall env out p',
      standard_iteration env p = (out, Some p')
      \/ hourly_iteration env p = Some (out, Some p') ->
      Params.unit_name p' = Params.unit_name p)
  /\ (forall envs out p',
         standard_session envs p = (out, Some p') ->
         Params.unit_name p' = Params.unit_name p).
Proof.
  split.
  - intros env out p' [H|H].
    + exact (standard_iteration_unit_name _ _ _ _ H).
    + destruct (hourly_iteration_next _ _ _ _ H) as [->|[out' Hrecv]];
        [reflexivity | exact (receive_phase_unit_name _ _ _ _ _ Hrecv)].
  - intros envs. revert p. induction envs as [|env envs IH]; intros p out p' Hrun.
    + simpl in Hrun. injection Hrun as _ <-. reflexivity.
    + cbn [standard_session] in Hrun.
      destruct (standard_iteration env p) as [out1 [p1|]] eqn:Hstep; [| discriminate].
      destruct (standard_session envs p1) as [out2 final] eqn:Hrest.
      injection Hrun as _ ->.
      rewrite (IH _ _ _ Hrest). exact (standard_iteration_unit_name _ _ _ _ Hstep).
Qed.

(** X22: a turn of either loop sends nothing to a client that is not
    connected; it closes the session if the query succeeded and goes on
    with the same parameters if the query timed out or failed. *)
Theorem disconnected_client_gets_nothing (env : Env.t) (p : Params.t) :
  Env.connected env = false ->
  let next :=
    match get_production_data (Env.db env) (Params.unit_name p) (Params.start_time p)
            (Params.end_time p) (Some (Env.current_time env)) (Params.working_mode p)
    with
    | Done _ => None
    | TimeoutError => Some p
    | Raised _ => Some p
    end in
  standard_iteration env p = ([], next)
  /\ hourly_iteration env p = Some ([], next).
Proof.
  intros Hconn. cbv zeta. unfold standard_iteration, hourly_iteration, query_failed.
  rewrite Hconn.
  destruct (get_production_data _ _ _ _ _ _) as [production_data| |msg];
    [| split; reflexivity | split; reflexivity].
  destruct (ws_hourly_breakdown_total (Env.db env) (Params.unit_name p)
              (Params.start_time p) (Params.end_time p) (Env.current_time env)
              (Params.working_mode p)) as [hourly_data ->].
  split; reflexivity.
Qed.

Lemma disconnected_client_gets_nothing_witness :
  standard_iteration
    (Env.mk (at_ 0 12 0) example_db false (Message update_message) 1234%Q)
    (Params.mk "A"%string (at_ 0 8 0) (at_ 0 16 0) "mode1"%string)
  = ([], None)
  /\ standard_iteration
       (Env.mk (at_ 0 12 0) example_db false (Message update_message) 1234%Q)
       (Params.mk "T"%string (at_ 0 8 0) (at_ 0 16 0) "mode1"%string)
     = ([], Some (Params.mk "T"%string (at_ 0 8 0) (at_ 0 16 0) "mode1"%string)).
Proof.
  split.
  - exact (proj1 (disconnected_client_gets_nothing
                    (Env.mk (at_ 0 12 0) example_db false (Message update_message)
                            1234%Q)
                    (Params.mk "A"%string (at_ 0 8 0) (at_ 0 16 0) "mode1"%string) eq_refl)).
  - exact (proj1 (disconnected_client_gets_nothing
                    (Env.mk (at_ 0 12 0) example_db false (Message update_message)
                            1234%Q)
                    (Params.mk "T"%string (at_ 0 8 0) (at_ 0 16 0) "mode1"%string) eq_refl)).
Defined.

Lemma model_of_row_oee wt oth r : Model.oee (model_of_row wt oth r) = None.
Proof.
  unfold model_of_row, second_pass, no_target_pass, first_pass.
  destruct wt; destruct (target_positive (row3 r)) eqn:Ht; simpl; rewrite ?Ht; simpl;
    try reflexivity.
  destruct (Qpositive _); reflexivity.
Qed.

Lemma target_falsy_not_positive (t : option Q) :
  target_falsy t = true -> target_positive t = false.
Proof.
  destruct t as [x|]; simpl; [| reflexivity].
  intros H. apply Qeq_bool_iff in H.
  destruct (Qpositive x) eqn:Hp; [| reflexivity].
  apply Qpositive_true in Hp. rewrite H in Hp. discriminate.
Qed.

(** The records of [get_production_data] have no [oee], and no
    [performance] where the target is absent or zero: the loop at the head
    of [websocket_endpoint] finds nothing to change. *)
Lemma production_data_renulled db unit_name s e' now mode production_data :
  get_production_data db unit_name s e' now mode = Done production_data ->
  map (fun model =>
         if target_falsy (Model.target model)
         then Model.set_oee (Model.set_performance model None) None
         else model) production_data
  = production_data.
Proof.
  intros H. rewrite <- (map_id production_data) at 2.
  apply map_ext_in. intros m Hm.
  destruct (target_falsy (Model.target m)) eqn:Hfalsy; [| reflexivity].
  destruct (production_data_record _ _ _ _ _ _ _ _ H Hm) as (wt & r & Heq & _).
  set (oth := operation_time_hours s (actual_end_time (resolve_end s e' now)) mode)
    in *.
  assert (Hperf : Model.performance m = None).
  { rewrite Heq. apply model_of_row_no_target.
    destruct (model_of_row_counts wt oth r) as (_ & _ & _ & Ht & _).
    rewrite <- Ht, <- Heq. apply target_falsy_not_positive. exact Hfalsy. }
  assert (Hoee : Model.oee m = None) by (rewrite Heq; apply model_of_row_oee).
  destruct m as [a1 a2 a3 a4 a5 a6 a7 a8 a9]. cbn in Hperf, Hoee. subst.
  reflexivity.
Qed.

(** X23: the snapshot of the standard channel carries the records of
    [get_production_data] as they are: the loop that clears [performance]
    and [oee] of the models without target changes none of them. *)
Theorem standard_snapshot_models db unit_name s e' now' mode production_data p now :
  get_production_data db unit_name s e' now' mode = Done production_data ->
  StandardResponse.models (standard_response p now production_data) = production_data
  /\ StandardResponse.unit_name (standard_response p now production_data)
     = Params.unit_name p.
Proof.
  intros H. unfold standard_response.
  cbn [StandardResponse.models StandardResponse.unit_name].
  split; [exact (production_data_renulled _ _ _ _ _ _ _ H) | reflexivity].
Qed.

Lemma standard_snapshot_models_witness :
  StandardResponse.models
    (standard_response example_params (at_ 0 12 0)
       (business_logic [mk_row "M1"%string 80 20 (Some 100%Q); mk_row "M2"%string 5 1 (Some 0%Q)]
                       (at_ 0 8 0) (at_ 0 12 0) "mode1"%string))
  = business_logic [mk_row "M1"%string 80 20 (Some 100%Q); mk_row "M2"%string 5 1 (Some 0%Q)]
                   (at_ 0 8 0) (at_ 0 12 0) "mode1"%string.
Proof.
  apply (standard_snapshot_models
           (const_db [mk_row "M1"%string 80 20 (Some 100%Q); mk_row "M2"%string 5 1 (Some 0%Q)])
           "U1"%string (at_ 0 8 0) (at_ 0 16 0) (Some (at_ 0 12 0)) "mode1"%string).
  reflexivity.
Defined.

(** X24: for the records of one query, the snapshots of the two channels
    carry the same totals: success, fail, quantity, quality and
    performance. *)
Theorem channels_same_totals db unit_name s e' now' mode production_data p now
    hourly_data :
  get_production_data db unit_name s e' now' mode = Done production_data ->
  let standard := StandardResponse.summary (standard_response p now production_data) in
  let hourly := hourly_response p now production_data hourly_data in
  StandardSummary.total_success standard = HourlyResponse.total_success hourly
  /\ StandardSummary.total_fail standard = HourlyResponse.total_fail hourly
  /\ StandardSummary.total_qty standard = HourlyResponse.total_qty hourly
  /\ StandardSummary.total_quality standard = HourlyResponse.total_quality hourly
  /\ StandardSummary.total_performance standard
     = HourlyResponse.total_performance hourly.
Proof.
  intros H. cbv zeta. unfold standard_response, hourly_response.
  rewrite (production_data_renulled _ _ _ _ _ _ _ H).
  cbn [StandardResponse.summary StandardSummary.total_success
       StandardSummary.total_fail StandardSummary.total_qty
       StandardSummary.total_quality StandardSummary.total_performance
       HourlyResponse.total_success HourlyResponse.total_fail
       HourlyResponse.total_qty HourlyResponse.total_quality
       HourlyResponse.total_performance].
  repeat split.
  destruct (models_with_target production_data); reflexivity.
Qed.

Lemma channels_same_totals_witness :
  StandardSummary.total_performance
    (StandardResponse.summary
       (standard_response example_params (at_ 0 12 0)
          (business_logic [mk_row "M1"%string 80 20 (Some 100%Q)]
                          (at_ 0 8 0) (at_ 0 12 0) "mode1"%string)))
  = HourlyResponse.total_performance
      (hourly_response example_params (at_ 0 12 0)
         (business_logic [mk_row "M1"%string 80 20 (Some 100%Q)]
                         (at_ 0 8 0) (at_ 0 12 0) "mode1"%string) []).
Proof.
  apply (channels_same_totals (const_db [mk_row "M1"%string 80 20 (Some 100%Q)])
           "U1"%string (at_ 0 8 0) (at_ 0 16 0) (Some (at_ 0 12 0)) "mode1"%string).
  reflexivity.
Defined.

(** ** The connection registry *)

Lemma existsb_eqb_in (x : WebSocket) (l : list WebSocket) :
  existsb (Nat.eqb x) l = true <-> In x l.
Proof.
  rewrite existsb_exists. split.
  - intros (y & Hy & Heq). apply Nat.eqb_eq in Heq. subst. exact Hy.
  - intros H. exists x. split; [exact H | apply Nat.eqb_refl].
Qed.

Lemma list_remove_app_last (x : WebSocket) (l : list WebSocket) :
  ~ In x l -> list_remove x (l ++ [x]) = l.
Proof.
  induction l as [|c l IH]; intros H; simpl.
  - rewrite Nat.eqb_refl. reflexivity.
  - destruct (Nat.eqb_spec x c) as [->|Hne].
    + exfalso. apply H. left. reflexivity.
    + rewrite IH; [reflexivity |]. intros Hin. apply H. right. exact Hin.
Qed.

Lemma list_remove_in_other (x y : WebSocket) (l : list WebSocket) :
  y <> x -> (In y (list_remove x l) <-> In y l).
Proof.
  intros Hne. induction l as [|c l IH]; simpl; [reflexivity |].
  destruct (Nat.eqb_spec x c) as [->|Hxc]; simpl.
  - split; [intros H; right; exact H | intros [H|H]; [congruence | exact H]].
  - rewrite IH. reflexivity.
Qed.

Lemma list_remove_length (x : WebSocket) (l : list WebSocket) :
  In x l -> S (List.length (list_remove x l)) = List.length l.
Proof.
  induction l as [|c l IH]; simpl; [intros [] |].
  intros H. destruct (Nat.eqb_spec x c) as [->|Hxc]; [reflexivity |].
  simpl. rewrite IH; [reflexivity |]. destruct H as [H|H]; [congruence | exact H].
Qed.

Lemma list_remove_nodup (x : WebSocket) (l : list WebSocket) :
  NoDup l -> ~ In x (list_remove x l).
Proof.
  induction 1 as [|c l Hc Hl IH]; simpl; [intros [] |].
  destruct (Nat.eqb_spec x c) as [->|Hxc]; [exact Hc |].
  intros [H|H]; [congruence | exact (IH H)].
Qed.

Lemma connections_set (self : ConnectionManager) k k0 conns :
  connections (dict_set k conns self) k0
  = if String.eqb k0 k then conns else connections self k0.
Proof.
  unfold connections. destruct (String.eqb_spec k0 k) as [->|Hne].
  - rewrite dict_get_set_same. reflexivity.
  - rewrite (dict_get_set_other _ _ _ _ Hne). reflexivity.
Qed.

Lemma connections_connect self websocket connection_type k :
  connections (connect self websocket connection_type) k
  = if String.eqb k connection_type
    then connections self connection_type ++ [websocket]
    else connections self k.
Proof.
  unfold connect, connections.
  destruct (dict_get connection_type self) as [conns|] eqn:Hget; cbv zeta.
  - rewrite Hget. destruct (String.eqb_spec k connection_type) as [->|Hne].
    + rewrite dict_get_set_same. reflexivity.
    + rewrite (dict_get_set_other _ _ _ _ Hne). reflexivity.
  - rewrite dict_get_set_same. destruct (String.eqb_spec k connection_type) as [->|Hne].
    + rewrite dict_get_set_same. reflexivity.
    + rewrite !(dict_get_set_other _ _ _ _ Hne). reflexivity.
Qed.

Lemma connections_disconnect self websocket connection_type k :
  connections (disconnect self websocket connection_type) k
  = if String.eqb k connection_type
    then if existsb (Nat.eqb websocket) (connections self connection_type)
         then list_remove websocket (connections self connection_type)
         else connections self connection_type
    else connections self k.
Proof.
  unfold disconnect, connections.
  destruct (dict_get connection_type self) as [conns|] eqn:Hget.
  - destruct (existsb (Nat.eqb websocket) conns).
    + destruct (String.eqb_spec k connection_type) as [->|Hne].
      * rewrite dict_get_set_same. reflexivity.
      * rewrite (dict_get_set_other _ _ _ _ Hne). reflexivity.
    + destruct (String.eqb_spec k connection_type) as [->|]; [| reflexivity].
      rewrite Hget. reflexivity.
  - destruct (String.eqb_spec k connection_type) as [->|]; [| reflexivity].
    rewrite Hget. reflexivity.
Qed.

(** X25: connecting a websocket that is not yet registered on a channel and
    then disconnecting it leaves the websockets of every channel as they
    were. *)
Theorem connect_then_disconnect (self : ConnectionManager) (websocket : WebSocket)
    (connection_type : string) :
  ~ In websocket (connections self connection_type) ->
  forall k,
    connections (disconnect (connect self websocket connection_type) websocket
                            connection_type) k
    = connections self k.
Proof.
  intros Hnew k. rewrite connections_disconnect, !connections_connect.
  rewrite String.eqb_refl.
  destruct (String.eqb k connection_type) eqn:Hk; [| reflexivity].
  apply String.eqb_eq in Hk. subst k.
  replace (existsb (Nat.eqb websocket)
                   (connections self connection_type ++ [websocket])) with true.
  - apply list_remove_app_last. exact Hnew.
  - symmetry. apply existsb_eqb_in. apply in_or_app. right. left. reflexivity.
Qed.

Lemma connect_then_disconnect_witness :
  connections (disconnect (connect (connect manager_init 7%nat "standard"%string) 9%nat
                                   "standard"%string) 9%nat "standard"%string) "standard"%string
  = [7%nat].
Proof.
  exact (connect_then_disconnect (connect manager_init 7%nat "standard"%string) 9%nat
           "standard"%string
           ltac:(intros [H|[]]; discriminate) "standard"%string).
Defined.

(** X26: disconnecting a websocket from a channel leaves the other channels
    and the other websockets of the channel as they were; if the websocket
    was registered, there is one websocket less on the channel, and if it
    was registered once it is gone. *)
Theorem disconnect_frame (self : ConnectionManager) (websocket : WebSocket)
    (connection_type : string) :
  (forall k, k <> connection_type ->
             dict_get k (disconnect self websocket connection_type) = dict_get k self)
  /\ (forall other, other <> websocket ->
                    In other (connections (disconnect self websocket connection_type)
                                          connection_type)
                    <-> In other (connections self connection_type))
  /\ (In websocket (connections self connection_type) ->
      S (List.length (connections (disconnect self websocket connection_type)
                                  connection_type))
      = List.length (connections self connection_type))
  /\ (NoDup (connections self connection_type) ->
      ~ In websocket (connections (disconnect self websocket connection_type)
                                  connection_type)).
Proof.
  split; [| split; [| split]].
  - intros k Hk. unfold disconnect.
    destruct (dict_get connection_type self) as [conns|]; [| reflexivity].
    destruct (existsb (Nat.eqb websocket) conns); [| reflexivity].
    apply dict_get_set_other. exact Hk.
  - intros other Hother. rewrite connections_disconnect, String.eqb_refl.
    destruct (existsb (Nat.eqb websocket) (connections self connection_type));
      [apply list_remove_in_other; exact Hother | reflexivity].
  - intros Hin. rewrite connections_disconnect, String.eqb_refl.
    rewrite (proj2 (existsb_eqb_in _ _) Hin). apply list_remove_length. exact Hin.
  - intros Hnodup. rewrite connections_disconnect, String.eqb_refl.
    destruct (existsb (Nat.eqb websocket) (connections self connection_type)) eqn:Hex.
    + apply list_remove_nodup. exact Hnodup.
    + intros Hin. apply existsb_eqb_in in Hin. congruence.
Qed.

(** X27: a broadcast on a channel sends the message once to each websocket
    registered on it, in the order of their connection, and to no other; a
    websocket that has just connected is among them. *)
Theorem broadcast_reaches_connections (self : ConnectionManager) (message : string)
    (connection_type : string) (websocket : WebSocket) :
  map fst (broadcast self message connection_type) = connections self connection_type
  /\ Forall (fun sent_text => snd sent_text = message)
            (broadcast self message connection_type)
  /\ In (websocket, message)
        (broadcast (connect self websocket connection_type) message connection_type).
Proof.
  assert (Hb : forall m, broadcast m message connection_type
                         = map (fun connection => (connection, message))
                               (connections m connection_type)).
  { intros m. unfold broadcast, connections.
    destruct (dict_get connection_type m); reflexivity. }
  split; [| split].
  - rewrite Hb, map_map. cbn [fst]. apply map_id.
  - rewrite Hb. apply Forall_forall. intros x Hx.
    apply in_map_iff in Hx as (c & <- & _). reflexivity.
  - rewrite Hb, connections_connect, String.eqb_refl.
    apply in_map_iff. exists websocket. split; [reflexivity |].
    apply in_or_app. right. left. reflexivity.
Qed.

Lemma session_keeps_unit_name_witness :
  option_map Params.unit_name
    (snd (standard_session [example_env (Message update_message);
                            example_env (Message heartbeat_message);
                            example_env NoMessage] example_params))
  = Some "U1"%string.
Proof.
  destruct (standard_session [example_env (Message update_message);
                              example_env (Message heartbeat_message);
                              example_env NoMessage] example_params)
    as [out [p'|]] eqn:Hrun.
  - cbn [snd option_map]. f_equal.
    exact (proj2 (session_keeps_unit_name example_params) _ out p' Hrun).
  - vm_compute in Hrun. discriminate.
Defined.

Lemma disconnect_frame_witness :
  connections (disconnect (connect (connect manager_init 7%nat "standard"%string) 9%nat
                                   "hourly"%string) 7%nat "standard"%string) "hourly"%string
  = [9%nat]
  /\ ~ In 7%nat (connections
                   (disconnect (connect (connect manager_init 7%nat "standard"%string) 9%nat
                                        "hourly"%string) 7%nat "standard"%string) "standard"%string).
Proof.
  split; [vm_compute; reflexivity |].
  apply (proj2 (proj2 (proj2 (disconnect_frame
                                (connect (connect manager_init 7%nat "standard"%string) 9%nat
                                         "hourly"%string) 7%nat "standard"%string)))).
  vm_compute. repeat constructor. intros [].
Defined.

(** ** The break time of a day *)




(** ** The hourly buckets, with queries that fail *)

Lemma hour_spans_from_done fuel current_hour end_ :
  end_ <= current_hour -> hour_spans_from fuel current_hour end_ = [].
Proof.
  intros H. destruct fuel; simpl;
    destruct (Z.ltb_spec current_hour end_); try lia; reflexivity.
Qed.

(** The spans of the cursor partition the time from the cursor to the
    end. *)
Lemma hour_spans_from_partitions end_ :
  forall fuel current_hour,
    end_ - current_hour <= Z.of_nat fuel * hours 1 ->
    current_hour < end_ ->
    partitions current_hour end_ (hour_spans_from fuel current_hour end_).
Proof.
  induction fuel as [|fuel IH]; intros current_hour Hfuel Hlt.
  - simpl in Hfuel. lia.
  - cbn [hour_spans_from]. destruct (Z.ltb_spec current_hour end_); [| lia].
    cbv zeta. set (hour_end := Z.min (current_hour + hours 1) end_).
    assert (Hpos : 0 < hours 1) by (unfold hours; lia).
    cbn [partitions]. split; [reflexivity |].
    split; [unfold hour_end; lia |].
    destruct (Z_lt_le_dec hour_end end_) as [Hmore|Hlast].
    + split; [left; unfold hour_end in *; lia |].
      apply IH; [unfold hour_end, hours in *; lia | exact Hmore].
    + rewrite (hour_spans_from_done fuel hour_end end_ Hlast). cbn [partitions].
      split; [| unfold hour_end in *; lia].
      destruct (Z_le_gt_dec (current_hour + hours 1) end_);
        [left; unfold hour_end; lia | right; split; [unfold hour_end; lia | reflexivity]].
Qed.

Lemma bounds_snoc hourly_data current_hour hour_end hour_data mode oee :
  bounds (hourly_data ++ [hour_entry current_hour hour_end hour_data mode oee])
  = bounds hourly_data ++ [(current_hour, hour_end)].
Proof.
  unfold bounds. rewrite map_app. cbn [map].
  destruct (hour_entry_bounds current_hour hour_end hour_data mode oee) as [-> ->].
  reflexivity.
Qed.

(** Whatever the queries answer, the loop of [get_historical_hourly_data]
    ends, and the buckets it appends are the spans of its cursor whose
    query succeeded, in order. *)
Lemma historical_hourly_loop_answered db unit_name end_dt now mode :
  forall fuel current_hour acc,
    end_dt - current_hour <= Z.of_nat fuel * hours 1 ->
    exists acc',
      historical_hourly_loop fuel db unit_name end_dt now mode current_hour acc
      = Some acc'
      /\ bounds (HourlyAcc.hourly_data acc')
         = bounds (HourlyAcc.hourly_data acc)
           ++ filter (bucket_answered db unit_name now mode)
                     (hour_spans_from fuel current_hour end_dt).
Proof.
  induction fuel as [|fuel IH]; intros current_hour acc Hfuel.
  - simpl. destruct (Z.ltb_spec current_hour end_dt); [simpl in Hfuel; lia |].
    exists acc. split; [reflexivity | rewrite app_nil_r; reflexivity].
  - cbn [historical_hourly_loop hour_spans_from].
    destruct (Z.ltb_spec current_hour end_dt) as [Hlt|Hge].
    2:{ exists acc. split; [reflexivity | rewrite app_nil_r; reflexivity]. }
    cbv zeta. set (hour_end := Z.min (current_hour + hours 1) end_dt).
    assert (Hnext : end_dt - hour_end <= Z.of_nat fuel * hours 1)
      by (unfold hour_end, hours in *; lia).
    cbn [filter]. unfold bucket_answered at 1, query_succeeds. cbn [fst snd].
    destruct (get_production_data _ _ _ _ _ _) as [hour_data| |msg].
    + destruct (IH hour_end
                  (HourlyAcc.mk
                     (HourlyAcc.hourly_data acc
                      ++ [hour_entry current_hour hour_end hour_data mode None])
                     (HourlyAcc.total_success acc
                      + Hour.success_qty
                          (hour_entry current_hour hour_end hour_data mode None))
                     (HourlyAcc.total_fail acc
                      + Hour.fail_qty
                          (hour_entry current_hour hour_end hour_data mode None))
                     (HourlyAcc.total_qty acc
                      + Hour.total_qty
                          (hour_entry current_hour hour_end hour_data mode None)))
                  Hnext) as (acc' & Hrun & Hbounds).
      exists acc'. split; [exact Hrun |].
      rewrite Hbounds. cbn [HourlyAcc.hourly_data].
      rewrite bounds_snoc, <- app_assoc. reflexivity.
    + destruct (IH hour_end acc Hnext) as (acc' & Hrun & Hbounds).
      exists acc'. split; [exact Hrun | exact Hbounds].
    + destruct (IH hour_end acc Hnext) as (acc' & Hrun & Hbounds).
      exists acc'. split; [exact Hrun | exact Hbounds].
Qed.

Lemma historical_hourly_answered db unit_name start_dt end_dt now mode :
  exists r,
    get_historical_hourly_data db unit_name start_dt end_dt now mode
    = Some (Response r)
    /\ bounds (HistoricalHourly.hourly_data r)
       = filter (bucket_answered db unit_name now mode)
                (hour_spans (replace_minute0 start_dt) end_dt).
Proof.
  unfold get_historical_hourly_data, hour_spans.
  destruct (historical_hourly_loop_answered db unit_name end_dt now mode
              (hourly_fuel (replace_minute0 start_dt) end_dt)
              (replace_minute0 start_dt) HourlyAcc.init (hourly_fuel_enough _ _))
    as (acc' & -> & Hbounds).
  eexists. split; [reflexivity |].
  cbn [HistoricalHourly.hourly_data]. rewrite Hbounds. reflexivity.
Qed.

(** C6, as the code has it.  The cursor of an hourly breakdown goes through
    the hour spans that partition the time from the start of the window
    floored to the hour up to the end of the span: they follow one another
    without gap or overlap, each lasting one hour except a possibly shorter
    last one.  The span ends at the end of the window for the REST endpoint;
    for the hourly channel it ends at the current time when that is within
    5 minutes of the end of the window, and at the end of the window
    otherwise.  Both breakdowns end, and their buckets are those spans
    whose query succeeded, in order: a bucket whose query times out or fails
    is left out of the list, and no other is.  Hence, when every query of
    the unit succeeds, the buckets are that partition.  A window of 2.5
    hours from 10:00 gives the three buckets from 10:00, 11:00 and 12:00,
    the last ending at 12:30. *)
Theorem hourly_buckets_partition db unit_name start_time end_time now mode :
  (forall hi,
      (replace_minute0 start_time < hi ->
       partitions (replace_minute0 start_time) hi
                  (hour_spans (replace_minute0 start_time) hi))
      /\ (hi <= replace_minute0 start_time ->
          hour_spans (replace_minute0 start_time) hi = []))
  /\ (exists r,
         get_historical_hourly_data db unit_name start_time end_time now mode
         = Some (Response r)
         /\ bounds (HistoricalHourly.hourly_data r)
            = filter (bucket_answered db unit_name now mode)
                     (hour_spans (replace_minute0 start_time) end_time))
  /\ (exists hourly_data,
         ws_hourly_breakdown db unit_name start_time end_time now mode
         = Some hourly_data
         /\ bounds hourly_data
            = filter (bucket_answered db unit_name now mode)
                     (hour_spans (replace_minute0 start_time)
                                 (snd (hourly_live end_time now))))
  /\ (always_answers db unit_name ->
      (exists r,
          get_historical_hourly_data db unit_name start_time end_time now mode
          = Some (Response r)
          /\ buckets_of (replace_minute0 start_time) end_time
                        (HistoricalHourly.hourly_data r))
      /\ (exists hourly_data,
             ws_hourly_breakdown db unit_name start_time end_time now mode
             = Some hourly_data
             /\ buckets_of (replace_minute0 start_time)
                           (snd (hourly_live end_time now)) hourly_data)).
Proof.
  split; [| split; [| split]].
  - intros hi. split.
    + intros Hlt. unfold hour_spans.
      apply hour_spans_from_partitions; [apply hourly_fuel_enough | exact Hlt].
    + intros Hle. unfold hour_spans. apply hour_spans_from_done. exact Hle.
  - apply historical_hourly_answered.
  - rewrite ws_hourly_breakdown_as_historical.
    destruct (historical_hourly_answered db unit_name start_time
                (snd (hourly_live end_time now)) now mode) as (r & -> & Hbounds).
    eexists. split; [reflexivity |]. rewrite bounds_with_oee. exact Hbounds.
  - intros Hdb. split.
    + unfold get_historical_hourly_data.
      destruct (historical_hourly_loop_partitions db unit_name end_time now mode Hdb
                  (hourly_fuel (replace_minute0 start_time) end_time)
                  (replace_minute0 start_time) HourlyAcc.init
                  (hourly_fuel_enough _ _))
        as (acc' & new & -> & Hdata & Hnew).
      eexists. split; [reflexivity |].
      cbn [HistoricalHourly.hourly_data]. rewrite Hdata. exact Hnew.
    + unfold ws_hourly_breakdown.
      destruct (hourly_live end_time now) as [is_live_data actual_end] eqn:Hlive.
      assert (Hnow : is_live_data = true -> actual_end = now).
      { unfold hourly_live in Hlive. injection Hlive as Hl Ha. intros Ht.
        rewrite <- Hl in Ht. rewrite Ht in Ha. symmetry. exact Ha. }
      destruct (ws_hourly_loop_partitions db unit_name is_live_data actual_end now
                  mode Hdb Hnow
                  (hourly_fuel (replace_minute0 start_time) actual_end)
                  (replace_minute0 start_time) [] (hourly_fuel_enough _ _))
        as (new & -> & Hnew).
      exists new. split; [reflexivity | exact Hnew].
Qed.

Lemma hourly_buckets_partition_witness :
  (exists r,
      get_historical_hourly_data (const_db []) "U1"%string (at_ 0 10 0) (at_ 0 12 30)
                                 (at_ 1 0 0) "mode1"%string = Some (Response r)
      /\ buckets_of (at_ 0 10 0) (at_ 0 12 30) (HistoricalHourly.hourly_data r)
      /\ bounds (HistoricalHourly.hourly_data r)
         = [(at_ 0 10 0, at_ 0 11 0); (at_ 0 11 0, at_ 0 12 0);
            (at_ 0 12 0, at_ 0 12 30)])
  /\ (exists hourly_data,
         ws_hourly_breakdown (const_db []) "U1"%string (at_ 0 10 0) (at_ 0 12 30)
                             (at_ 1 0 0) "mode1"%string = Some hourly_data
         /\ buckets_of (at_ 0 10 0) (at_ 0 12 30) hourly_data
         /\ bounds hourly_data
            = [(at_ 0 10 0, at_ 0 11 0); (at_ 0 11 0, at_ 0 12 0);
               (at_ 0 12 0, at_ 0 12 30)])
  /\ (exists r,
         get_historical_hourly_data gap_db "U1"%string (at_ 0 10 0) (at_ 0 12 30)
                                    (at_ 1 0 0) "mode1"%string = Some (Response r)
         /\ bounds (HistoricalHourly.hourly_data r)
            = filter (bucket_answered gap_db "U1"%string (at_ 1 0 0) "mode1"%string)
                     [(at_ 0 10 0, at_ 0 11 0); (at_ 0 11 0, at_ 0 12 0);
                      (at_ 0 12 0, at_ 0 12 30)]
         /\ bounds (HistoricalHourly.hourly_data r)
            = [(at_ 0 10 0, at_ 0 11 0); (at_ 0 12 0, at_ 0 12 30)]).
Proof.
  destruct (proj2 (proj2 (proj2
              (hourly_buckets_partition (const_db []) "U1"%string (at_ 0 10 0)
                 (at_ 0 12 30) (at_ 1 0 0) "mode1"%string)))
              (const_db_always_answers [] "U1"%string))
    as [(r & Hr & Hb) (hourly_data & Hh & Hbh)].
  destruct (proj1 (proj2
              (hourly_buckets_partition gap_db "U1"%string (at_ 0 10 0)
                 (at_ 0 12 30) (at_ 1 0 0) "mode1"%string)))
    as (g & Hg & Hgb).
  split; [| split].
  - exists r. split; [exact Hr |]. split; [exact Hb |].
    vm_compute in Hr. injection Hr as <-. vm_compute. reflexivity.
  - exists hourly_data. split; [exact Hh |]. split; [exact Hbh |].
    vm_compute in Hh. injection Hh as <-. vm_compute. reflexivity.
  - exists g. split; [exact Hg |]. split; [exact Hgb |].
    rewrite Hgb. vm_compute. reflexivity.
Defined.
